(** * dl4seq: the hyper-parameter search orchestrator [HyperOpt]

    A shallow embedding of [dl4seq/hyper_opt/hyper_opt.py]: the backend
    resolver, the parameter-space conversion, the grid enumeration, the
    objective invocation, the result store with its best-trial query, the
    trial-history record and the attribute delegation of the class
    [HyperOpt].

    Conventions of the embedding.
    - A Python [dict] is an association list in insertion order: assigning to
      a key that is present replaces the value in place, assigning to a new
      key appends.
    - A Python exception is a value of [exn]; code that may raise returns a
      [result].
    - A Python [float] is an exact rational of [Q]; every concrete value used
      below is a small dyadic rational, on which binary64 arithmetic is
      exact. *)

From Stdlib Require Import List String Ascii Bool Arith ZArith QArith Qround Lia.
From Stdlib Require Import Permutation Sorted Lqa.
Import ListNotations.
Local Open Scope string_scope.
Local Open Scope list_scope.
Local Close Scope Q_scope.

(** ** Python values, exceptions and dictionaries *)

Module Py.

(** The literals that occur in parameter spaces and trial records. *)
Inductive pyval : Type :=
| PNone
| PBool (b : bool)
| PInt (z : Z)
| PFloat (q : Q)
| PStr (s : string).

(** The origins of a [TypeError] that the orchestrator distinguishes: the
    call of the objective itself, a library call (numpy, scikit-learn), and
    [eval_sequence] with its advice on [use_named_args]. *)
Inductive type_error : Type :=
| FromObjective
| FromLibrary
| UseNamedArgsHint (use_named_args : bool).

Inductive exn : Type :=
| ValueError
| AssertionError (msg : option string)
| NotImplementedError
| KeyError (key : string)
| IndexError
| TypeError (why : type_error)
| AttributeError (item : string)
| RecursionError.

Inductive result (A : Type) : Type :=
| Ok (a : A)
| Raise (e : exn).

Arguments Ok {A} a.
Arguments Raise {A} e.

Definition bind {A B : Type} (r : result A) (k : A -> result B) : result B :=
  match r with
  | Ok a => k a
  | Raise e => Raise e
  end.

Definition is_ok {A : Type} (r : result A) : bool :=
  match r with Ok _ => true | Raise _ => false end.

(** [assert cond, msg] *)
Definition assert_ (cond : bool) (msg : option string) : result unit :=
  if cond then Ok tt else Raise (AssertionError msg).

(** [x in l] for a list of strings. *)
Definition str_in (x : string) (l : list string) : bool :=
  existsb (String.eqb x) l.

#[local] Unset Elimination Schemes.
Inductive json : Type :=
| JNull
| JBool (b : bool)
| JInt (z : Z)
| JFloat (q : Q)
| JStr (s : string)
| JArr (elements : list json)
| JObj (members : list (string * json)).
#[local] Set Elimination Schemes.

(** A literal as [json.dump] writes it and as [json.load] reads it back. *)
Definition to_json (v : pyval) : json :=
  match v with
  | PNone => JNull
  | PBool b => JBool b
  | PInt z => JInt z
  | PFloat q => JFloat q
  | PStr s => JStr s
  end.

Definition of_json (j : json) : option pyval :=
  match j with
  | JNull => Some PNone
  | JBool b => Some (PBool b)
  | JInt z => Some (PInt z)
  | JFloat q => Some (PFloat q)
  | JStr s => Some (PStr s)
  | _ => None
  end.

Section Dict.
Context {K V : Type}.
Variable keq : K -> K -> bool.

Definition dict : Type := list (K * V).

(** [d.get(k)] *)
Fixpoint dict_get (d : dict) (k : K) : option V :=
  match d with
  | [] => None
  | (k', v) :: d' => if keq k k' then Some v else dict_get d' k
  end.

(** [d[k] = v] *)
Fixpoint dict_set (d : dict) (k : K) (v : V) : dict :=
  match d with
  | [] => [(k, v)]
  | (k', v') :: d' =>
      if keq k k' then (k', v) :: d' else (k', v') :: dict_set d' k v
  end.

Definition dict_keys (d : dict) : list K := map fst d.
Definition dict_values (d : dict) : list V := map snd d.

(** [dict(pairs)]: later pairs overwrite earlier ones. *)
Definition dict_of (pairs : list (K * V)) : dict :=
  fold_left (fun d kv => dict_set d (fst kv) (snd kv)) pairs [].
End Dict.

(** [j[k]] for a value read by [json.load] *)
Definition json_get (j : json) (k : string) : result json :=
  match j with
  | JObj members =>
      match dict_get String.eqb members k with
      | Some v => Ok v
      | None => Raise (KeyError k)
      end
  | _ => Raise (TypeError FromLibrary)
  end.

(** What [json.load] reads from a file.  [json.dump] writes a [float] key
    of a dict as the text that [float.__repr__] gives it: digits with a
    sign, a point and an exponent mark, or [inf] or [nan].  A document
    whose member names are such texts is kept as [FloatKeyed], with the
    floats in place of their texts, so that no decimal rendering has to be
    fixed. *)
Inductive document : Type :=
| Document (j : json)
| FloatKeyed (members : list (Q * json)).

(** [doc[k]] where the name [k] is not the text of a float. *)
Definition document_get (doc : document) (k : string) : result json :=
  match doc with
  | Document j => json_get j k
  | FloatKeyed _ => Raise (KeyError k)
  end.

End Py.

Export Py.

Declare Scope py_scope.
Delimit Scope py_scope with py.
Notation "x <- r ;; k" := (bind r (fun x => k))
  (at level 61, r at next level, right associativity) : py_scope.
Notation "r ;;; k" := (bind r (fun _ => k))
  (at level 61, right associativity) : py_scope.
Local Open Scope py_scope.

(** ** The algorithm table and the backend resolver *)

Module Resolver.

Record algorithm_info : Type := {
  name : option string;
  backend : option (list string)
}.

(** The table [ALGORITHMS]; the entry of ['bayes'] is the empty dict. *)
Definition ALGORITHMS : list (string * algorithm_info) :=
  [ ("gp", {| name := Some "gaussian_processes"; backend := Some ["skopt"] |});
    ("bayes", {| name := None; backend := None |});
    ("forest", {| name := Some "decision_tree"; backend := Some ["skopt"] |});
    ("gbrt", {| name := Some "gradient-boosted-tree regression";
                backend := Some ["skopt"] |});
    ("tpe", {| name := Some "Tree of Parzen Estimators";
               backend := Some ["hyperopt"; "optuna"] |});
    ("atpe", {| name := Some "Adaptive Tree of Parzen Estimators";
                backend := Some ["hyperopt"] |});
    ("random", {| name := Some "random search";
                  backend := Some ["sklearn"; "optuna"; "hyperopt"] |});
    ("grid", {| name := Some "grid search";
                backend := Some ["sklearn"; "optuna"] |});
    ("cmaes", {| name := Some "Covariance Matrix Adaptation Evolution Strategy";
                 backend := Some ["optuna"] |}) ].

(** [algorithm in ALGORITHMS] *)
Definition is_algorithm (algorithm : string) : bool :=
  str_in algorithm (dict_keys ALGORITHMS).

(** The backends that the table lists for an algorithm. *)
Definition table_backends (algorithm : string) : list string :=
  match dict_get String.eqb ALGORITHMS algorithm with
  | Some {| backend := Some bs |} => bs
  | _ => []
  end.

Definition in_table (algorithm x : string) : bool :=
  str_in x (table_backends algorithm).

Definition known_backends : list string :=
  ["optuna"; "hyperopt"; "sklearn"; "skopt"].

Definition unknown_backend_msg (x : string) : string :=
  String "010"%char
    ("Backend must be one of hyperopt, optuna or sklearn but is is " ++ x).

(** [x = default if x is None else x] *)
Definition or_default (x : option string) (default : string) : string :=
  match x with
  | None => default
  | Some b => b
  end.

(** The setter of the property [backend]; the result is the value stored in
    [self._backend]. *)
Definition backend_setter (algorithm : string) (x : option string)
  : result string :=
  match x with
  | Some b => assert_ (str_in b known_backends) (Some (unknown_backend_msg b))
  | None => Ok tt
  end ;;;
  if algorithm =? "tpe" then
    let x := or_default x "optuna" in
    assert_ (str_in x ["optuna"; "hyperopt"]) None ;;; Ok x
  else if algorithm =? "cmaes" then
    let x := or_default x "optuna" in
    assert_ (x =? "optuna") None ;;; Ok x
  else if algorithm =? "atpe" then
    let x := or_default x "hyperopt" in
    assert_ (x =? "hyperopt") None ;;; Ok x
  else if algorithm =? "random" then
    let x := or_default x "sklearn" in
    assert_ (str_in x ["optuna"; "hyperopt"; "sklearn"]) None ;;; Ok x
  else if algorithm =? "grid" then
    let x := or_default x "sklearn" in
    assert_ (str_in x ["sklearn"; "optuna"]) None ;;; Ok x
  else if algorithm =? "bayes" then
    Ok (or_default x "skopt")
  else
    Raise ValueError.

End Resolver.

(** ** Parameter dimensions and the conversion of raw spaces *)

Module Space.

Inductive dim_kind : Type := KInteger | KReal | KCategorical.

(** Modelled from the spec: the classes [Integer], [Real] and [Categorical]
    of [dl4seq/hyper_opt/utils.py] are not among the sources.  The spec's
    ParameterDimension is a tagged variant [Real{low, high, prior, name}],
    [Integer{low, high, prior, name}], [Categorical{values, name}] that may
    carry an explicit discrete [grid], with [low < high] as the invariant
    of the numeric kinds and a non-empty sequence of values as that of
    [Categorical]; the constructors below keep it. *)
Record Dimension : Type := {
  kind : dim_kind;
  dname : string;
  low : option pyval;
  high : option pyval;
  prior : option pyval;
  grid : option (list pyval);
  categories : list pyval
}.

(** [isinstance(x, int)]; a Python [bool] is an [int]. *)
Definition is_int (x : pyval) : bool :=
  match x with PInt _ | PBool _ => true | _ => false end.

(** [isinstance(x, float)] *)
Definition is_float (x : pyval) : bool :=
  match x with PFloat _ => true | _ => false end.

(** [isinstance(x, str)] *)
Definition is_str (x : pyval) : bool :=
  match x with PStr _ => true | _ => false end.

Definition is_numeric (x : pyval) : bool := is_int x || is_float x.

(** The number that numpy reads in a literal, if it is one. *)
Definition num_of (x : pyval) : option Q :=
  match x with
  | PBool b => Some (if b then 1 else 0)%Q
  | PInt z => Some (inject_Z z)
  | PFloat q => Some q
  | _ => None
  end.

(** The first literal of [v] that is extremal for [better]; [None] when [v]
    is empty or holds a literal that is not a number. *)
Fixpoint extremum (better : Q -> Q -> bool) (v : list pyval)
  : option (pyval * Q) :=
  match v with
  | [] => None
  | x :: v' =>
      match num_of x, v' with
      | None, _ => None
      | Some q, [] => Some (x, q)
      | Some q, _ :: _ =>
          match extremum better v' with
          | None => None
          | Some (y, r) => if better r q then Some (y, r) else Some (x, q)
          end
      end
  end.

Definition Qltb (a b : Q) : bool := negb (Qle_bool b a).

(** The type that [np.array] finds for one literal: a Python [int] is an
    [int64] when it fits, a [uint64] when it fits that, and an object
    otherwise. *)
Inductive dtype : Type := bool_ | int64 | uint64 | float64 | str_ | object_.

Definition dtype_of (x : pyval) : dtype :=
  match x with
  | PBool _ => bool_
  | PInt z =>
      if (- 2 ^ 63 <=? z)%Z && (z <? 2 ^ 63)%Z then int64
      else if (2 ^ 63 <=? z)%Z && (z <? 2 ^ 64)%Z then uint64
      else object_
  | PFloat _ => float64
  | PStr _ => str_
  | PNone => object_
  end.

(** The common type of two: [int64] and [uint64] meet in [float64]. *)
Definition promote (a b : dtype) : dtype :=
  match a, b with
  | object_, _ | _, object_ => object_
  | str_, _ | _, str_ => str_
  | float64, _ | _, float64 => float64
  | int64, uint64 | uint64, int64 => float64
  | uint64, _ | _, uint64 => uint64
  | int64, _ | _, int64 => int64
  | bool_, bool_ => bool_
  end.

(** The double nearest to the integer [z], a tie going to the even
    significand: what a 64-bit integer becomes in a [float64] array. *)
Definition double_of_Z (z : Z) : Q :=
  let a := Z.abs z in
  if (a <? 2 ^ 53)%Z then inject_Z z
  else
    let e := (Z.log2 a - 52)%Z in
    let q := Z.shiftr a e in
    let r := (a - Z.shiftl q e)%Z in
    let half := Z.shiftl 1 (e - 1) in
    let q' := if (half <? r)%Z || ((r =? half)%Z && Z.odd q)
              then (q + 1)%Z else q in
    inject_Z (Z.sgn z * Z.shiftl q' e).

(** A literal as an element of an array of the type [t]. *)
Definition cast (t : dtype) (x : pyval) : pyval :=
  match t, x with
  | float64, PBool b => PFloat (if b then 1 else 0)%Q
  | float64, PInt z => PFloat (double_of_Z z)
  | (int64 | uint64), PBool b => PInt (if b then 1 else 0)%Z
  | _, _ => x
  end.

(** [np.min(v)] and [np.max(v)] of a list of literals, [better] telling
    which of two numbers wins.  numpy raises [ValueError] for the empty
    list.  It makes an array of the common type of the literals first: a
    list that holds a string becomes an array of strings, which cannot be
    reduced ([TypeError]); an array of objects is reduced with the
    comparisons of Python, which fail on [None] ([TypeError]) unless there
    is nothing to compare; in an array of numbers the literals are cast
    before they are compared, so that the result of a list that mixes
    [int] with [float], or small with very large [int], is a float. *)
Definition np_reduce (better : Q -> Q -> bool) (v : list pyval) : result pyval :=
  match v with
  | [] => Raise ValueError
  | x0 :: rest =>
      let t := fold_left promote (map dtype_of rest) (dtype_of x0) in
      match t, rest with
      | str_, _ => Raise (TypeError FromLibrary)
      | object_, [] => Ok x0
      | _, _ =>
          match extremum better (map (cast t) v) with
          | Some (x, _) => Ok x
          | None => Raise (TypeError FromLibrary)
          end
      end
  end.

Definition np_min (v : list pyval) : result pyval := np_reduce Qltb v.

Definition np_max (v : list pyval) : result pyval :=
  np_reduce (fun r q => Qltb q r) v.

(** [low < high], for two bounds that are numbers. *)
Definition proper_bounds (lo hi : pyval) : bool :=
  match num_of lo, num_of hi with
  | Some a, Some b => Qltb a b
  | _, _ => false
  end.

(** [prior in ["uniform", "log-uniform"]] *)
Definition known_prior (p : pyval) : bool :=
  match p with
  | PStr s => (s =? "uniform") || (s =? "log-uniform")
  | _ => false
  end.

(** Modelled from the spec: [Integer(low=lo, high=hi, name=k)] and
    [Real(low=lo, high=hi, name=k)].  The spec has the construction fail
    unless [low < high].  The objects are instances of the [Dimension] of
    scikit-optimize, as the setter of [param_space] asserts: the failure
    is the [ValueError] with which the classes of scikit-optimize refuse
    their bounds. *)
Definition with_range (t : dim_kind) (lo hi : pyval) (k : string)
  : result Dimension :=
  if proper_bounds lo hi then
    Ok {| kind := t; dname := k; low := Some lo; high := Some hi;
          prior := None; grid := None; categories := [] |}
  else Raise ValueError.

(** Modelled from the spec: [Integer(low=lo, high=hi, name=k, prior=p)],
    likewise for [Real].  As [with_range]; a prior that is not one of the
    two that scikit-optimize knows is refused with its [ValueError] as
    well. *)
Definition with_prior (t : dim_kind) (lo hi p : pyval) (k : string)
  : result Dimension :=
  if proper_bounds lo hi && known_prior p then
    Ok {| kind := t; dname := k; low := Some lo; high := Some hi;
          prior := Some p; grid := None; categories := [] |}
  else Raise ValueError.

(** Modelled from the spec: [Integer(grid=v, name=k)] and
    [Real(grid=v, name=k)].  A numeric dimension that is given by its grid
    alone has to take its bounds from the grid, the least and the greatest
    of its values, for which the invariant [low < high] is checked as in
    [with_range]; a grid that numpy cannot reduce fails with the error of
    numpy. *)
Definition with_grid (t : dim_kind) (v : list pyval) (k : string)
  : result Dimension :=
  lo <- np_min v ;;
  hi <- np_max v ;;
  if proper_bounds lo hi then
    Ok {| kind := t; dname := k; low := Some lo; high := Some hi;
          prior := None; grid := Some v; categories := [] |}
  else Raise ValueError.

(** Modelled from the spec: [Categorical(v, name=k)]; the spec has the
    sequence of values non-empty, and the construction fail otherwise. *)
Definition Categorical (v : list pyval) (k : string) : result Dimension :=
  match v with
  | [] => Raise ValueError
  | _ :: _ =>
      Ok {| kind := KCategorical; dname := k; low := None; high := None;
            prior := None; grid := None; categories := v |}
  end.

(** [space_from_list(v, k)] *)
Definition space_from_list (v : list pyval) (k : string) : result Dimension :=
  if (2 <? List.length v)%nat then
    match v with
    | [] => Raise IndexError
    | v0 :: _ =>
        if is_int v0 then with_grid KInteger v k
        else if is_float v0 then with_grid KReal v k
        else Categorical v k
    end
  else
    match v with
    | [] => Raise IndexError
    | v0 :: _ =>
        if is_int v0 then
          lo <- np_min v ;; hi <- np_max v ;; with_range KInteger lo hi k
        else if is_float v0 then
          lo <- np_min v ;; hi <- np_max v ;; with_range KReal lo hi k
        else if is_str v0 then Categorical v k
        else Raise NotImplementedError
    end.

(** What a caller may put in a parameter space: a [Dimension], a list or a
    tuple of literals, a hyperopt expression ([Apply]), or something else. *)
Inductive space_item : Type :=
| ItDimension (d : Dimension)
| ItList (v : list pyval)
| ItTuple (v : list pyval)
| ItApply (label : string)
| ItNone
| ItOther.

Inductive raw_space : Type :=
| SpDict (items : dict (K:=string) (V:=space_item))
| SpList (items : list space_item)
| SpDimension (d : Dimension)
| SpApply (label : string)
| SpOther.

Definition is_Dimension (i : space_item) : bool :=
  match i with ItDimension _ => true | _ => false end.

Definition is_Apply (i : space_item) : bool :=
  match i with ItApply _ => true | _ => false end.

(** [s.as_hp()]: the hyperopt expression of a dimension, labelled by its
    name; what the expression samples is left to hyperopt. *)
Definition as_hp (d : Dimension) : space_item := ItApply (dname d).

(** [s.grid] as a value of a parameter space. *)
Definition grid_item (d : Dimension) : space_item :=
  match grid d with
  | Some g => ItList g
  | None => ItNone
  end.

(** The dimensions of [xs] when [all([isinstance(s, Dimension) for s in xs])]. *)
Fixpoint all_dimensions (xs : list space_item) : option (list Dimension) :=
  match xs with
  | [] => Some []
  | ItDimension d :: xs' =>
      match all_dimensions xs' with
      | Some ds => Some (d :: ds)
      | None => None
      end
  | _ :: _ => None
  end.

(** [OrderedDict({s.name: s for s in ds})] *)
Definition by_name (ds : list Dimension) : dict (K:=string) (V:=Dimension) :=
  dict_of String.eqb (map (fun d => (dname d, d)) ds).

(** The dimension that the branch [self.backend == 'sklearn'] of
    [HyperOpt.space] makes of the value [v] stored under the name [k]. *)
Definition space_of_value (k : string) (v : space_item) : result Dimension :=
  match v with
  | ItList l => space_from_list l k
  | ItDimension d => Ok d
  | ItTuple t => Categorical t k
  | _ => Raise NotImplementedError
  end.

(** The branch [self.backend == 'sklearn'] of [HyperOpt.space]. *)
Fixpoint space_sklearn_items (items : list (string * space_item))
  (_space : dict (K:=string) (V:=Dimension))
  : result (dict (K:=string) (V:=Dimension)) :=
  match items with
  | [] => Ok _space
  | (k, v) :: items' =>
      s <- space_of_value k v ;;
      space_sklearn_items items' (dict_set String.eqb _space k s)
  end.

Definition space_sklearn (original_space : raw_space)
  : result (dict (K:=string) (V:=Dimension)) :=
  match original_space with
  | SpList xs =>
      match all_dimensions xs with
      | Some ds => Ok (by_name ds)
      | None => Raise NotImplementedError
      end
  | SpDict items => space_sklearn_items items []
  | _ => Raise NotImplementedError
  end.

End Space.

(** ** The class [HyperOpt]: construction and attribute lookup *)

Module Orchestrator.

Import Resolver Space.

Definition params : Type := dict (K:=string) (V:=pyval).

(** The objective callable, as far as the orchestrator observes it. *)
Record objective : Type := {
  (** ["sklearn" in str(type(objective_fn))] *)
  of_sklearn : bool;
  (** [inspect.getfullargspec(objective_fn).varkw], or the [TypeError]
      that [getfullargspec] raises for a callable whose signature it
      cannot read (a builtin such as [max], a class such as [dict]) *)
  varkw : result (option string);
  (** [objective_fn( **para )] *)
  call_kw : params -> result Q;
  (** [objective_fn( *args )] *)
  call_pos : list pyval -> result Q;
  (** [objective_fn(x)], the mapping [x] being the only argument *)
  call_mapping : params -> result Q
}.

(** A keyword argument of the constructor. *)
Inductive kwarg : Type :=
| KwValue (v : pyval)
| KwDict (d : params)
| KwList (l : list pyval)
| KwObject.

Definition kwargs : Type := dict (K:=string) (V:=kwarg).

(** [d.pop(k)] *)
Definition dict_pop {V : Type} (d : dict (K:=string) (V:=V)) (k : string)
  : result (V * dict (K:=string) (V:=V)) :=
  match dict_get String.eqb d k with
  | Some v => Ok (v, filter (fun kv => negb (k =? fst kv)) d)
  | None => Raise (KeyError k)
  end.

Definition has_key {V : Type} (d : dict (K:=string) (V:=V)) (k : string) : bool :=
  str_in k (dict_keys d).

(** The instance attributes of a [HyperOpt] object that the embedding
    follows.  An attribute that the constructor assigns on some paths only
    is an [option].  The attributes [_title] and [_opt_path] are left out:
    they hold texts made from the clock and the file system, and
    [dl4seq_model] assigns [title] again on every trial, so that on the
    dl4seq path the object changes in an attribute that is not among
    these. *)
Record HyperOpt : Type := {
  objective_fn : option objective;
  algorithm : string;
  _backend : string;
  _param_space : raw_space;
  original_space : raw_space;
  dl4seq_args : option kwarg;
  results : dict (K:=Q) (V:=params);
  gpmin_results : option document;
  data : option kwarg;
  eval_on_best : bool;
  use_dl4seq_model : bool;
  _model : option pyval;
  gpmin_args : kwargs;
  (** the class of the estimator stored in [self.optfn] *)
  optfn : option string;
  (** the method stored in [self.fit] *)
  fit : option string;
  predict : option bool
}.

(** What the embedding takes from the libraries around the class. *)
Record environment : Type := {
  (** [int(''.join(skopt.__version__.split('.')[1]))] *)
  skopt_minor : nat;
  (** [hasattr(est, item)] for an estimator of the named scikit-learn or
      scikit-optimize class *)
  estimator_has : string -> string -> bool;
  (** the names that every Python object defines *)
  object_attributes : list string;
  (** the validation mse of the dl4seq [Model] fitted with the given
      hyper-parameters *)
  dl4seq_mse : params -> Q;
  (** the names of the dimensions of [self.skopt_space()], which is built
      with scikit-optimize and with helpers that are not among the sources *)
  skopt_space_names : raw_space -> result (list string);
  (** [float(f'{k}_{idx}')] *)
  suffixed : Q -> nat -> Q;
  (** the trials that a hyperopt [Trials] or an optuna [Study] holds, as
      [xy_of_iterations] reads them, and the parameters of its best trial *)
  engine_iterations : HyperOpt -> result (dict (K:=Q) (V:=params));
  engine_best : HyperOpt -> result params;
  (** the setter of [opt_path], given the value of the keyword argument
      ['opt_path'] if there is one: it makes the directory with
      [os.makedirs], which can raise *)
  set_opt_path : option kwarg -> result unit;
  (** the constructor of the named estimator class of scikit-learn or
      scikit-optimize, called with the objective as its estimator, the
      parameter space and the keyword arguments given *)
  estimator_init : string -> option objective -> raw_space -> kwargs
                   -> result unit;
  (** [os.path.dirname(fpath)] *)
  dirname : string -> string;
  (** what [_plot] does after it has written the two records: the results
      in the form of scikit-optimize, the figures and the importances *)
  plots : HyperOpt -> result unit
}.

Fixpoint assert_all {A : Type} (ok : A -> bool) (msg : A -> option string)
  (l : list A) : result unit :=
  match l with
  | [] => Ok tt
  | a :: l' => assert_ (ok a) (msg a) ;;; assert_all ok msg l'
  end.

Definition is_tuple (i : space_item) : bool :=
  match i with ItTuple _ => true | _ => false end.

(** [for s in x: assert isinstance(s, Dimension); d[s.name] = f(s)] *)
Fixpoint collect_dimensions (f : Dimension -> space_item)
  (x : list space_item) (d : dict (K:=string) (V:=space_item))
  : result (dict (K:=string) (V:=space_item)) :=
  match x with
  | [] => Ok d
  | ItDimension s :: x' =>
      collect_dimensions f x' (dict_set String.eqb d (dname s) (f s))
  | _ :: _ => Raise (AssertionError None)
  end.

(** The setter of the property [param_space]; the result is the value
    stored in [self._param_space].  The texts of the assertions are cut
    to their first words. *)
Definition param_space_setter (algorithm backend : string) (x : raw_space)
  : result raw_space :=
  if algorithm =? "bayes" then
    match x with
    | SpDict items =>
        assert_all (fun kv => is_Dimension (snd kv))
          (fun kv => Some ("space for parameter " ++ fst kv
                           ++ " is of invalid type")%string)
          items ;;;
        Ok (SpList (dict_values items))
    | SpList items =>
        assert_all (fun i => is_tuple i || is_Dimension i)
          (fun _ => Some "param space must be one of Integer, Real or Categorical")
          items ;;;
        Ok x
    | _ => Raise (AssertionError (Some "param space must be list of parameters"))
    end
  else if str_in algorithm ["random"; "grid"] && negb (backend =? "optuna") then
    match x with
    | SpDict _ => Ok x
    | SpList items => d <- collect_dimensions grid_item items [] ;; Ok (SpDict d)
    | _ => Raise ValueError
    end
  else if str_in algorithm ["tpe"; "atpe"; "random"] && (backend =? "hyperopt") then
    match x with
    | SpList items =>
        match items with
        | [] => Raise IndexError
        | x0 :: _ =>
            if is_Dimension x0 then
              d <- collect_dimensions as_hp items [] ;; Ok (SpDict d)
            else if is_Apply x0 then
              assert_all is_Apply (fun _ => Some "invalid space type") items ;;;
              Ok (SpList items)
            else Raise NotImplementedError
        end
    | SpDimension d => Ok (SpApply (dname d))
    | _ => Ok x
    end
  else if backend =? "optuna" then
    match x with
    | SpList items => d <- collect_dimensions ItDimension items [] ;; Ok (SpDict d)
    | SpDict items =>
        assert_ (forallb (fun kv => is_Dimension (snd kv)) items) None ;;; Ok x
    | _ => Raise NotImplementedError
    end
  else Raise ValueError.

(** [check_args]: the attributes it assigns and the keyword arguments it
    returns. *)
Record checked_args : Type := {
  ca_dl4seq_args : option kwarg;
  ca_data : option kwarg;
  ca_model : option pyval;
  ca_use_dl4seq_model : bool;
  ca_kwargs : kwargs
}.

Definition check_args (env : environment) (algorithm : string) (kw : kwargs)
  : result checked_args :=
  ca <- (if has_key kw "dl4seq_args" then
           a <- dict_pop kw "dl4seq_args" ;;
           d <- dict_pop (snd a) "data" ;;
           match fst a with
           | KwDict args =>
               m <- dict_pop args "model" ;;
               Ok {| ca_dl4seq_args := Some (KwDict (snd m));
                     ca_data := Some (fst d);
                     ca_model := Some (fst m);
                     ca_use_dl4seq_model := true;
                     ca_kwargs := snd d |}
           | KwList _ => Raise (TypeError FromLibrary)
           | _ => Raise (AttributeError "pop")
           end
         else
           Ok {| ca_dl4seq_args := None; ca_data := None; ca_model := None;
                 ca_use_dl4seq_model := false; ca_kwargs := kw |}) ;;
  (if has_key (ca_kwargs ca) "n_initial_points" && (skopt_minor env <? 8)%nat
   then Raise ValueError else Ok tt) ;;;
  if has_key (ca_kwargs ca) "x0"
     && str_in algorithm ["tpe"; "atpe"; "random"; "grid"; "cmaes"]
  then
    p <- dict_pop (ca_kwargs ca) "x0" ;;
    Ok {| ca_dl4seq_args := ca_dl4seq_args ca; ca_data := ca_data ca;
          ca_model := ca_model ca;
          ca_use_dl4seq_model := ca_use_dl4seq_model ca;
          ca_kwargs := snd p |}
  else Ok ca.

(** ["sklearn" in str(type(self.objective_fn))] *)
Definition sklearn_objective (f : option objective) : bool :=
  match f with
  | Some f => of_sklearn f
  | None => false
  end.

Definition use_sklearn_of (algorithm : string) (f : option objective) : bool :=
  str_in algorithm ["random"; "grid"] && sklearn_objective f.

Definition use_skopt_bayes_of (algorithm : string) (f : option objective) : bool :=
  (algorithm =? "bayes") && sklearn_objective f.

Definition use_skopt_gpmin_of (algorithm : string) (f : option objective) : bool :=
  (algorithm =? "bayes") && negb (sklearn_objective f).

Definition use_own_of (algorithm : string) (f : option objective) : bool :=
  negb (use_sklearn_of algorithm f) && negb (use_skopt_bayes_of algorithm f)
  && negb (use_skopt_gpmin_of algorithm f).

(** The properties [use_sklearn], [use_skopt_bayes], [use_skopt_gpmin] and
    [use_own] of an object. *)
Definition use_sklearn (o : HyperOpt) : bool :=
  use_sklearn_of (algorithm o) (objective_fn o).
Definition use_skopt_bayes (o : HyperOpt) : bool :=
  use_skopt_bayes_of (algorithm o) (objective_fn o).
Definition use_skopt_gpmin (o : HyperOpt) : bool :=
  use_skopt_gpmin_of (algorithm o) (objective_fn o).
Definition use_own (o : HyperOpt) : bool :=
  use_own_of (algorithm o) (objective_fn o).

(** [HyperOpt.__init__].  The setter of [title] joins two texts and
    cannot fail.  The setter of [opt_path] and the constructors of the
    estimators are calls into the file system and into scikit-learn or
    scikit-optimize: their outcome is taken from the environment.  The
    estimators get the keyword arguments of the constructor, from which
    ['opt_path'] has been popped. *)
Definition __init__ (env : environment) (algorithm : string) (param_space : raw_space)
  (objective_fn : option objective) (eval_on_best : bool)
  (backend : option string) (kw : kwargs) : result HyperOpt :=
  (if is_algorithm algorithm then Ok tt else Raise ValueError) ;;;
  b <- backend_setter algorithm backend ;;
  ps <- param_space_setter algorithm b param_space ;;
  set_opt_path env (dict_get String.eqb kw "opt_path") ;;;
  let kw := filter (fun kv => negb ("opt_path" =? fst kv)) kw in
  ca <- check_args env algorithm kw ;;
  let o (optfn fit : option string) (predict : option bool) :=
    {| objective_fn := objective_fn; algorithm := algorithm; _backend := b;
       _param_space := ps; original_space := param_space;
       dl4seq_args := ca_dl4seq_args ca; results := []; gpmin_results := None;
       data := ca_data ca;
       eval_on_best := eval_on_best;
       use_dl4seq_model := ca_use_dl4seq_model ca; _model := ca_model ca;
       gpmin_args := ca_kwargs ca;
       optfn := optfn; fit := fit; predict := predict |} in
  if use_sklearn_of algorithm objective_fn then
    if algorithm =? "random" then
      estimator_init env "RandomizedSearchCV" objective_fn param_space kw ;;;
      Ok (o (Some "RandomizedSearchCV") None None)
    else
      estimator_init env "GridSearchCV" objective_fn param_space kw ;;;
      Ok (o (Some "GridSearchCV") None None)
  else if use_skopt_bayes_of algorithm objective_fn then
    estimator_init env "BayesSearchCV" objective_fn param_space kw ;;;
    Ok (o (Some "BayesSearchCV") None None)
  else if use_skopt_gpmin_of algorithm objective_fn then
    Ok (o None (Some "own_fit") None)
  else if use_own_of algorithm objective_fn then
    let predict := Some (negb (b =? "optuna")) in
    if (algorithm =? "grid") && negb (b =? "optuna") then
      Ok (o None (Some "grid_search") predict)
    else if (algorithm =? "random") && negb (str_in b ["optuna"; "hyperopt"]) then
      Ok (o None (Some "random_search") predict)
    else if b =? "hyperopt" then Ok (o None (Some "fmin") predict)
    else if b =? "optuna" then Ok (o None (Some "optuna_objective") predict)
    else Ok (o None None predict)
  else Raise NotImplementedError.

Definition assigned {A : Type} (field : option A) (item : string) : list string :=
  match field with
  | Some _ => [item]
  | None => []
  end.

(** The names in [self.__dict__]. *)
Definition instance_attributes (o : HyperOpt) : list string :=
  ["objective_fn"; "algorithm"; "_backend"; "_param_space"; "original_space";
   "dl4seq_args"; "_title"; "results"; "gpmin_results"; "data";
   "eval_on_best"; "_opt_path"; "use_dl4seq_model"; "gpmin_args"]
  ++ assigned (_model o) "_model" ++ assigned (optfn o) "optfn"
  ++ assigned (fit o) "fit" ++ assigned (predict o) "predict".

(** The properties and the methods that the class [HyperOpt] defines. *)
Definition class_attributes : list string :=
  ["backend"; "title"; "check_args"; "param_space"; "skopt_space"; "space";
   "use_sklearn"; "use_skopt_bayes"; "use_skopt_gpmin"; "use_tpe"; "use_own";
   "random_state"; "num_iterations"; "use_named_args"; "opt_path";
   "best_paras"; "dl4seq_model"; "original_para_order"; "dims";
   "model_for_gpmin"; "own_fit"; "eval_sequence"; "grid_search";
   "random_search"; "optuna_objective"; "fmin"; "_predict"; "hp_space";
   "xy_of_iterations"; "func_vals"; "skopt_results"; "best_xy"; "_plot";
   "plot_importance"; "to_kw"; "eval_with_best"; "from_gp_parameters";
   "pre_calculated_results"; "optuna_study"; "save_iterations_as_xy"].

(** What an attribute lookup yields. *)
Inductive attribute : Type :=
| OfInstance (item : string)
| OfClass (item : string)
| Estimator (class : string)
| OfEstimator (class item : string).

(** The ordinary lookup of [self.item], before [__getattr__] is tried. *)
Definition lookup (env : environment) (o : HyperOpt) (item : string)
  : option attribute :=
  if item =? "optfn" then
    match optfn o with
    | Some c => Some (Estimator c)
    | None => None
    end
  else if str_in item (instance_attributes o) then Some (OfInstance item)
  else if str_in item class_attributes || str_in item (object_attributes env)
  then Some (OfClass item)
  else None.

(** [hasattr(v, item)] and [getattr(v, item)] for the value of [self.optfn]. *)
Definition hasattr (env : environment) (v : attribute) (item : string) : bool :=
  match v with
  | Estimator c => estimator_has env c item
  | _ => false
  end.

Definition getattr (v : attribute) (item : string) : attribute :=
  match v with
  | Estimator c => OfEstimator c item
  | _ => v
  end.

(** [HyperOpt.__getattr__(self, item)], run with [depth] frames left on the
    interpreter's stack: the expression [self.optfn] is itself an attribute
    lookup, which comes back to [__getattr__] when the ordinary lookup
    fails. *)
Fixpoint __getattr__ (env : environment) (depth : nat) (o : HyperOpt)
  (item : string) : result attribute :=
  match depth with
  | O => Raise RecursionError
  | S depth' =>
      v <- match lookup env o "optfn" with
           | Some v => Ok v
           | None => __getattr__ env depth' o "optfn"
           end ;;
      if hasattr env v item then Ok (getattr v item)
      else Raise (AttributeError item)
  end.

(** The expression [self.item]. *)
Definition getattribute (env : environment) (depth : nat) (o : HyperOpt)
  (item : string) : result attribute :=
  match lookup env o item with
  | Some v => Ok v
  | None => __getattr__ env depth o item
  end.

End Orchestrator.

(** ** Grid enumeration, evaluation of trials and the best-trial query *)

Module Search.

Import Resolver Space Orchestrator.

Section Sorted.
Context {A : Type}.
Variable leb : A -> A -> bool.

Fixpoint insort (x : A) (l : list A) : list A :=
  match l with
  | [] => [x]
  | y :: l' => if leb x y then x :: l else y :: insort x l'
  end.

(** [sorted(l)]: ascending and stable. *)
Definition sorted (l : list A) : list A := fold_right insort [] l.
End Sorted.

(** The order of [sorted(p.items())]: the keys of a dict are distinct, so
    the comparison of two items is decided by their keys, which Python
    compares code point by code point. *)
Definition item_leb {V : Type} (a b : string * V) : bool :=
  String.leb (fst a) (fst b).

(** [itertools.product( *values )]: the first sequence varies slowest. *)
Fixpoint product {A : Type} (values : list (list A)) : list (list A) :=
  match values with
  | [] => [[]]
  | vs :: rest => flat_map (fun v => map (cons v) (product rest)) vs
  end.

(** [list(ParameterGrid(param_grid))] of scikit-learn for one dict:
    [__iter__] sorts the items of the dict (its comment: the keys are
    always sorted, for reproducibility), yields the empty dict when there
    is no item, and otherwise yields [dict(zip(keys, v))] for [v] in
    [product( *values )].  A parameter without any value leaves no trial;
    releases of scikit-learn from 1.0 on refuse such a grid instead. *)
Definition ParameterGrid (param_grid : dict (K:=string) (V:=list pyval))
  : list params :=
  let items := sorted item_leb param_grid in
  match items with
  | [] => [[]]
  | _ :: _ =>
      map (fun v => dict_of String.eqb (combine (map fst items) v))
          (product (map snd items))
  end.

(** The value lists that [ParameterGrid] accepts: its constructor raises
    [TypeError] for a value that is not iterable. *)
Fixpoint param_grid_of (items : list (string * space_item))
  : result (dict (K:=string) (V:=list pyval)) :=
  match items with
  | [] => Ok []
  | (k, i) :: items' =>
      v <- match i with
           | ItList v | ItTuple v => Ok v
           | _ => Raise (TypeError FromLibrary)
           end ;;
      rest <- param_grid_of items' ;;
      Ok ((k, v) :: rest)
  end.

(** [round(x, ndigits)]: to the nearest multiple of [10 ** -ndigits], a tie
    going to the even one. *)
Definition py_round (ndigits : nat) (x : Q) : Q :=
  let scale := inject_Z (10 ^ Z.of_nat ndigits) in
  let s := (x * scale)%Q in
  let f := Qfloor s in
  let r := (s - inject_Z f)%Q in
  let n :=
    if Qltb r (1 # 2) then f
    else if Qltb (1 # 2) r then (f + 1)%Z
    else if Z.even f then f else (f + 1)%Z in
  Qred (inject_Z n / scale).

(** [err + idx], as the exact sum of the two numbers.  The source adds in
    binary64, which gives this sum wherever it is a double. *)
Definition add_index (err : Q) (idx : nat) : Q :=
  Qred (err + inject_Z (Z.of_nat idx)).

(** Modelled from the spec: [sort_x_iters] of [dl4seq/hyper_opt/utils.py] is
    not among the sources.  The spec has every recorded parameter mapping
    written in canonical parameter order: the mapping is rebuilt name by
    name in the order given, and a name that it lacks is a [KeyError]. *)
Fixpoint sort_x_iters_from (x_iter : params) (original_order : list string)
  (new_x_iter : params) : result params :=
  match original_order with
  | [] => Ok new_x_iter
  | s :: rest =>
      match dict_get String.eqb x_iter s with
      | None => Raise (KeyError s)
      | Some v =>
          sort_x_iters_from x_iter rest (dict_set String.eqb new_x_iter s v)
      end
  end.

Definition sort_x_iters (x_iter : params) (original_order : list string)
  : result params :=
  sort_x_iters_from x_iter original_order [].

(** [original_para_order] *)
Definition original_para_order (env : environment) (o : HyperOpt)
  : result (list string) :=
  match _param_space o with
  | SpDict items => Ok (dict_keys items)
  | _ => skopt_space_names env (original_space o)
  end.

(** The property [use_named_args]; [inspect.getfullargspec] raises
    [TypeError] for [None] and for a callable whose signature it cannot
    read. *)
Definition use_named_args (o : HyperOpt) : result bool :=
  if use_dl4seq_model o then Ok true
  else
    match objective_fn o with
    | None => Raise (TypeError FromLibrary)
    | Some f =>
        match varkw f with
        | Raise e => Raise e
        | Ok None => Ok false
        | Ok (Some _) => Ok true
        end
    end.

(** A call that the orchestrator makes in order to evaluate a trial. *)
Inductive call : Type :=
| CallModel (para : params)
| CallKw (para : params)
| CallPos (args : list pyval)
| CallMapping (x : params).

(** One evaluation in [eval_sequence], for an object that does not use
    the dl4seq model: the calls that are made, and the value of [err] or
    the exception that leaves the loop. *)
Definition invoke (o : HyperOpt) (para : params) : list call * result Q :=
  match use_named_args o, objective_fn o with
  | Raise e, _ => ([], Raise e)
  | Ok _, None => ([], Raise (TypeError FromLibrary))
  | Ok true, Some f => ([CallKw para], call_kw f para)
  | Ok false, Some f =>
      let args := dict_values para in
      ([CallPos args],
       match call_pos f args with
       | Raise (TypeError _) => Raise (TypeError (UseNamedArgsHint false))
       | r => r
       end)
  end.

Definition set_results (o : HyperOpt) (r : dict (K:=Q) (V:=params)) : HyperOpt :=
  {| objective_fn := objective_fn o; algorithm := algorithm o;
     _backend := _backend o; _param_space := _param_space o;
     original_space := original_space o; dl4seq_args := dl4seq_args o;
     results := r; gpmin_results := gpmin_results o; data := data o;
     eval_on_best := eval_on_best o;
     use_dl4seq_model := use_dl4seq_model o; _model := _model o;
     gpmin_args := gpmin_args o; optfn := optfn o; fit := fit o;
     predict := predict o |}.

(** [self.results[key] = sort_x_iters(para, self.original_para_order())] *)
Definition record (env : environment) (o : HyperOpt) (key : Q) (para : params)
  : result HyperOpt :=
  order <- original_para_order env o ;;
  x <- sort_x_iters para order ;;
  Ok (set_results o (dict_set Qeq_bool (results o) key x)).

(** The body of the loop of [eval_sequence] for the trial [idx].
    [dl4seq_model] records the trial itself, under [round(mse, 7)]; the
    other two branches leave the recording to the loop, under
    [round(err, 8) + idx]. *)
Definition eval_trial (env : environment) (o : HyperOpt) (idx : nat)
  (para : params) : list call * result HyperOpt :=
  if use_dl4seq_model o then
    ([CallModel para], record env o (py_round 7 (dl4seq_mse env para)) para)
  else
    let (calls, r) := invoke o para in
    (calls,
     err <- r ;;
     record env o (add_index (py_round 8 err) idx) para).

(** The loop [for idx, para in enumerate(params)] of [eval_sequence], from
    the index [idx] on.  The result is the sequence of calls made and the
    object with the [results] that the loop leaves. *)
Fixpoint eval_from (env : environment) (idx : nat) (params_ : list params)
  (o : HyperOpt) : list call * result HyperOpt :=
  match params_ with
  | [] => ([], Ok o)
  | para :: rest =>
      match eval_trial env o idx para with
      | (calls, Ok o') =>
          let (calls', r) := eval_from env (S idx) rest o' in
          (calls ++ calls', r)
      | (calls, Raise e) => (calls, Raise e)
      end
  end.

(** [sorted(d.keys())[0]] *)
Definition first_key (d : dict (K:=Q) (V:=params)) : result Q :=
  match sorted Qle_bool (dict_keys d) with
  | [] => Raise IndexError
  | k :: _ => Ok k
  end.

(** [d[k]] *)
Definition subscript (d : dict (K:=Q) (V:=params)) (k : Q) : result params :=
  match dict_get Qeq_bool d k with
  | Some v => Ok v
  | None => Raise (KeyError "")
  end.

(** The elements of a list that [json.load] has read. *)
Definition json_elements (j : json) : result (list json) :=
  match j with
  | JArr l => Ok l
  | _ => Raise (TypeError FromLibrary)
  end.

Definition json_literals (j : json) : result (list pyval) :=
  l <- json_elements j ;;
  fold_right (fun e acc =>
                match of_json e with
                | Some v => rest <- acc ;; Ok (v :: rest)
                | None => Raise (TypeError FromLibrary)
                end) (Ok []) l.

(** [to_kw(x)], given the names of [self.space()]. *)
Definition to_kw (names : list string) (x : list pyval) : params :=
  dict_of String.eqb (combine names x).

(** The dict comprehension of the branch ['skopt'] of [xy_of_iterations],
    over [zip(range(len(func_vals)), func_vals, x_iters)]: the key
    [float(f'{k}_{idx}')] is a [ValueError] when [k] is not a number, and
    the points of [x_iters] are taken to be lists of literals. *)
Fixpoint suffixed_iterations (env : environment) (o : HyperOpt)
  (idx : nat) (func_vals x_iters : list json)
  (d : dict (K:=Q) (V:=params)) : result (dict (K:=Q) (V:=params)) :=
  match func_vals, x_iters with
  | k :: func_vals', v :: x_iters' =>
      key <- match k with
             | JFloat q => Ok (suffixed env q idx)
             | JInt z => Ok (suffixed env (inject_Z z) idx)
             | _ => Raise ValueError
             end ;;
      names <- skopt_space_names env (original_space o) ;;
      x <- json_literals v ;;
      suffixed_iterations env o (S idx) func_vals' x_iters'
        (dict_set Qeq_bool d key (to_kw names x))
  | _, _ => Ok d
  end.

(** [xy_of_iterations] *)
Definition xy_of_iterations (env : environment) (o : HyperOpt)
  : result (dict (K:=Q) (V:=params)) :=
  if (_backend o =? "optuna") || (_backend o =? "hyperopt") then
    engine_iterations env o
  else if _backend o =? "skopt" then
    match gpmin_results o with
    | None => Raise (AssertionError (Some "gpmin_results is not populated yet"))
    | Some r =>
        fv <- document_get r "func_vals" ;;
        func_vals <- json_elements fv ;;
        xi <- document_get r "x_iters" ;;
        x_iters <- json_elements xi ;;
        suffixed_iterations env o 0 func_vals x_iters []
    end
  else Ok (results o).

(** [self.param_space.keys()] *)
Definition param_space_keys (o : HyperOpt) : result (list string) :=
  match _param_space o with
  | SpDict items => Ok (dict_keys items)
  | _ => Raise (AttributeError "keys")
  end.

(** [best_paras()] *)
Definition best_paras (env : environment) (o : HyperOpt) : result params :=
  if use_skopt_gpmin o then
    d <- xy_of_iterations env o ;;
    k <- first_key d ;;
    subscript d k
  else if (_backend o =? "hyperopt") || (_backend o =? "optuna") then
    engine_best env o
  else
    best_y <- first_key (results o) ;;
    x <- subscript (results o) best_y ;;
    names <- param_space_keys o ;;
    sort_x_iters x names.

(** [best_paras(as_list=True)] *)
Definition best_paras_as_list (env : environment) (o : HyperOpt)
  : result (list pyval) :=
  paras <- best_paras env o ;; Ok (dict_values paras).

End Search.

(** ** The trial-history record and the resume interface *)

Module History.

Import Resolver Space Orchestrator Search.

(** [json.dump(x, sort_keys=True)] for a parameter mapping. *)
Definition dump_params (x : params) : json :=
  JObj (map (fun kv => (fst kv, to_json (snd kv))) (sorted item_leb x)).

Definition key_leb (a b : Q * params) : bool := Qle_bool (fst a) (fst b).

(** Modelled from the spec: [Jsonize] of [dl4seq/utils/utils.py] is not
    among the sources.  The spec's trial-history record maps the
    string-encoded objective value to the parameter mapping that produced
    it: [Jsonize(iterations)()] is taken to leave the keys and the literals
    of [iterations] as they are. *)
Definition Jsonize (iterations : dict (K:=Q) (V:=params))
  : dict (K:=Q) (V:=params) := iterations.

(** [json.dump(iterations, fp, sort_keys=True)] followed by [json.load]. *)
Definition dump_iterations (iterations : dict (K:=Q) (V:=params)) : document :=
  FloatKeyed (map (fun kv => (fst kv, dump_params (snd kv)))
                  (sorted key_leb iterations)).

(** [save_iterations_as_xy]: the contents of [iterations.json] and of
    [iterations_sorted.json]. *)
Definition save_iterations_as_xy (env : environment) (o : HyperOpt)
  : result (document * document) :=
  iterations <- xy_of_iterations env o ;;
  let jsonized_iterations := Jsonize iterations in
  Ok (dump_iterations jsonized_iterations,
      dump_iterations (dict_of Qeq_bool (sorted key_leb jsonized_iterations))).

(** One turn of the loop of [from_gp_parameters] over [space.items()]. *)
Definition dimension_of_json (sp_name : string) (sp_paras : json)
  : result Dimension :=
  let literal (k : string) : result pyval :=
    j <- json_get sp_paras k ;;
    match of_json j with
    | Some v => Ok v
    | None => Raise (TypeError FromLibrary)
    end in
  let ranged (t : dim_kind) : result Dimension :=
    lo <- literal "low" ;; hi <- literal "high" ;; p <- literal "prior" ;;
    with_prior t lo hi p sp_name in
  t <- json_get sp_paras "type" ;;
  match t with
  | JStr t =>
      if t =? "Categorical" then
        c <- json_get sp_paras "categories" ;;
        v <- json_literals c ;;
        Categorical v sp_name
      else if t =? "Integer" then ranged KInteger
      else if t =? "Real" then ranged KReal
      else Raise NotImplementedError
  | _ => Raise NotImplementedError
  end.

Fixpoint dimensions_of_json (members : list (string * json))
  : result (list Dimension) :=
  match members with
  | [] => Ok []
  | (sp_name, sp_paras) :: rest =>
      d <- dimension_of_json sp_name sp_paras ;;
      ds <- dimensions_of_json rest ;;
      Ok (d :: ds)
  end.

Definition set_gpmin_results (o : HyperOpt) (r : document) : HyperOpt :=
  {| objective_fn := objective_fn o; algorithm := algorithm o;
     _backend := _backend o; _param_space := _param_space o;
     original_space := original_space o; dl4seq_args := dl4seq_args o;
     results := results o; gpmin_results := Some r; data := data o;
     eval_on_best := eval_on_best o;
     use_dl4seq_model := use_dl4seq_model o; _model := _model o;
     gpmin_args := gpmin_args o; optfn := optfn o; fit := fit o;
     predict := predict o |}.

(** [HyperOpt.from_gp_parameters(fpath, objective_fn)], given what
    [json.load] reads from [fpath].  The directory of [fpath] becomes the
    [opt_path] of the optimizer. *)
Definition from_gp_parameters (env : environment) (fpath : string)
  (loaded : document) (objective_fn : option objective) : result HyperOpt :=
  space <- document_get loaded "space" ;;
  members <- match space with
             | JObj members => Ok members
             | _ => Raise (AttributeError "items")
             end ;;
  spaces <- dimensions_of_json members ;;
  optimizer <- __init__ env "bayes" (SpList (map ItDimension spaces)) objective_fn
                 false (Some "skopt")
                 [("opt_path", KwValue (PStr (dirname env fpath)))] ;;
  Ok (set_gpmin_results optimizer loaded).

End History.

(** ** The evaluation on the best trial *)

Module Best.

Import Resolver Space Orchestrator Search.

(** [eval_with_best].  With named arguments [x] is the list
    [best_paras(True)], and both calls that may follow,
    [self.dl4seq_model(..., **x)] and [self.objective_fn( **x )], unpack
    it as a mapping: the interpreter raises [TypeError] for a list,
    before the callee is entered.  Without named arguments the method
    ends in the call [self.objective_fn(x)]; the result is the mapping
    [x] that the objective is handed as its single argument; what the
    objective makes of it is its [call_mapping]. *)
Definition eval_with_best (env : environment) (o : HyperOpt) : result params :=
  named <- use_named_args o ;;
  if named then
    x <- best_paras_as_list env o ;;
    Raise (TypeError FromLibrary)
  else
    x <- best_paras env o ;;
    match objective_fn o with
    | Some _ => Ok x
    | None => Raise NotImplementedError
    end.

End Best.

(** ** The search of the class itself *)

Module Fit.

Import Resolver Space Orchestrator Search History Best.

(** [_plot]: the two records, then the figures. *)
Definition _plot (env : environment) (o : HyperOpt) : result unit :=
  save_iterations_as_xy env o ;;; plots env o.

(** [eval_sequence]: the loop, [_plot], and the evaluation on the best
    trial when [eval_on_best] asks for it, whose value is dropped.  The
    result is the sequence of calls made and the object that holds the
    [results] returned, or the exception raised. *)
Definition eval_sequence (env : environment) (o : HyperOpt)
  (params_ : list params) : list call * result HyperOpt :=
  match eval_from env 0 params_ o with
  | (calls, Raise e) => (calls, Raise e)
  | (calls, Ok o') =>
      match _plot env o' with
      | Raise e => (calls, Raise e)
      | Ok _ =>
          if eval_on_best o' then
            match eval_with_best env o', objective_fn o' with
            | Raise e, _ => (calls, Raise e)
            | Ok _, None => (calls, Raise NotImplementedError)
            | Ok x, Some f =>
                (calls ++ [CallMapping x], call_mapping f x ;;; Ok o')
            end
          else (calls, Ok o')
      end
  end.

(** [grid_search]; [ParameterGrid] raises [TypeError] unless it is given a
    dict of sequences (or a list of such dicts). *)
Definition grid_search (env : environment) (o : HyperOpt)
  : list call * result HyperOpt :=
  match _param_space o with
  | SpDict items =>
      match param_grid_of items with
      | Ok g => eval_sequence env o (ParameterGrid g)
      | Raise e => ([], Raise e)
      end
  | SpList [] => eval_sequence env o []
  | _ => ([], Raise (TypeError FromLibrary))
  end.

End Fit.

(** ** Concrete searches *)

Module Scenario.

Import Resolver Space Orchestrator Search History Best Fit.

(** An environment for searches of the backend ['sklearn'] over plain
    callables: none of the runs below consults a library, the directory
    of the results can be made and the figures can be drawn. *)
Definition plain_env : environment :=
  {| skopt_minor := 8;
     estimator_has := fun _ _ => false;
     object_attributes := [];
     dl4seq_mse := fun _ => 0%Q;
     skopt_space_names := fun _ => Raise NotImplementedError;
     suffixed := fun k _ => k;
     engine_iterations := fun _ => Raise NotImplementedError;
     engine_best := fun _ => Raise NotImplementedError;
     set_opt_path := fun _ => Ok tt;
     estimator_init := fun _ _ _ _ => Ok tt;
     dirname := fun _ => "results";
     plots := fun _ => Ok tt |}.

(** [kw[name]] as a number. *)
Definition number (kw : params) (name : string) : result Q :=
  match dict_get String.eqb kw name with
  | None => Raise (KeyError name)
  | Some v =>
      match num_of v with
      | Some q => Ok q
      | None => Raise (TypeError FromObjective)
      end
  end.

(** An objective [def f( **kw ): return body(kw['x'])]; it takes no
    positional argument. *)
Definition of_x (body : Q -> Q) : objective :=
  {| of_sklearn := false;
     varkw := Ok (Some "kw");
     call_kw := fun kw => x <- number kw "x" ;; Ok (Qred (body x));
     call_pos := fun args =>
                   match args with
                   | [] => x <- number [] "x" ;; Ok (Qred (body x))
                   | _ :: _ => Raise (TypeError FromObjective)
                   end;
     call_mapping := fun _ => Raise (TypeError FromObjective) |}.

(** [def f( **kw ): return kw['x'] / 2] *)
Definition half_x : objective := of_x (fun x => x / 2)%Q.

(** [def f( **kw ): return kw['x']] *)
Definition identity_x : objective := of_x (fun x => x).

(** [def f( **kw ): return kw['x'] ** 2] *)
Definition square_x : objective := of_x (fun x => x * x)%Q.



(** [HyperOpt('grid', param_space=space, objective_fn=f).fit()]: the calls
    made and the object after the search. *)
Definition fit_grid (space : raw_space) (f : objective)
  : list call * result HyperOpt :=
  match __init__ plain_env "grid" space (Some f) false None [] with
  | Ok o => grid_search plain_env o
  | Raise e => ([], Raise e)
  end.

(** An environment in which every dl4seq model has the validation mse
    1/4, and [HyperOpt('grid', param_space=space, dl4seq_args={'model':
    'XGBoostRegressor'}, data=data).fit()] in it. *)
Definition model_env : environment :=
  {| skopt_minor := 8;
     estimator_has := fun _ _ => false;
     object_attributes := [];
     dl4seq_mse := fun _ => (1 # 4)%Q;
     skopt_space_names := fun _ => Raise NotImplementedError;
     suffixed := fun k _ => k;
     engine_iterations := fun _ => Raise NotImplementedError;
     engine_best := fun _ => Raise NotImplementedError;
     set_opt_path := fun _ => Ok tt;
     estimator_init := fun _ _ _ _ => Ok tt;
     dirname := fun _ => "results";
     plots := fun _ => Ok tt |}.

Definition fit_grid_model (space : raw_space) : list call * result HyperOpt :=
  match __init__ model_env "grid" space None false None
          [("dl4seq_args", KwDict [("model", PStr "XGBoostRegressor")]);
           ("data", KwObject)] with
  | Ok o => grid_search model_env o
  | Raise e => ([], Raise e)
  end.

(** The attribute [results] after a run. *)
Definition results_of (run : list call * result HyperOpt)
  : result (dict (K:=Q) (V:=params)) :=
  o <- snd run ;; Ok (results o).

(** [best_paras()] after a run. *)
Definition best_of (run : list call * result HyperOpt) : result params :=
  o <- snd run ;; best_paras plain_env o.

Definition ints (zs : list Z) : space_item := ItList (map PInt zs).





(** The two files that [save_iterations_as_xy] writes after a run, and the
    optimizer that [from_gp_parameters] makes of the first. *)
Definition history_of (run : list call * result HyperOpt)
  : result (document * document) :=
  o <- snd run ;; save_iterations_as_xy plain_env o.

Definition resume (run : list call * result HyperOpt) (f : objective)
  : result HyperOpt :=
  docs <- history_of run ;;
  from_gp_parameters plain_env "results/iterations.json" (fst docs) (Some f).

End Scenario.

(** ** Nested enumeration, in words *)

Module Nested.

Import Orchestrator Search.





End Nested.

(** ** The budget of a search and the renaming of its keyword *)

Module Budget.

Import Resolver Space Orchestrator.

(** [d.get(k, default)] *)
Definition get_default (d : kwargs) (k : string) (default : kwarg) : kwarg :=
  match dict_get String.eqb d k with
  | Some v => v
  | None => default
  end.

(** [d[k]] *)
Definition kw_subscript (d : kwargs) (k : string) : result kwarg :=
  match dict_get String.eqb d k with
  | Some v => Ok v
  | None => Raise (KeyError k)
  end.

(** The property [num_iterations]. *)
Definition num_iterations (o : HyperOpt) : result kwarg :=
  if has_key (gpmin_args o) "num_iterations" then
    kw_subscript (gpmin_args o) "num_iterations"
  else if str_in (algorithm o) ["tpe"; "atpe"; "random"]
          && (_backend o =? "hyperopt") then
    Ok (get_default (gpmin_args o) "max_evals"
          (KwValue (PInt 9223372036854775807)))
  else if _backend o =? "optuna" then
    Ok (get_default (gpmin_args o) "n_trials" (KwValue PNone))
  else if has_key (gpmin_args o) "n_calls" then
    kw_subscript (gpmin_args o) "n_calls"
  else kw_subscript (gpmin_args o) "n_iter".

(** [if old in d: d[new] = d.pop(old)] *)
Definition renamed (d : kwargs) (old new : string) : kwargs :=
  if has_key d old then
    match dict_pop d old with
    | Ok (v, d') => dict_set String.eqb d' new v
    | Raise _ => d
    end
  else d.

Definition set_gpmin_args (o : HyperOpt) (kw : kwargs) : HyperOpt :=
  {| objective_fn := objective_fn o; algorithm := algorithm o;
     _backend := _backend o; _param_space := _param_space o;
     original_space := original_space o; dl4seq_args := dl4seq_args o;
     results := results o; gpmin_results := gpmin_results o; data := data o;
     eval_on_best := eval_on_best o;
     use_dl4seq_model := use_dl4seq_model o; _model := _model o;
     gpmin_args := kw; optfn := optfn o; fit := fit o;
     predict := predict o |}.

(** The object after the first lines of [fmin]: [model_kws] is the dict
    [self.gpmin_args] itself, so that renaming ['num_iterations'] to
    ['max_evals'] in [model_kws] renames it in the attribute. *)
Definition fmin_renaming (o : HyperOpt) : HyperOpt :=
  set_gpmin_args o (renamed (gpmin_args o) "num_iterations" "max_evals").

(** The object after the first lines of [own_fit], which rename
    ['num_iterations'] to ['n_calls'] in the same way. *)
Definition own_fit_renaming (o : HyperOpt) : HyperOpt :=
  set_gpmin_args o (renamed (gpmin_args o) "num_iterations" "n_calls").

End Budget.

(** ** The keys of the result store *)

Module Keys.

Import Resolver Space Orchestrator Search.

(** The number of times that 2 divides [p]. *)
Fixpoint twos (p : positive) : Z :=
  match p with
  | xO p' => Z.succ (twos p')
  | _ => 0%Z
  end.

(** Whether the rational [q] is a double: zero, or an odd number of at
    most 53 bits times a power of 2 within the range of the format. *)
Definition binary64 (q : Q) : bool :=
  let r := Qred q in
  match Qnum r with
  | Z0 => true
  | Zpos n | Zneg n =>
      let d := Qden r in
      let e := (twos n - twos d)%Z in
      let bits := (Z.log2 (Zpos n) + 1 - twos n)%Z in
      (Pos.eqb d (Pos.shiftl 1 (Z.to_N (twos d))))
      && (bits <=? 53)%Z && (-1074 <=? e)%Z && (e + bits <=? 1024)%Z
  end.

(** Whether [y + idx] is computed exactly: the value, the index and their
    sum are doubles.  The embedding adds exactly ([add_index]); the source
    adds in binary64, and the two agree where this holds. *)
Definition exact_key (y : Q) (idx : nat) : bool :=
  binary64 y && binary64 (inject_Z (Z.of_nat idx))
  && binary64 (add_index y idx).

(** The key under which the loop of [eval_sequence] stores the trial
    [idx]: [round(mse, 7)] with the dl4seq model, [round(err, 8) + idx]
    otherwise. *)
Definition trial_key (env : environment) (o : HyperOpt) (idx : nat)
  (para : params) : result Q :=
  if use_dl4seq_model o then Ok (py_round 7 (dl4seq_mse env para))
  else err <- snd (invoke o para) ;; Ok (add_index (py_round 8 err) idx).

(** Whether the key of the trial [idx] is one that the embedding and the
    source compute alike: the rounded value is a double and, where the
    index is added, the sum is exact. *)
Definition exact_trial (env : environment) (o : HyperOpt) (idx : nat)
  (para : params) : bool :=
  if use_dl4seq_model o then binary64 (py_round 7 (dl4seq_mse env para))
  else
    match snd (invoke o para) with
    | Ok err => exact_key (py_round 8 err) idx
    | Raise _ => true
    end.

Fixpoint exact_trials (env : environment) (o : HyperOpt) (idx : nat)
  (params_ : list params) : bool :=
  match params_ with
  | [] => true
  | para :: rest => exact_trial env o idx para && exact_trials env o (S idx) rest
  end.

(** The keys of the trials [params_], numbered from [idx] on, up to the
    first evaluation that raises. *)
Fixpoint trial_keys (env : environment) (o : HyperOpt) (idx : nat)
  (params_ : list params) : list Q :=
  match params_ with
  | [] => []
  | para :: rest =>
      match trial_key env o idx para with
      | Ok k => k :: trial_keys env o (S idx) rest
      | Raise _ => []
      end
  end.

(** [k in d] for a dict keyed by floats. *)
Definition has_float_key (d : dict (K:=Q) (V:=params)) (k : Q) : bool :=
  existsb (Qeq_bool k) (dict_keys d).

(** The keys of a dict keyed by floats after [d[k] = v], from its keys
    [ks] before: a key that is there keeps its place. *)
Definition keys_after_set (ks : list Q) (k : Q) : list Q :=
  if existsb (Qeq_bool k) ks then ks else ks ++ [k].

(** [best_xy] *)
Definition best_xy (env : environment) (o : HyperOpt)
  : result (dict (K:=Q) (V:=params)) :=
  if _backend o =? "skopt" then
    d <- xy_of_iterations env o ;;
    k <- first_key d ;;
    x <- subscript d k ;;
    Ok [(k, x)]
  else Raise NotImplementedError.

End Keys.

(** * Properties *)

(** ** The backend resolver *)

Module ResolverFacts.

Import Resolver Space Orchestrator.

Lemma str_in_In (x : string) (l : list string) : str_in x l = true <-> In x l.
Proof.
  unfold str_in. rewrite existsb_exists. split.
  - intros [y [Hy Heq]]. apply String.eqb_eq in Heq. now subst.
  - intros H. exists x. split; [assumption | apply String.eqb_refl].
Qed.

Lemma str_in_false (x : string) (l : list string) :
  str_in x l = false <-> ~ In x l.
Proof.
  rewrite <- str_in_In. destruct (str_in x l); intuition congruence.
Qed.


(** What the setter does with a backend that is not one of the four that
    it knows: the first assertion fails, whatever the algorithm. *)
Lemma backend_setter_unknown (algorithm b : string) :
  str_in b known_backends = false ->
  backend_setter algorithm (Some b)
  = Raise (AssertionError (Some (unknown_backend_msg b))).
Proof. intros H. unfold backend_setter. now rewrite H. Qed.

(** An exception of the resolver leaves the constructor as it is. *)
Lemma init_raises_of_backend env algorithm ps f eob backend kw e :
  is_algorithm algorithm = true ->
  backend_setter algorithm backend = Raise e ->
  __init__ env algorithm ps f eob backend kw = Raise e.
Proof. intros Ha Hb. unfold __init__. rewrite Ha, Hb. reflexivity. Qed.



(** C9.  The names ['gp'], ['forest'] and ['gbrt'] are keys of [ALGORITHMS],
    so the constructor's check of the algorithm lets them pass; the setter
    of [backend] then raises for every backend, the omitted one included
    ([AssertionError] for a backend it does not know, [ValueError]
    otherwise), and so does the constructor. *)
Theorem unimplemented_algorithms_never_construct
  (env : environment) (algorithm : string) (ps : raw_space)
  (f : option objective) (eob : bool) (backend : option string) (kw : kwargs) :
  In algorithm ["gp"; "forest"; "gbrt"] ->
  let e := match backend with
           | Some b =>
               if str_in b known_backends then ValueError
               else AssertionError (Some (unknown_backend_msg b))
           | None => ValueError
           end in
  is_algorithm algorithm = true
  /\ backend_setter algorithm backend = Raise e
  /\ __init__ env algorithm ps f eob backend kw = Raise e.
Proof.
  intros Hin e.
  assert (Ha : is_algorithm algorithm = true).
  { simpl in Hin. destruct Hin as [<- | [<- | [<- | []]]]; reflexivity. }
  assert (Hb : backend_setter algorithm backend = Raise e).
  { subst e. destruct backend as [b |].
    - destruct (str_in b known_backends) eqn:Hk.
      + unfold backend_setter. rewrite Hk. simpl in Hin.
        destruct Hin as [<- | [<- | [<- | []]]]; reflexivity.
      + now apply backend_setter_unknown.
    - simpl in Hin. destruct Hin as [<- | [<- | [<- | []]]]; reflexivity. }
  repeat split; try assumption.
  now apply init_raises_of_backend.
Qed.

Lemma unimplemented_algorithms_never_construct_witness :
  is_algorithm "gp" = true
  /\ backend_setter "gp" (Some "skopt") = Raise ValueError
  /\ __init__ Scenario.plain_env "gp" (SpList []) None false (Some "skopt") []
     = Raise ValueError.
Proof.
  apply (unimplemented_algorithms_never_construct
           Scenario.plain_env "gp" (SpList []) None false (Some "skopt") []).
  simpl. left. reflexivity.
Defined.

(** C7, as the code has it.  With the backend omitted, ['grid'] and
    ['random'] resolve to ['sklearn'], ['bayes'] to ['skopt'], ['atpe'] to
    ['hyperopt'], and both ['tpe'] and ['cmaes'] to ['optuna']. *)
Theorem default_backends :
  backend_setter "grid" None = Ok "sklearn"
  /\ backend_setter "random" None = Ok "sklearn"
  /\ backend_setter "bayes" None = Ok "skopt"
  /\ backend_setter "tpe" None = Ok "optuna"
  /\ backend_setter "atpe" None = Ok "hyperopt"
  /\ backend_setter "cmaes" None = Ok "optuna".
Proof. repeat split. Qed.

(** C7 as stated fails for ['tpe']: its default is not the hyperopt
    backend. *)
Lemma tpe_default_is_not_hyperopt :
  backend_setter "tpe" None = Ok "optuna"
  /\ backend_setter "tpe" None <> Ok "hyperopt".
Proof. split; [reflexivity | discriminate]. Qed.




End ResolverFacts.

(** ** Attribute delegation *)

Module DelegationFacts.

Import Resolver Space Orchestrator.

(** Which paths of the constructor assign [self.optfn]. *)
Lemma init_optfn env algorithm ps f eob backend kw o :
  __init__ env algorithm ps f eob backend kw = Ok o ->
  optfn o
  = (if use_sklearn_of algorithm f then
       Some (if algorithm =? "random" then "RandomizedSearchCV"
             else "GridSearchCV")
     else if use_skopt_bayes_of algorithm f then Some "BayesSearchCV"
     else None).
Proof.
  unfold __init__.
  destruct (is_algorithm algorithm); [| discriminate]. cbn [bind].
  destruct (backend_setter algorithm backend) as [b |]; [| discriminate].
  cbn [bind].
  destruct (param_space_setter algorithm b ps) as [ps' |]; [| discriminate].
  cbn [bind].
  destruct (set_opt_path env _) as [u |]; [| discriminate]. cbn [bind].
  destruct (check_args env algorithm _) as [ca |]; [| discriminate].
  cbn [bind].
  repeat match goal with
         | |- context [if ?c then _ else _] => destruct c
         | |- context [estimator_init ?e ?c ?g ?x ?k] =>
             destruct (estimator_init e c g x k); cbn [bind]
         end;
    intros H; inversion H; reflexivity.
Qed.

(** With [self.optfn] unassigned, [__getattr__] never comes back with an
    answer: whatever the room left on the stack, it uses it up. *)
Lemma getattr_exhausts env o :
  optfn o = None ->
  forall depth item, __getattr__ env depth o item = Raise RecursionError.
Proof.
  intros Hopt. induction depth as [| depth IH]; intros item.
  - reflexivity.
  - cbn [__getattr__]. unfold lookup. cbn [String.eqb Ascii.eqb Bool.eqb].
    rewrite Hopt. rewrite IH. reflexivity.
Qed.

(** C10.  When the constructor takes a path that does not assign
    [self.optfn] (the [gp_minimize] path of ['bayes'], or one of the
    searches of its own, of hyperopt or of optuna), the lookup of an
    attribute that neither the object nor its class defines does not raise
    [AttributeError]: [__getattr__] reads [self.optfn], which is undefined
    too, and enters itself again, until the interpreter's stack is used
    up, however deep that stack is. *)
Theorem undefined_attribute_recurses
  (env : environment) (algorithm : string) (ps : raw_space)
  (f : option objective) (eob : bool) (backend : option string) (kw : kwargs)
  (o : HyperOpt) (item : string) :
  __init__ env algorithm ps f eob backend kw = Ok o ->
  use_sklearn_of algorithm f = false ->
  use_skopt_bayes_of algorithm f = false ->
  lookup env o item = None ->
  optfn o = None
  /\ forall depth, getattribute env depth o item = Raise RecursionError.
Proof.
  intros Hinit Hsk Hbayes Hundef.
  assert (Hopt : optfn o = None).
  { rewrite (init_optfn _ _ _ _ _ _ _ _ Hinit), Hsk, Hbayes. reflexivity. }
  split; [assumption |].
  intros depth. unfold getattribute. rewrite Hundef.
  now apply getattr_exhausts.
Qed.

Lemma undefined_attribute_recurses_witness :
  exists o,
    __init__ Scenario.plain_env "grid" (SpDict [("x", Scenario.ints [2; 1]%Z)])
      (Some Scenario.half_x) false None [] = Ok o
    /\ getattribute Scenario.plain_env 1000 o "best_params_"
       = Raise RecursionError.
Proof.
  eexists. split; [reflexivity |].
  refine (proj2 (undefined_attribute_recurses Scenario.plain_env "grid"
                   (SpDict [("x", Scenario.ints [2; 1]%Z)])
                   (Some Scenario.half_x) false None [] _ "best_params_"
                   eq_refl eq_refl eq_refl eq_refl) 1000).
Defined.

(** On the two paths that do assign [self.optfn], the same lookup ends:
    it is answered by the estimator or it raises [AttributeError]. *)
Lemma delegated_attribute_ends env o c item depth :
  optfn o = Some c ->
  lookup env o item = None ->
  getattribute env (S depth) o item
  = if estimator_has env c item then Ok (OfEstimator c item)
    else Raise (AttributeError item).
Proof.
  intros Hopt Hundef. unfold getattribute. rewrite Hundef.
  cbn [__getattr__]. unfold lookup. cbn [String.eqb Ascii.eqb Bool.eqb].
  rewrite Hopt. reflexivity.
Qed.

End DelegationFacts.

(** ** Dictionaries *)

Module DictFacts.

Lemma dict_get_set {V : Type} (d : dict (K:=string) (V:=V)) (k k' : string) (v : V) :
  dict_get String.eqb (dict_set String.eqb d k v) k'
  = if (k' =? k)%string then Some v else dict_get String.eqb d k'.
Proof.
  induction d as [| [k0 v0] d IH]; simpl.
  - reflexivity.
  - destruct (String.eqb_spec k k0) as [-> | Hk]; simpl.
    + destruct (k' =? k0)%string; reflexivity.
    + rewrite IH. destruct (String.eqb_spec k' k0) as [-> | Hk'].
      * destruct (String.eqb_spec k0 k) as [-> | _]; [contradiction | reflexivity].
      * reflexivity.
Qed.

Lemma dict_get_None {V : Type} (d : dict (K:=string) (V:=V)) (k : string) :
  ~ In k (dict_keys d) -> dict_get String.eqb d k = None.
Proof.
  induction d as [| [k0 v0] d IH]; simpl; intros H.
  - reflexivity.
  - destruct (String.eqb_spec k k0) as [-> | _]; [tauto |].
    apply IH. tauto.
Qed.

Lemma dict_get_In {V : Type} (d : dict (K:=string) (V:=V)) (k : string) (v : V) :
  NoDup (dict_keys d) -> In (k, v) d -> dict_get String.eqb d k = Some v.
Proof.
  induction d as [| [k0 v0] d IH]; simpl; intros Hnd Hin.
  - contradiction.
  - inversion Hnd as [| ? ? Hk0 Hnd']; subst.
    destruct Hin as [Heq | Hin].
    + inversion Heq; subst. now rewrite String.eqb_refl.
    + destruct (String.eqb_spec k k0) as [-> | _].
      * exfalso. apply Hk0. change (In (fst (k0, v)) (map fst d)).
        now apply in_map.
      * now apply IH.
Qed.

(** Assigning to a name that the dict does not have appends. *)
Lemma dict_set_fresh {V : Type} (d : dict (K:=string) (V:=V)) (k : string) (v : V) :
  ~ In k (dict_keys d) -> dict_set String.eqb d k v = d ++ [(k, v)].
Proof.
  induction d as [| [k0 v0] d IH]; simpl; intros H.
  - reflexivity.
  - destruct (String.eqb_spec k k0) as [-> | _]; [tauto |].
    rewrite IH by tauto. reflexivity.
Qed.

Lemma dict_of_from {V : Type} (l acc : list (string * V)) :
  NoDup (dict_keys (acc ++ l)) ->
  fold_left (fun d kv => dict_set String.eqb d (fst kv) (snd kv)) l acc
  = acc ++ l.
Proof.
  revert acc. induction l as [| [k v] l IH]; intros acc Hnd; simpl.
  - now rewrite app_nil_r.
  - assert (Hfresh : ~ In k (dict_keys acc)).
    { unfold dict_keys in *. rewrite map_app in Hnd. simpl in Hnd.
      apply NoDup_remove_2 in Hnd. intros Hin. apply Hnd.
      apply in_or_app. now left. }
    rewrite (dict_set_fresh acc k v Hfresh).
    rewrite IH; rewrite <- app_assoc; simpl; [reflexivity | assumption].
Qed.

(** [dict(pairs)] of pairs with distinct names is the pairs themselves. *)
Lemma dict_of_NoDup {V : Type} (l : list (string * V)) :
  NoDup (dict_keys l) -> dict_of String.eqb l = l.
Proof. intros H. unfold dict_of. now rewrite dict_of_from. Qed.

End DictFacts.

(** ** The conversion of literal lists *)

Module SpaceFacts.

Import Space DictFacts.

Section Extremum.
Variable better : Q -> Q -> bool.
Variable before : Q -> Q -> Prop.
Hypothesis before_refl : forall q, before q q.
Hypothesis before_trans : forall a b c, before a b -> before b c -> before a c.
Hypothesis better_true : forall r q, better r q = true -> before r q.
Hypothesis better_false : forall r q, better r q = false -> before q r.

(** The literal that [extremum] returns is one of the list and comes
    before every number of the list. *)
Lemma extremum_spec (v : list pyval) (x : pyval) (q : Q) :
  extremum better v = Some (x, q) ->
  In x v /\ num_of x = Some q
  /\ forall y r, In y v -> num_of y = Some r -> before q r.
Proof.
  revert x q. induction v as [| x0 v IH]; intros x q; simpl.
  - discriminate.
  - destruct (num_of x0) as [q0 |] eqn:Hq0; [| discriminate].
    destruct v as [| x1 v'].
    + intros H. inversion H; subst. repeat split; auto.
      intros y r [<- | []] Hr. rewrite Hq0 in Hr. inversion Hr; subst.
      apply before_refl.
    + destruct (extremum better (x1 :: v')) as [[y1 r1] |] eqn:Hrec;
        [| discriminate].
      destruct (IH y1 r1 eq_refl) as [Hin [Hnum Hall]].
      destruct (better r1 q0) eqn:Hb; intros H; inversion H; subst.
      * repeat split; auto.
        intros y r [<- | Hy] Hr.
        -- rewrite Hq0 in Hr. inversion Hr; subst. now apply better_true.
        -- now apply (Hall y).
      * repeat split; auto.
        intros y r [<- | Hy] Hr.
        -- rewrite Hq0 in Hr. inversion Hr; subst. apply before_refl.
        -- apply before_trans with r1; [now apply better_false |].
           now apply (Hall y).
Qed.

(** [extremum] answers for every non-empty list of numbers. *)
Lemma extremum_total (v : list pyval) :
  v <> [] -> Forall (fun x => num_of x <> None) v ->
  exists x q, extremum better v = Some (x, q).
Proof.
  induction v as [| x0 v IH]; intros Hne Hall; [congruence |].
  inversion Hall as [| ? ? Hx0 Hall']; subst. simpl.
  destruct (num_of x0) as [q0 |]; [| congruence].
  destruct v as [| x1 v']; [now eauto |].
  destruct (IH ltac:(discriminate) Hall') as [y [r Hrec]].
  rewrite Hrec. destruct (better r q0); eauto.
Qed.
End Extremum.

Lemma Qltb_true (a b : Q) : Qltb a b = true -> (a <= b)%Q.
Proof.
  unfold Qltb. intros H. apply negb_true_iff in H.
  apply Qlt_le_weak. apply Qnot_le_lt. intros Hle.
  apply Qle_bool_iff in Hle. congruence.
Qed.

Lemma Qltb_false (a b : Q) : Qltb a b = false -> (b <= a)%Q.
Proof.
  unfold Qltb. intros H. apply negb_false_iff in H.
  now apply Qle_bool_iff.
Qed.

Lemma Qltb_lt (a b : Q) : Qltb a b = true <-> (a < b)%Q.
Proof.
  unfold Qltb. rewrite negb_true_iff. split.
  - intros H. apply Qnot_le_lt. intros Hle.
    apply Qle_bool_iff in Hle. congruence.
  - intros H. destruct (Qle_bool b a) eqn:E; [| reflexivity].
    apply Qle_bool_iff in E. exfalso. exact (Qlt_not_le _ _ H E).
Qed.

Lemma proper_bounds_spec (lo hi : pyval) :
  proper_bounds lo hi = true <->
  exists a b, num_of lo = Some a /\ num_of hi = Some b /\ (a < b)%Q.
Proof.
  unfold proper_bounds. split.
  - destruct (num_of lo) as [a |]; [| discriminate].
    destruct (num_of hi) as [b |]; [| discriminate].
    intros H. exists a, b. repeat split. now apply Qltb_lt.
  - intros [a [b [-> [-> H]]]]. now apply Qltb_lt.
Qed.

(** A literal that is not a number leaves no extremum. *)
Lemma extremum_none (better : Q -> Q -> bool) (v : list pyval) (x : pyval) :
  In x v -> num_of x = None -> extremum better v = None.
Proof.
  induction v as [| x0 v IH]; simpl; intros Hin Hx; [contradiction |].
  destruct Hin as [-> | Hin].
  - now rewrite Hx.
  - destruct (num_of x0); [| reflexivity].
    destruct v as [| x1 v']; [contradiction |].
    now rewrite (IH Hin Hx).
Qed.

(** The types of strings and of objects absorb the others. *)
Lemma promote_absorbs (l : list dtype) (t : dtype) :
  (t = str_ \/ t = object_) \/ (exists u, In u l /\ (u = str_ \/ u = object_)) ->
  fold_left promote l t = str_ \/ fold_left promote l t = object_.
Proof.
  revert t. induction l as [| u l IH]; intros t H; simpl.
  - destruct H as [H | [u [[] _]]]. exact H.
  - apply IH. destruct H as [[-> | ->] | [u' [[<- | Hin] Hu']]].
    + left. destruct u; simpl; tauto.
    + left. destruct u; simpl; tauto.
    + left. destruct Hu' as [-> | ->]; destruct t; simpl; tauto.
    + right. exists u'. now split.
Qed.

Lemma cast_object (x : pyval) : cast object_ x = x.
Proof. now destruct x. Qed.

(** numpy cannot reduce a list that starts with a number and holds a
    literal that is not one. *)
Lemma np_reduce_refuses (better : Q -> Q -> bool) (v0 : pyval)
  (rest : list pyval) (x : pyval) :
  num_of v0 <> None -> In x (v0 :: rest) -> num_of x = None ->
  np_reduce better (v0 :: rest) = Raise (TypeError FromLibrary).
Proof.
  intros Hv0 Hin Hx.
  assert (Hrest : In x rest).
  { destruct Hin as [<- | Hin]; [congruence | exact Hin]. }
  unfold np_reduce.
  destruct (promote_absorbs (map dtype_of rest) (dtype_of v0)) as [-> | ->].
  - right. exists (dtype_of x). split; [now apply in_map |].
    destruct x; simpl in *; try discriminate; tauto.
  - reflexivity.
  - destruct rest as [| x1 rest']; [contradiction |].
    rewrite (map_ext _ _ cast_object), map_id.
    now rewrite (extremum_none better (v0 :: x1 :: rest') x Hin Hx).
Qed.

(** On a list of integers of 64 bits, and on a list of floats, numpy
    compares the literals as they are. *)
Lemma np_reduce_plain (better : Q -> Q -> bool) (v : list pyval) :
  Forall (fun x => exists z, x = PInt z /\ (- 2 ^ 63 <= z < 2 ^ 63)%Z) v
  \/ Forall (fun x => is_float x = true) v ->
  v <> [] ->
  exists x q, extremum better v = Some (x, q) /\ np_reduce better v = Ok x.
Proof.
  intros Hplain Hne.
  assert (Hnum : Forall (fun x => num_of x <> None) v).
  { destruct Hplain as [H | H]; eapply Forall_impl; try exact H;
      intros x Hx; cbv beta in Hx.
    - destruct Hx as [z [-> _]]. discriminate.
    - destruct x; simpl in *; discriminate. }
  destruct (extremum_total better v Hne Hnum) as [x [q Hx]].
  exists x, q. split; [exact Hx |].
  destruct v as [| x0 rest]; [congruence |]. unfold np_reduce.
  assert (Ht : exists t,
             (t = int64 \/ t = float64)
             /\ fold_left promote (map dtype_of rest) (dtype_of x0) = t
             /\ map (cast t) (x0 :: rest) = x0 :: rest).
  { assert (Hall : exists t, (t = int64 \/ t = float64)
                     /\ Forall (fun y => dtype_of y = t /\ cast t y = y)
                          (x0 :: rest)).
    { destruct Hplain as [H | H]; [exists int64 | exists float64];
        (split; [tauto |]); eapply Forall_impl; try exact H;
        intros y Hy; cbv beta in Hy.
      - destruct Hy as [z [-> Hz]]. unfold dtype_of, cast.
        destruct (Z.leb_spec (- 2 ^ 63) z) as [_ | Hlt]; [| lia].
        destruct (Z.ltb_spec z (2 ^ 63)) as [_ | Hge]; [| lia].
        split; reflexivity.
      - destruct y; cbn [is_float] in Hy; try discriminate.
        split; reflexivity. }
    destruct Hall as [t [Ht Hall]]. exists t. split; [exact Ht |].
    apply Forall_cons_iff in Hall. destruct Hall as [[H0 H0'] Hr].
    rewrite H0. split.
    - clear - Hr Ht. induction Hr as [| y rest [Hy _] _ IH]; cbn [map fold_left];
        [reflexivity |].
      rewrite Hy.
      replace (promote t t) with t by (destruct Ht as [-> | ->]; reflexivity).
      exact IH.
    - cbn [map]. rewrite H0'. f_equal.
      clear - Hr. induction Hr as [| y rest [_ Hy] _ IH]; cbn [map];
        [reflexivity |].
      rewrite Hy. f_equal. exact IH. }
  destruct Ht as [t [Ht [-> Hcast]]]. rewrite Hcast, Hx.
  destruct Ht as [-> | ->]; reflexivity.
Qed.

(** On such a list [np.min] and [np.max] return a least and a greatest
    literal of the list. *)
Lemma np_min_max_plain (v : list pyval) :
  Forall (fun x => exists z, x = PInt z /\ (- 2 ^ 63 <= z < 2 ^ 63)%Z) v
  \/ Forall (fun x => is_float x = true) v ->
  v <> [] ->
  exists lo hi a b,
    np_min v = Ok lo /\ np_max v = Ok hi
    /\ In lo v /\ In hi v /\ num_of lo = Some a /\ num_of hi = Some b
    /\ forall y r, In y v -> num_of y = Some r -> (a <= r <= b)%Q.
Proof.
  intros Hplain Hne. unfold np_min, np_max.
  destruct (np_reduce_plain Qltb v Hplain Hne) as [lo [a [Hlo ->]]].
  destruct (np_reduce_plain (fun r q => Qltb q r) v Hplain Hne)
    as [hi [b [Hhi ->]]].
  destruct (extremum_spec Qltb Qle Qle_refl Qle_trans Qltb_true Qltb_false
              v lo a Hlo) as [Hinlo [Hnlo Hlow]].
  destruct (extremum_spec (fun r q => Qltb q r) (fun a b => (b <= a)%Q)
              Qle_refl (fun a b c Hab Hbc => Qle_trans c b a Hbc Hab)
              (fun r q Hb => Qltb_true q r Hb)
              (fun r q Hb => Qltb_false q r Hb)
              v hi b Hhi) as [Hinhi [Hnhi Hhigh]].
  exists lo, hi, a, b. repeat split; try assumption; try reflexivity.
  - now apply (Hlow y).
  - now apply (Hhigh y).
Qed.

(** What the loop of the branch ['sklearn'] of [space] leaves in the dict:
    a name that the remaining items do not have keeps its entry, and every
    remaining item is converted by [space_of_value] and stored under its
    name. *)
Lemma space_sklearn_items_get (items : list (string * space_item))
  (acc d : dict (K:=string) (V:=Dimension)) :
  space_sklearn_items items acc = Ok d ->
  (forall k, ~ In k (dict_keys items) ->
             dict_get String.eqb d k = dict_get String.eqb acc k)
  /\ (NoDup (dict_keys items) ->
      forall k i, In (k, i) items ->
                  exists s, space_of_value k i = Ok s
                            /\ dict_get String.eqb d k = Some s).
Proof.
  revert acc. induction items as [| [k0 i0] items IH]; intros acc; simpl.
  - intros H. inversion H; subst. split; [reflexivity | intros _ k i []].
  - destruct (space_of_value k0 i0) as [s0 |] eqn:Hs0; [| discriminate].
    cbn [bind]. intros H. destruct (IH _ H) as [Hkeep Hconv]. split.
    + intros k Hk. rewrite Hkeep by tauto. rewrite dict_get_set.
      destruct (String.eqb_spec k k0) as [-> | _]; [tauto | reflexivity].
    + intros Hnd k i Hin. inversion Hnd as [| ? ? Hk0 Hnd']; subst.
      destruct Hin as [Heq | Hin].
      * inversion Heq; subst. exists s0. split; [assumption |].
        rewrite Hkeep by assumption. rewrite dict_get_set.
        now rewrite String.eqb_refl.
      * now apply Hconv.
Qed.

(** C8, as the code has it.  The first literal of the list decides the
    kind.  A list that starts with a number ([int], [bool] included, or
    [float]) is handed to [Integer] or [Real]: with more than two literals
    as the grid of the dimension, and otherwise as the range from
    [np.min] to [np.max] of the list.  When the dimension is made, it has
    this kind, the name of the list, and the list as its grid exactly when
    the list has more than two literals; of a short list it has the
    minimum and the maximum that numpy finds as its bounds, and the lower
    one is less than the upper one.  A list that holds a string or [None]
    after its first number is refused; a short list whose minimum is not
    less than its maximum, such as a single number or the same number
    twice, is refused with [ValueError]; a list of integers of 64 bits, or
    of floats, that holds two different numbers is accepted, and of a
    short one the bounds are then its least and its greatest literal.  A
    list that starts with another literal becomes a [Categorical]
    dimension over the list, provided that it has more than two literals
    or starts with a string, and is refused with [NotImplementedError]
    otherwise.  The empty list is an [IndexError].  In a mapping from
    names to values with the backend ['sklearn'], every literal list is
    converted in this way under its name. *)
Theorem space_from_list_shapes (v0 : pyval) (rest : list pyval) (k : string) :
  let v := v0 :: rest in
  let t := if is_int v0 then KInteger else KReal in
  (is_numeric v0 = true ->
   forall d, space_from_list v k = Ok d ->
     kind d = t /\ dname d = k
     /\ grid d = (if (2 <? List.length v)%nat then Some v else None)
     /\ ((List.length v <= 2)%nat ->
         exists lo hi a b,
           np_min v = Ok lo /\ np_max v = Ok hi
           /\ low d = Some lo /\ high d = Some hi
           /\ num_of lo = Some a /\ num_of hi = Some b /\ (a < b)%Q))
  /\ (is_numeric v0 = true -> (exists x, In x v /\ num_of x = None) ->
      is_ok (space_from_list v k) = false)
  /\ (is_numeric v0 = true -> (List.length v <= 2)%nat ->
      forall lo hi, np_min v = Ok lo -> np_max v = Ok hi ->
                    proper_bounds lo hi = false ->
                    space_from_list v k = Raise ValueError)
  /\ (Forall (fun x => exists z, x = PInt z /\ (- 2 ^ 63 <= z < 2 ^ 63)%Z) v
      \/ Forall (fun x => is_float x = true) v ->
      (exists x y a b, In x v /\ In y v /\ num_of x = Some a
                       /\ num_of y = Some b /\ (a < b)%Q) ->
      exists d lo hi,
        space_from_list v k = Ok d
        /\ np_min v = Ok lo /\ np_max v = Ok hi /\ In lo v /\ In hi v
        /\ (forall y r a b, In y v -> num_of y = Some r ->
                            num_of lo = Some a -> num_of hi = Some b ->
                            (a <= r <= b)%Q))
  /\ (is_numeric v0 = false -> (2 < List.length v)%nat \/ is_str v0 = true ->
      space_from_list v k
      = Ok {| kind := KCategorical; dname := k; low := None; high := None;
              prior := None; grid := None; categories := v |})
  /\ (is_numeric v0 = false -> (List.length v <= 2)%nat -> is_str v0 = false ->
      space_from_list v k = Raise NotImplementedError)
  /\ space_from_list [] k = Raise IndexError
  /\ (forall items d l,
         NoDup (dict_keys items) ->
         space_sklearn (SpDict items) = Ok d ->
         In (k, ItList l) items ->
         exists s, space_from_list l k = Ok s
                   /\ dict_get String.eqb d k = Some s).
Proof.
  intros v t. subst v t.
  assert (Hshape : is_numeric v0 = true ->
            space_from_list (v0 :: rest) k
            = (lo <- np_min (v0 :: rest) ;;
               hi <- np_max (v0 :: rest) ;;
               if proper_bounds lo hi then
                 Ok {| kind := if is_int v0 then KInteger else KReal;
                       dname := k; low := Some lo; high := Some hi;
                       prior := None;
                       grid := if (2 <? List.length (v0 :: rest))%nat
                               then Some (v0 :: rest) else None;
                       categories := [] |}
               else Raise ValueError)).
  { intros Hnum. unfold space_from_list, with_grid, with_range, is_numeric in *.
    destruct (2 <? List.length (v0 :: rest))%nat;
      destruct (is_int v0); try reflexivity;
      simpl in Hnum; rewrite Hnum; reflexivity. }
  split; [| split; [| split; [| split; [| split; [| split; [| split]]]]]].
  - intros Hnum d Hd. rewrite (Hshape Hnum) in Hd.
    destruct (np_min (v0 :: rest)) as [lo |]; [| discriminate].
    destruct (np_max (v0 :: rest)) as [hi |]; [| discriminate].
    cbn [bind] in Hd.
    destruct (proper_bounds lo hi) eqn:Hp; [| discriminate].
    injection Hd as <-. cbn [kind dname grid low high].
    repeat split.
    intros _. apply proper_bounds_spec in Hp.
    destruct Hp as [a [b [Ha [Hb Hab]]]].
    exists lo, hi, a, b. repeat split; assumption.
  - intros Hnum [x [Hin Hx]]. rewrite (Hshape Hnum).
    assert (Hv0 : num_of v0 <> None).
    { unfold is_numeric in Hnum. destruct v0; simpl in *; discriminate. }
    unfold np_min. rewrite (np_reduce_refuses Qltb v0 rest x Hv0 Hin Hx).
    reflexivity.
  - intros Hnum Hlen lo hi Hlo Hhi Hp. rewrite (Hshape Hnum), Hlo, Hhi.
    cbn [bind]. now rewrite Hp.
  - intros Hplain [x [y [a [b [Hx [Hy [Ha [Hb Hab]]]]]]]].
    destruct (np_min_max_plain (v0 :: rest) Hplain ltac:(discriminate))
      as [lo [hi [a' [b' [Hlo [Hhi [Hinlo [Hinhi [Hna [Hnb Hall]]]]]]]]]].
    assert (Hnum : is_numeric v0 = true).
    { destruct Hplain as [H | H]; inversion H as [| ? ? H0 _]; subst.
      - destruct H0 as [z [-> _]]. reflexivity.
      - unfold is_numeric. rewrite H0. apply orb_true_r. }
    assert (Hp : proper_bounds lo hi = true).
    { apply proper_bounds_spec. exists a', b'. repeat split; try assumption.
      apply Qle_lt_trans with a; [apply (Hall x a Hx Ha) |].
      apply Qlt_le_trans with b; [exact Hab | apply (Hall y b Hy Hb)]. }
    rewrite (Hshape Hnum), Hlo, Hhi. cbn [bind]. rewrite Hp.
    eexists. exists lo, hi. repeat split; try assumption; try reflexivity.
    + rewrite Hna in H1. injection H1 as <-. now apply (Hall y0 r).
    + rewrite Hnb in H2. injection H2 as <-. now apply (Hall y0 r).
  - intros Hnum Hcase. unfold is_numeric in Hnum.
    apply orb_false_iff in Hnum. destruct Hnum as [Hi Hf].
    unfold space_from_list, Categorical. rewrite Hi, Hf.
    destruct (2 <? List.length (v0 :: rest))%nat eqn:Hlen; [reflexivity |].
    destruct Hcase as [Hlong | Hstr].
    + apply Nat.ltb_lt in Hlong. congruence.
    + now rewrite Hstr.
  - intros Hnum Hlen Hstr. unfold is_numeric in Hnum.
    apply orb_false_iff in Hnum. destruct Hnum as [Hi Hf].
    assert (Hlen' : (2 <? List.length (v0 :: rest))%nat = false)
      by (apply Nat.ltb_ge; exact Hlen).
    unfold space_from_list. now rewrite Hlen', Hi, Hf, Hstr.
  - reflexivity.
  - intros items d l Hnd Hd Hin. unfold space_sklearn in Hd.
    destruct (space_sklearn_items_get items [] d Hd) as [_ Hconv].
    destruct (Hconv Hnd k (ItList l) Hin) as [s [Hs Hget]].
    exists s. split; assumption.
Qed.

Lemma space_from_list_shapes_witness :
  exists d lo hi,
    space_from_list [PInt 1; PInt 5] "x" = Ok d
    /\ np_min [PInt 1; PInt 5] = Ok lo /\ np_max [PInt 1; PInt 5] = Ok hi
    /\ In lo [PInt 1; PInt 5] /\ In hi [PInt 1; PInt 5]
    /\ (forall y r a b, In y [PInt 1; PInt 5] -> num_of y = Some r ->
                        num_of lo = Some a -> num_of hi = Some b ->
                        (a <= r <= b)%Q).
Proof.
  apply (proj1 (proj2 (proj2 (proj2
           (space_from_list_shapes (PInt 1) [PInt 5] "x"))))).
  - left. repeat constructor; eexists; (split; [reflexivity | lia]).
  - exists (PInt 1), (PInt 5), 1%Q, 5%Q.
    split; [now left |]. split; [right; now left |].
    split; [reflexivity |]. split; reflexivity.
Defined.

(** C8 as stated fails on a list of two numbers, which becomes an
    [Integer] dimension that ranges from the least to the greatest and not
    a [Categorical] one; on a short list of a literal that is neither a
    number nor a string, which is refused; on a single number and on the
    same number twice, which are refused as a range without extent; and on
    a long list that starts with a number and goes on with strings, which
    is refused as well and does not become a [Categorical] dimension. *)
Lemma two_numbers_are_a_range :
  space_from_list [PInt 1; PInt 5] "x"
  = Ok {| kind := KInteger; dname := "x"; low := Some (PInt 1);
          high := Some (PInt 5); prior := None; grid := None;
          categories := [] |}
  /\ (forall d, space_from_list [PInt 1; PInt 5] "x" = Ok d ->
                kind d <> KCategorical)
  /\ space_from_list [PNone] "x" = Raise NotImplementedError
  /\ space_from_list [PInt 3] "x" = Raise ValueError
  /\ space_from_list [PInt 5; PInt 5] "x" = Raise ValueError
  /\ is_ok (space_from_list [PInt 1; PStr "a"; PStr "b"] "x") = false.
Proof.
  split; [reflexivity |]. split; [| repeat split; reflexivity].
  intros d H. vm_compute in H. inversion H; subst. discriminate.
Qed.

End SpaceFacts.

(** ** Sorting and the Cartesian product *)

Module GridFacts.

Import Orchestrator Search Nested DictFacts.

Section SortedFacts.
Context {A : Type}.
Variable leb : A -> A -> bool.
Hypothesis leb_total : forall a b, leb a b = true \/ leb b a = true.

Lemma insort_perm (x : A) (l : list A) : Permutation (insort leb x l) (x :: l).
Proof.
  induction l as [| y l IH]; simpl.
  - reflexivity.
  - destruct (leb x y).
    + reflexivity.
    + rewrite IH. apply perm_swap.
Qed.

Lemma sorted_perm (l : list A) : Permutation (sorted leb l) l.
Proof.
  induction l as [| x l IH]; simpl.
  - reflexivity.
  - rewrite insort_perm. now constructor.
Qed.

Lemma insort_hd (x y : A) (l : list A) :
  leb y x = true ->
  HdRel (fun a b => leb a b = true) y l ->
  HdRel (fun a b => leb a b = true) y (insort leb x l).
Proof.
  intros Hyx Hhd. destruct l as [| z l]; simpl.
  - now constructor.
  - destruct (leb x z); constructor; [assumption |].
    now inversion Hhd.
Qed.

Lemma insort_sorted (x : A) (l : list A) :
  Sorted (fun a b => leb a b = true) l ->
  Sorted (fun a b => leb a b = true) (insort leb x l).
Proof.
  induction l as [| y l IH]; simpl; intros Hs.
  - repeat constructor.
  - destruct (leb x y) eqn:Hxy.
    + constructor; [assumption | now constructor].
    + inversion Hs as [| ? ? Hs' Hhd]; subst.
      constructor; [now apply IH |].
      apply insort_hd; [| assumption].
      destruct (leb_total x y) as [H | H]; [congruence | exact H].
Qed.

Lemma sorted_sorted (l : list A) :
  Sorted (fun a b => leb a b = true) (sorted leb l).
Proof.
  induction l as [| x l IH]; simpl.
  - constructor.
  - now apply insort_sorted.
Qed.
End SortedFacts.

Section Product.
Context {A : Type}.




End Product.











End GridFacts.

(** ** Grid search and the invocation of the objective *)

Module SearchFacts.

Import Resolver Space Orchestrator Search History Best Fit Nested.
Import DictFacts GridFacts.





Lemma invoke_agree o o' para :
  objective_fn o' = objective_fn o ->
  use_dl4seq_model o' = use_dl4seq_model o ->
  invoke o' para = invoke o para.
Proof.
  intros Hf Hd. unfold invoke, use_named_args. now rewrite Hf, Hd.
Qed.



Lemma set_results_same (o : HyperOpt) : set_results o (results o) = o.
Proof. now destruct o. Qed.






End SearchFacts.

(** ** Concrete searches, evaluated *)

Module ScenarioFacts.

Import Resolver Space Orchestrator Search History Best Fit Nested Scenario.
Import DictFacts GridFacts SearchFacts.



End ScenarioFacts.

(** ** The calling convention of the objective *)

Module InvocationFacts.

Import Resolver Space Orchestrator Search History Best Fit Nested Scenario.
Import DictFacts GridFacts SearchFacts.




End InvocationFacts.

(** ** The result store and the best trial *)

Module StoreFacts.

Import Resolver Space Orchestrator Search History Best Fit Nested Scenario.

(** C1 fails on the grid search of [x / 2] over [x] in [2, 1].  The two
    trials have the values 1 and 1/2; they are stored under the keys
    [1 + 0] and [1/2 + 1]; [best_paras] takes the least key and returns
    [x = 2], whose value 1 is not the least value. *)
Theorem best_paras_misses_the_minimum :
  let run := fit_grid (SpDict [("x", ints [2; 1]%Z)]) half_x in
  fst run = [CallKw [("x", PInt 2)]; CallKw [("x", PInt 1)]]
  /\ call_kw half_x [("x", PInt 2)] = Ok 1%Q
  /\ call_kw half_x [("x", PInt 1)] = Ok (1 # 2)%Q
  /\ results_of run = Ok [(1%Q, [("x", PInt 2)]); ((3 # 2)%Q, [("x", PInt 1)])]
  /\ best_of run = Ok [("x", PInt 2)].
Proof. repeat split. Qed.

(** C5 fails on the grid search of [x] over [x] in [1, 0].  The two trials
    have the distinct values 1 and 0; both are stored under the key 1
    ([1 + 0] and [0 + 1]), and the second replaces the first: two trials,
    one entry. *)
Theorem index_sum_overwrites :
  let run := fit_grid (SpDict [("x", ints [1; 0]%Z)]) identity_x in
  fst run = [CallKw [("x", PInt 1)]; CallKw [("x", PInt 0)]]
  /\ call_kw identity_x [("x", PInt 1)] = Ok 1%Q
  /\ call_kw identity_x [("x", PInt 0)] = Ok 0%Q
  /\ results_of run = Ok [(1%Q, [("x", PInt 0)])].
Proof. repeat split. Qed.

(** The same on the scenario of the specification, [x ** 2] over the
    integers from -5 to 5: eleven trials leave six entries. *)
Lemma square_scenario_keeps_six :
  let run := fit_grid (SpDict [("x", ints [-5; -4; -3; -2; -1; 0; 1; 2; 3; 4; 5]%Z)])
               square_x in
  List.length (fst run) = 11
  /\ results_of run
     = Ok [(25%Q, [("x", PInt 4)]); (17%Q, [("x", PInt 3)]);
           (11%Q, [("x", PInt 2)]); (7%Q, [("x", PInt 1)]);
           (5%Q, [("x", PInt 0)]); (35%Q, [("x", PInt 5)])]
  /\ best_of run = Ok [("x", PInt 0)].
Proof. repeat split. Qed.

(** With the dl4seq model the trials are stored under their values alone:
    of two trials of one value, the later replaces the earlier. *)
Lemma model_trials_share_a_key :
  let run := fit_grid_model (SpDict [("x", ints [1; 2]%Z)]) in
  fst run = [CallModel [("x", PInt 1)]; CallModel [("x", PInt 2)]]
  /\ results_of run = Ok [((1 # 4)%Q, [("x", PInt 2)])].
Proof. repeat split. Qed.

(** Where the index does keep trials apart: two trials of one and the
    same value never share a key. *)
Lemma equal_values_get_distinct_keys (err : Q) (i j : nat) :
  i <> j -> Qeq_bool (add_index err i) (add_index err j) = false.
Proof.
  intros Hij. unfold add_index.
  destruct (Qeq_bool _ _) eqn:H; [| reflexivity].
  apply Qeq_bool_iff in H. rewrite !Qred_correct in H.
  apply Qplus_inj_l in H. unfold Qeq in H. simpl in H.
  exfalso. apply Hij. lia.
Qed.

End StoreFacts.

(** ** The trial-history record *)

Module HistoryFacts.

Import Resolver Space Orchestrator Search History Best Fit Nested Scenario.

(** The attributes that the constructor sets from its arguments. *)
Lemma init_fields env algorithm ps f eob backend kw o :
  __init__ env algorithm ps f eob backend kw = Ok o ->
  Orchestrator.algorithm o = algorithm
  /\ backend_setter algorithm backend = Ok (_backend o)
  /\ objective_fn o = f
  /\ original_space o = ps
  /\ results o = []
  /\ gpmin_results o = None.
Proof.
  unfold __init__.
  destruct (is_algorithm algorithm); [| discriminate]. cbn [bind].
  destruct (backend_setter algorithm backend) as [b |]; [| discriminate].
  cbn [bind].
  destruct (param_space_setter algorithm b ps) as [ps' |]; [| discriminate].
  cbn [bind].
  destruct (set_opt_path env _) as [u |]; [| discriminate]. cbn [bind].
  destruct (check_args env algorithm _) as [ca |]; [| discriminate].
  cbn [bind].
  repeat match goal with
         | |- context [if ?c then _ else _] => destruct c
         | |- context [estimator_init ?e ?c ?g ?x ?k] =>
             destruct (estimator_init e c g x k); cbn [bind]
         end;
    intros H; inversion H; repeat split.
Qed.

(** C6, as the code has it.  The record that [save_iterations_as_xy] writes
    maps the texts of the keys of the iterations to their parameters and
    has no member ['space']: [from_gp_parameters] raises [KeyError] on
    either of its two files, for every search, so that no optimizer and
    no best trial come back from it.  What [from_gp_parameters] resumes is
    a document that has a member ['space']: the optimizer it returns is one
    of ['bayes'] on ['skopt'], with an empty result store and with that
    document as its [gpmin_results]. *)
Theorem trial_history_is_not_resumable
  (env : environment) (fpath : string) (f : option objective) :
  (forall iterations,
      from_gp_parameters env fpath (dump_iterations iterations) f
      = Raise (KeyError "space"))
  /\ (forall o docs,
         save_iterations_as_xy env o = Ok docs ->
         from_gp_parameters env fpath (fst docs) f = Raise (KeyError "space")
         /\ from_gp_parameters env fpath (snd docs) f = Raise (KeyError "space"))
  /\ (forall j o,
         from_gp_parameters env fpath (Document j) f = Ok o ->
         (exists space, json_get j "space" = Ok (JObj space))
         /\ gpmin_results o = Some (Document j)
         /\ Orchestrator.algorithm o = "bayes"
         /\ _backend o = "skopt"
         /\ results o = []).
Proof.
  split; [| split].
  - intros iterations. reflexivity.
  - intros o docs Hsave. unfold save_iterations_as_xy in Hsave.
    destruct (xy_of_iterations env o) as [iterations |]; [| discriminate].
    cbn [bind] in Hsave. inversion Hsave; subst. split; reflexivity.
  - intros j o. unfold from_gp_parameters. cbn [document_get].
    destruct (json_get j "space") as [space |]; [| discriminate].
    cbn [bind].
    destruct space as [| | | | | | members]; try discriminate. cbn [bind].
    destruct (dimensions_of_json members) as [spaces |]; [| discriminate].
    cbn [bind].
    destruct (__init__ env "bayes" _ f false (Some "skopt") _) as [o' |] eqn:Hinit;
      [| discriminate].
    cbn [bind]. intros H. inversion H; subst. clear H.
    destruct (init_fields _ _ _ _ _ _ _ _ Hinit)
      as [Halg [Hb [_ [_ [Hres _]]]]].
    cbn in Hb. inversion Hb as [Hb'].
    repeat split; try assumption; eauto.
Qed.

Lemma trial_history_is_not_resumable_witness :
  exists o docs,
    snd (fit_grid (SpDict [("x", ints [2; 1]%Z)]) half_x) = Ok o
    /\ save_iterations_as_xy plain_env o = Ok docs
    /\ from_gp_parameters plain_env "results/iterations.json" (fst docs)
         (Some half_x)
       = Raise (KeyError "space").
Proof.
  eexists. eexists. split; [reflexivity |].
  match goal with
  | |- save_iterations_as_xy _ ?o = _ /\ _ =>
      refine (let H := proj1 (proj2 (trial_history_is_not_resumable plain_env
                                       "results/iterations.json"
                                       (Some half_x))) o _ eq_refl in
              conj eq_refl (proj1 H))
  end.
Defined.

(** C6 as stated fails on the search of [x / 2] over [x] in [2, 1]: the
    live run has a best trial, and resuming from the record that the run
    has written raises [KeyError]. *)
Lemma resumed_search_has_no_best :
  let run := fit_grid (SpDict [("x", ints [2; 1]%Z)]) half_x in
  best_of run = Ok [("x", PInt 2)]
  /\ history_of run
     = Ok (FloatKeyed [(1%Q, JObj [("x", JInt 2)]);
                       ((3 # 2)%Q, JObj [("x", JInt 1)])],
           FloatKeyed [(1%Q, JObj [("x", JInt 2)]);
                       ((3 # 2)%Q, JObj [("x", JInt 1)])])
  /\ resume run half_x = Raise (KeyError "space").
Proof. repeat split. Qed.

End HistoryFacts.

(** ** What every constructed object satisfies *)

Module ConstructionFacts.

Import Resolver Space Orchestrator ResolverFacts.

(** What a successful resolution tells: the algorithm is one of the six
    that have a branch, the backend is a known one that the table lists
    for the algorithm (any known one for ['bayes']), a backend that was
    supplied is the one returned, and the backend returned resolves to
    itself. *)
Lemma backend_setter_ok (algorithm : string) (x : option string) (b : string) :
  backend_setter algorithm x = Ok b ->
  In algorithm ["bayes"; "tpe"; "atpe"; "random"; "grid"; "cmaes"]
  /\ In b known_backends
  /\ (algorithm <> "bayes" -> in_table algorithm b = true)
  /\ (forall b0, x = Some b0 -> b = b0)
  /\ backend_setter algorithm (Some b) = Ok b.
Proof.
  intros H.
  assert (Hx : match x with
               | Some b0 => In b0 known_backends
               | None => True
               end).
  { destruct x as [b0 |]; [| exact I].
    apply str_in_In. destruct (str_in b0 known_backends) eqn:Hk; [reflexivity |].
    rewrite (backend_setter_unknown algorithm b0 Hk) in H. discriminate. }
  unfold backend_setter in H.
  destruct x as [b0 |].
  - simpl in Hx.
    repeat match goal with
           | Hd : _ \/ _ |- _ => destruct Hd
           | Hd : False |- _ => destruct Hd
           end; subst b0; cbn [assert_ str_in existsb String.eqb Ascii.eqb
                                 Bool.eqb orb bind] in H;
      repeat match type of H with
             | context [if (algorithm =? ?s)%string then _ else _] =>
                 destruct (String.eqb_spec algorithm s); [subst algorithm |]
             end;
      try discriminate; inversion H; subst b;
      (split; [simpl; tauto |]);
      (split; [simpl; tauto |]);
      (split; [intros; try congruence; reflexivity |]);
      (split; [intros ? Heq; now inversion Heq | reflexivity]).
  - cbn [bind] in H.
    repeat match type of H with
           | context [if (algorithm =? ?s)%string then _ else _] =>
               destruct (String.eqb_spec algorithm s); [subst algorithm |]
           end;
      try discriminate; inversion H; subst b;
      (split; [simpl; tauto |]);
      (split; [simpl; tauto |]);
      (split; [intros; try congruence; reflexivity |]);
      (split; [intros ? Heq; discriminate | reflexivity]).
Qed.

Lemma init_algorithm env algorithm ps f eob backend kw o :
  __init__ env algorithm ps f eob backend kw = Ok o ->
  Orchestrator.algorithm o = algorithm
  /\ objective_fn o = f
  /\ results o = []
  /\ gpmin_results o = None
  /\ exists b ps' ca,
       backend_setter algorithm backend = Ok b /\ _backend o = b
       /\ param_space_setter algorithm b ps = Ok ps' /\ _param_space o = ps'
       /\ check_args env algorithm
            (filter (fun kv => negb ("opt_path" =? fst kv)) kw) = Ok ca
       /\ gpmin_args o = ca_kwargs ca
       /\ use_dl4seq_model o = ca_use_dl4seq_model ca.
Proof.
  unfold __init__.
  destruct (is_algorithm algorithm); [| discriminate]. cbn [bind].
  destruct (backend_setter algorithm backend) as [b |] eqn:Hb; [| discriminate].
  cbn [bind].
  destruct (param_space_setter algorithm b ps) as [ps' |] eqn:Hp;
    [| discriminate].
  cbn [bind].
  destruct (set_opt_path env _) as [u |]; [| discriminate]. cbn [bind].
  destruct (check_args env algorithm _) as [ca |] eqn:Hc; [| discriminate].
  cbn [bind].
  repeat match goal with
         | |- context [if ?c then _ else _] => destruct c
         | |- context [estimator_init ?e ?c ?g ?x ?k] =>
             destruct (estimator_init e c g x k); cbn [bind]
         end;
    intros H; inversion H;
    (do 4 (split; [reflexivity |]));
    exists b, ps', ca; repeat split; assumption.
Qed.

(** X1.  Whatever the arguments, an object that the constructor returns
    has one of the six algorithms that the resolver has a branch for and
    one of the four known backends; unless the algorithm is ['bayes'],
    that backend is one that [ALGORITHMS] lists for the algorithm; and a
    backend that the caller supplied is the one stored. *)
Theorem constructed_backend_is_compatible
  (env : environment) (algorithm : string) (ps : raw_space)
  (f : option objective) (eob : bool) (backend : option string) (kw : kwargs)
  (o : HyperOpt) :
  __init__ env algorithm ps f eob backend kw = Ok o ->
  In (Orchestrator.algorithm o)
     ["bayes"; "tpe"; "atpe"; "random"; "grid"; "cmaes"]
  /\ In (_backend o) known_backends
  /\ (Orchestrator.algorithm o <> "bayes" ->
      in_table (Orchestrator.algorithm o) (_backend o) = true)
  /\ (forall b, backend = Some b -> _backend o = b).
Proof.
  intros H.
  destruct (init_algorithm _ _ _ _ _ _ _ _ H)
    as [Ha [_ [_ [_ [b [ps' [ca [Hb [Hbo _]]]]]]]]].
  rewrite Ha, Hbo.
  destruct (backend_setter_ok algorithm backend b Hb) as [H1 [H2 [H3 [H4 _]]]].
  repeat split; assumption.
Qed.

Lemma constructed_backend_is_compatible_witness :
  exists o,
    __init__ Scenario.plain_env "grid"
      (SpDict [("x", Scenario.ints [2; 1]%Z)]) (Some Scenario.half_x)
      false None [] = Ok o
    /\ In (_backend o) known_backends.
Proof.
  eexists. split; [reflexivity |].
  refine (proj1 (proj2 (constructed_backend_is_compatible Scenario.plain_env
                          "grid" (SpDict [("x", Scenario.ints [2; 1]%Z)])
                          (Some Scenario.half_x) false None [] _ eq_refl))).
Defined.

(** X2.  Resolution is stable: the backend that the setter returns, for a
    backend that was given or left out, is accepted again by the setter
    for the same algorithm and returned unchanged; and the setter never
    replaces a backend that was given. *)
Theorem resolved_backend_resolves_to_itself
  (algorithm : string) (x : option string) (b : string) :
  backend_setter algorithm x = Ok b ->
  backend_setter algorithm (Some b) = Ok b
  /\ (forall b0, x = Some b0 -> b = b0).
Proof.
  intros H.
  destruct (backend_setter_ok algorithm x b H) as [_ [_ [_ [H4 H5]]]].
  split; assumption.
Qed.

Lemma resolved_backend_resolves_to_itself_witness :
  backend_setter "tpe" (Some "optuna") = Ok "optuna".
Proof.
  exact (proj1 (resolved_backend_resolves_to_itself "tpe" None "optuna"
                  eq_refl)).
Defined.

(** X3.  Every object that the constructor returns has exactly one way to
    be fitted: either an estimator in [self.optfn] (and then the objective
    is a scikit-learn one and [self.fit] is not assigned) or a method in
    [self.fit].  The method tells the search: [grid_search] and
    [random_search] are assigned only for their algorithm on the backend
    ['sklearn'], [fmin] only on the backend ['hyperopt'],
    [optuna_objective] only on the backend ['optuna'], and [own_fit] only
    for ['bayes'].  The chain of tests that assigns the method has no last
    [else], and none is needed. *)
Theorem constructed_object_has_one_engine
  (env : environment) (algorithm : string) (ps : raw_space)
  (f : option objective) (eob : bool) (backend : option string) (kw : kwargs)
  (o : HyperOpt) :
  __init__ env algorithm ps f eob backend kw = Ok o ->
  (optfn o = None <-> fit o <> None)
  /\ (optfn o <> None -> sklearn_objective f = true)
  /\ (fit o = Some "grid_search" ->
      algorithm = "grid" /\ _backend o = "sklearn")
  /\ (fit o = Some "random_search" ->
      algorithm = "random" /\ _backend o = "sklearn")
  /\ (fit o = Some "fmin" -> _backend o = "hyperopt")
  /\ (fit o = Some "optuna_objective" -> _backend o = "optuna")
  /\ (fit o = Some "own_fit" -> algorithm = "bayes")
  /\ (optfn o <> None
      \/ exists m, fit o = Some m
                   /\ In m ["grid_search"; "random_search"; "fmin";
                            "optuna_objective"; "own_fit"]).
Proof.
  intros H.
  destruct (init_algorithm _ _ _ _ _ _ _ _ H)
    as [_ [_ [_ [_ [b [ps' [ca [Hb [Hbo [Hp [_ [Hc _]]]]]]]]]]]].
  destruct (backend_setter_ok algorithm backend b Hb) as [Ha [Hk [Ht _]]].
  unfold __init__ in H.
  assert (Hi : is_algorithm algorithm = true).
  { simpl in Ha.
    repeat match goal with
           | Hd : _ \/ _ |- _ => destruct Hd
           | Hd : False |- _ => destruct Hd
           end; subst; reflexivity. }
  rewrite Hi, Hb in H. cbn [bind] in H. rewrite Hp in H. cbn [bind] in H.
  destruct (set_opt_path env _) as [u |]; [| discriminate]. cbn [bind] in H.
  rewrite Hc in H. cbn [bind] in H.
  unfold use_own_of in H.
  unfold use_sklearn_of, use_skopt_bayes_of, use_skopt_gpmin_of in H.
  rewrite Hbo. clear Hbo Hb Hp Hc Hi.
  simpl in Ha, Hk.
  repeat match goal with
         | Hd : _ \/ _ |- _ => destruct Hd
         | Hd : False |- _ => destruct Hd
         end; subst algorithm b;
    try (specialize (Ht ltac:(discriminate)); discriminate Ht); clear Ht;
    revert H; destruct (sklearn_objective f); intros H;
    cbn in H;
    repeat match type of H with
           | context [estimator_init ?e ?c ?g ?x ?k] =>
               destruct (estimator_init e c g x k); cbn in H
           end;
    try discriminate H; inversion H; subst; cbn;
    repeat split; intros; try congruence;
    first [ left; discriminate
          | right; eexists; split; [reflexivity | simpl; tauto] ].
Qed.

Lemma constructed_object_has_one_engine_witness :
  exists o,
    __init__ Scenario.plain_env "grid"
      (SpDict [("x", Scenario.ints [2; 1]%Z)]) (Some Scenario.half_x)
      false None [] = Ok o
    /\ (optfn o = None <-> fit o <> None).
Proof.
  eexists. split; [reflexivity |].
  refine (proj1 (constructed_object_has_one_engine Scenario.plain_env
                   "grid" (SpDict [("x", Scenario.ints [2; 1]%Z)])
                   (Some Scenario.half_x) false None [] _ eq_refl)).
Defined.

End ConstructionFacts.

(** ** The keyword arguments of the constructor *)

Module ArgsFacts.

Import Resolver Space Orchestrator ResolverFacts.

Lemma Ok_inj {A : Type} (a b : A) : Ok a = Ok b -> a = b.
Proof. congruence. Qed.

Lemma dict_get_filter {V : Type} (d : dict (K:=string) (V:=V)) (k0 k : string) :
  dict_get String.eqb (filter (fun kv => negb (k0 =? fst kv)%string) d) k
  = if (k =? k0)%string then None else dict_get String.eqb d k.
Proof.
  induction d as [| [k1 v1] d IH]; simpl.
  - now destruct (k =? k0)%string.
  - destruct (String.eqb_spec k0 k1) as [-> | Hne]; simpl.
    + rewrite IH. destruct (String.eqb_spec k k1); reflexivity.
    + rewrite IH. destruct (String.eqb_spec k k1) as [-> | _];
        [| reflexivity].
      destruct (String.eqb_spec k1 k0); [congruence | reflexivity].
Qed.

Lemma has_key_get {V : Type} (d : dict (K:=string) (V:=V)) (k : string) :
  has_key d k = match dict_get String.eqb d k with
                | Some _ => true
                | None => false
                end.
Proof.
  unfold has_key, str_in, dict_keys.
  induction d as [| [k1 v1] d IH]; simpl; [reflexivity |].
  destruct (k =? k1)%string; [reflexivity | exact IH].
Qed.

Lemma dict_pop_spec {V : Type} (d : dict (K:=string) (V:=V)) (k : string) :
  dict_pop d k
  = match dict_get String.eqb d k with
    | Some v => Ok (v, filter (fun kv => negb (k =? fst kv)%string) d)
    | None => Raise (KeyError k)
    end.
Proof. reflexivity. Qed.

(** X4.  What [check_args] hands back.  The keyword arguments it returns
    are those it was given, with the same values, except that
    ['dl4seq_args'] and ['data'] are taken out when ['dl4seq_args'] was
    given, and that ['x0'] is taken out for the algorithms ['tpe'],
    ['atpe'], ['random'], ['grid'] and ['cmaes']; nothing is added.  The
    dl4seq model is used exactly when ['dl4seq_args'] was given. *)
Theorem check_args_returns
  (env : environment) (algorithm : string) (kw : kwargs) (ca : checked_args) :
  check_args env algorithm kw = Ok ca ->
  (forall k,
      dict_get String.eqb (ca_kwargs ca) k
      = if (has_key kw "dl4seq_args"
            && ((k =? "dl4seq_args") || (k =? "data"))%string)
           || (str_in algorithm ["tpe"; "atpe"; "random"; "grid"; "cmaes"]
               && (k =? "x0")%string)
        then None
        else dict_get String.eqb kw k)
  /\ ca_use_dl4seq_model ca = has_key kw "dl4seq_args".
Proof.
  unfold check_args. intros H.
  set (x0alg := str_in algorithm ["tpe"; "atpe"; "random"; "grid"; "cmaes"]) in *.
  assert (Hstep : forall ca1 (dl : bool),
             (forall k, dict_get String.eqb (ca_kwargs ca1) k
                        = if dl && ((k =? "dl4seq_args") || (k =? "data"))%string
                          then None else dict_get String.eqb kw k) ->
             ca_use_dl4seq_model ca1 = dl ->
             ((if has_key (ca_kwargs ca1) "n_initial_points"
                  && (skopt_minor env <? 8)%nat
               then Raise ValueError else Ok tt) ;;;
              (if has_key (ca_kwargs ca1) "x0" && x0alg
               then
                 p <- dict_pop (ca_kwargs ca1) "x0" ;;
                 Ok {| ca_dl4seq_args := ca_dl4seq_args ca1;
                       ca_data := ca_data ca1; ca_model := ca_model ca1;
                       ca_use_dl4seq_model := ca_use_dl4seq_model ca1;
                       ca_kwargs := snd p |}
               else Ok ca1)) = Ok ca ->
             (forall k, dict_get String.eqb (ca_kwargs ca) k
                        = if (dl && ((k =? "dl4seq_args") || (k =? "data"))%string)
                             || (x0alg && (k =? "x0")%string)
                          then None else dict_get String.eqb kw k)
             /\ ca_use_dl4seq_model ca = dl).
  { intros ca1 dl Hget Hdl Hrest.
    destruct (has_key (ca_kwargs ca1) "n_initial_points"
              && (skopt_minor env <? 8)%nat); [discriminate |].
    cbn [bind] in Hrest.
    destruct (has_key (ca_kwargs ca1) "x0") eqn:Hx0; cbn [andb] in Hrest.
    - destruct x0alg.
      + rewrite dict_pop_spec in Hrest. rewrite has_key_get in Hx0.
        destruct (dict_get String.eqb (ca_kwargs ca1) "x0") as [v |];
          [| discriminate].
        unfold bind in Hrest. apply Ok_inj in Hrest. subst ca.
        cbn [ca_kwargs ca_use_dl4seq_model snd].
        split; [| assumption].
        intros k. rewrite dict_get_filter, Hget.
        destruct (String.eqb_spec k "x0") as [-> | _]; cbn.
        * now rewrite orb_true_r.
        * now rewrite orb_false_r.
      + apply Ok_inj in Hrest. subst ca. split; [| assumption].
        intros k. rewrite Hget. cbn [andb]. now rewrite orb_false_r.
    - apply Ok_inj in Hrest. subst ca. split; [| assumption].
      intros k. rewrite Hget. rewrite has_key_get in Hx0.
      destruct (String.eqb_spec k "x0") as [-> | _].
      + cbn. rewrite Hget in Hx0. cbn in Hx0. rewrite andb_false_r in *.
        cbn in *. destruct (dict_get String.eqb kw "x0"); [discriminate |].
        now match goal with |- _ = if ?c then _ else _ => destruct c end.
      + now rewrite andb_false_r, orb_false_r. }
  destruct (has_key kw "dl4seq_args") eqn:Hdl.
  - rewrite dict_pop_spec in H.
    destruct (dict_get String.eqb kw "dl4seq_args") as [a |]; [| discriminate].
    cbn [bind fst snd] in H. rewrite dict_pop_spec, dict_get_filter in H.
    change ("data" =? "dl4seq_args")%string with false in H. cbv iota in H.
    destruct (dict_get String.eqb kw "data") as [d |]; [| discriminate].
    cbn [bind fst snd] in H.
    destruct a as [| args | l |]; try discriminate.
    rewrite dict_pop_spec in H.
    destruct (dict_get String.eqb args "model") as [m |]; [| discriminate].
    cbn [bind fst snd] in H.
    apply (Hstep _ true) in H; [exact H | | reflexivity].
    intros k. cbn [ca_kwargs andb]. rewrite !dict_get_filter.
    destruct (String.eqb_spec k "data") as [-> | _]; [reflexivity |].
    now rewrite orb_false_r.
  - cbn [bind] in H. apply (Hstep _ false) in H; [exact H | | reflexivity].
    intros k. reflexivity.
Qed.

Lemma check_args_returns_witness :
  dict_get String.eqb
    [("n_iter", KwValue (PInt 5))] "x0" = None.
Proof.
  exact (proj1 (check_args_returns Scenario.plain_env "random"
                  [("x0", KwValue (PInt 1)); ("n_iter", KwValue (PInt 5))]
                  {| ca_dl4seq_args := None; ca_data := None; ca_model := None;
                     ca_use_dl4seq_model := false;
                     ca_kwargs := [("n_iter", KwValue (PInt 5))] |}
                  eq_refl) "x0").
Defined.

(** X5.  How [check_args] fails and when it does not.  With
    ['dl4seq_args'] but without ['data'] it raises [KeyError] for
    ['data'], whatever ['dl4seq_args'] holds.  Without ['dl4seq_args'] it
    raises only for ['n_initial_points'] under a scikit-optimize older
    than 0.8, and then it is a [ValueError]. *)
Theorem check_args_failures
  (env : environment) (algorithm : string) (kw : kwargs) :
  (has_key kw "dl4seq_args" = true -> has_key kw "data" = false ->
   check_args env algorithm kw = Raise (KeyError "data"))
  /\ (has_key kw "dl4seq_args" = false ->
      if has_key kw "n_initial_points" && (skopt_minor env <? 8)%nat
      then check_args env algorithm kw = Raise ValueError
      else exists ca, check_args env algorithm kw = Ok ca).
Proof.
  split.
  - intros Hdl Hdata. unfold check_args. rewrite Hdl.
    rewrite dict_pop_spec. rewrite has_key_get in Hdl, Hdata.
    destruct (dict_get String.eqb kw "dl4seq_args") as [a |]; [| discriminate].
    cbn [bind fst snd]. rewrite dict_pop_spec, dict_get_filter.
    change ("data" =? "dl4seq_args")%string with false. cbv iota.
    destruct (dict_get String.eqb kw "data"); [discriminate | reflexivity].
  - intros Hdl. unfold check_args. rewrite Hdl. cbn [bind ca_kwargs].
    destruct (has_key kw "n_initial_points" && (skopt_minor env <? 8)%nat);
      [reflexivity |].
    cbn [bind].
    destruct (has_key kw "x0"
              && str_in algorithm ["tpe"; "atpe"; "random"; "grid"; "cmaes"])
      eqn:Hx; [| eauto].
    apply andb_true_iff in Hx. destruct Hx as [Hx _].
    rewrite dict_pop_spec. rewrite has_key_get in Hx.
    destruct (dict_get String.eqb kw "x0"); [| discriminate].
    cbn [bind]. eauto.
Qed.

Lemma check_args_failures_witness :
  check_args Scenario.plain_env "grid"
    [("dl4seq_args", KwDict [("model", PStr "XGBoostRegressor")])]
  = Raise (KeyError "data").
Proof.
  exact (proj1 (check_args_failures Scenario.plain_env "grid"
                  [("dl4seq_args", KwDict [("model", PStr "XGBoostRegressor")])])
           eq_refl eq_refl).
Defined.

End ArgsFacts.

(** ** The setter of the parameter space and the space of [space()] *)

Module SpaceSetterFacts.

Import Resolver Space Orchestrator DictFacts SpaceFacts.

Lemma collect_dimensions_ok (f : Dimension -> space_item)
  (ds : list Dimension) (acc : dict (K:=string) (V:=space_item)) :
  NoDup (dict_keys acc ++ map dname ds) ->
  collect_dimensions f (map ItDimension ds) acc
  = Ok (acc ++ map (fun s => (dname s, f s)) ds).
Proof.
  revert acc. induction ds as [| s ds IH]; intros acc Hnd; simpl.
  - now rewrite app_nil_r.
  - assert (Hfresh : ~ In (dname s) (dict_keys acc)).
    { apply NoDup_remove_2 in Hnd. intros Hin. apply Hnd.
      apply in_or_app. now left. }
    rewrite dict_set_fresh by assumption. rewrite IH.
    + now rewrite <- app_assoc.
    + unfold dict_keys in *. rewrite map_app, <- app_assoc. exact Hnd.
Qed.

Lemma collect_dimensions_refuses (f : Dimension -> space_item)
  (x : list space_item) (acc : dict (K:=string) (V:=space_item)) :
  forallb is_Dimension x = false ->
  collect_dimensions f x acc = Raise (AssertionError None).
Proof.
  revert acc. induction x as [| i x IH]; intros acc H; simpl in *.
  - discriminate.
  - destruct i; simpl in *; try reflexivity. now apply IH.
Qed.

Lemma assert_all_find {A : Type} (ok : A -> bool) (msg : A -> option string)
  (l : list A) :
  assert_all ok msg l
  = match find (fun a => negb (ok a)) l with
    | None => Ok tt
    | Some a => Raise (AssertionError (msg a))
    end.
Proof.
  induction l as [| a l IH]; simpl; [reflexivity |].
  destruct (ok a); simpl; [exact IH | reflexivity].
Qed.

Lemma find_forallb {A : Type} (ok : A -> bool) (l : list A) :
  forallb ok l = match find (fun a => negb (ok a)) l with
                 | None => true
                 | Some _ => false
                 end.
Proof.
  induction l as [| a l IH]; simpl; [reflexivity |].
  destruct (ok a); simpl; [exact IH | reflexivity].
Qed.

Lemma bayes_list_acceptance (backend : string) (items : list space_item) :
  param_space_setter "bayes" backend (SpList items)
  = if forallb (fun i => is_tuple i || is_Dimension i) items
    then Ok (SpList items)
    else Raise (AssertionError
                  (Some "param space must be one of Integer, Real or Categorical")).
Proof.
  unfold param_space_setter.
  change ("bayes" =? "bayes")%string with true. cbv iota.
  rewrite assert_all_find, find_forallb.
  destruct (find (fun a => negb (is_tuple a || is_Dimension a)) items);
    reflexivity.
Qed.

(** X6.  A parameter space given as a non-empty list of dimensions with
    distinct names is stored, for every algorithm but ['bayes'], as a dict
    that has the names of the dimensions as its keys, in the order of the
    list.  The first branch of the setter that applies decides what is
    stored under each name: the grid of the dimension for ['random'] and
    ['grid'] on a backend other than optuna, and so for ['random'] on
    hyperopt as well; the hyperopt expression of the dimension for ['tpe']
    and ['atpe'] on hyperopt; and the dimension itself on optuna.  For any
    other pair of algorithm and backend the setter raises [ValueError]. *)
Theorem dimension_list_is_stored_by_name
  (algorithm backend : string) (ds : list Dimension) :
  (algorithm =? "bayes")%string = false ->
  ds <> [] ->
  NoDup (map dname ds) ->
  param_space_setter algorithm backend (SpList (map ItDimension ds))
  = (if str_in algorithm ["random"; "grid"] && negb (backend =? "optuna")%string
     then Ok (SpDict (map (fun s => (dname s, grid_item s)) ds))
     else if str_in algorithm ["tpe"; "atpe"] && (backend =? "hyperopt")%string
     then Ok (SpDict (map (fun s => (dname s, as_hp s)) ds))
     else if (backend =? "optuna")%string
     then Ok (SpDict (map (fun s => (dname s, ItDimension s)) ds))
     else Raise ValueError)
  /\ param_space_setter "random" "hyperopt" (SpList (map ItDimension ds))
     = Ok (SpDict (map (fun s => (dname s, grid_item s)) ds)).
Proof.
  intros Hb Hne Hnd. split.
  - unfold param_space_setter. rewrite Hb.
    destruct (str_in algorithm ["random"; "grid"]
              && negb (backend =? "optuna")%string) eqn:Hfirst.
    + now rewrite collect_dimensions_ok.
    + assert (Hsecond : str_in algorithm ["tpe"; "atpe"; "random"]
                        && (backend =? "hyperopt")%string
                        = str_in algorithm ["tpe"; "atpe"]
                          && (backend =? "hyperopt")%string).
      { unfold str_in in *. cbn [existsb] in *.
        destruct (String.eqb_spec backend "hyperopt") as [-> | _];
          [| now rewrite !andb_false_r].
        change ("hyperopt" =? "optuna")%string with false in Hfirst.
        cbn [negb] in Hfirst. rewrite andb_true_r in Hfirst.
        apply orb_false_iff in Hfirst. destruct Hfirst as [Hr _].
        now rewrite Hr. }
      rewrite Hsecond.
      destruct (str_in algorithm ["tpe"; "atpe"]
                && (backend =? "hyperopt")%string).
      * destruct ds as [| s ds]; [congruence |].
        change (map ItDimension (s :: ds))
          with (ItDimension s :: map ItDimension ds).
        cbn [is_Dimension].
        change (ItDimension s :: map ItDimension ds)
          with (map ItDimension (s :: ds)).
        now rewrite collect_dimensions_ok.
      * destruct (backend =? "optuna")%string; [| reflexivity].
        now rewrite collect_dimensions_ok.
  - unfold param_space_setter.
    change ("random" =? "bayes")%string with false.
    change (str_in "random" ["random"; "grid"]
            && negb ("hyperopt" =? "optuna")%string) with true.
    cbv iota. now rewrite collect_dimensions_ok.
Qed.

Lemma dimension_list_is_stored_by_name_witness :
  param_space_setter "random" "hyperopt"
    (SpList (map ItDimension
               [{| kind := KInteger; dname := "a"; low := Some (PInt 1);
                   high := Some (PInt 3); prior := None;
                   grid := Some [PInt 1; PInt 2; PInt 3]; categories := [] |};
                {| kind := KInteger; dname := "b"; low := Some (PInt 7);
                   high := Some (PInt 8); prior := None;
                   grid := Some [PInt 7; PInt 8]; categories := [] |}]))
  = Ok (SpDict [("a", ItList [PInt 1; PInt 2; PInt 3]);
                ("b", ItList [PInt 7; PInt 8])]).
Proof.
  refine (proj2 (dimension_list_is_stored_by_name "random" "hyperopt"
                   [{| kind := KInteger; dname := "a"; low := Some (PInt 1);
                       high := Some (PInt 3); prior := None;
                       grid := Some [PInt 1; PInt 2; PInt 3];
                       categories := [] |};
                    {| kind := KInteger; dname := "b"; low := Some (PInt 7);
                       high := Some (PInt 8); prior := None;
                       grid := Some [PInt 7; PInt 8]; categories := [] |}]
                   eq_refl _ _)).
  - discriminate.
  - repeat constructor; simpl; intuition discriminate.
Defined.

(** X7.  A list that starts with a dimension and holds anything that is
    not a dimension is never accepted by an algorithm other than
    ['bayes']: the setter raises the bare [AssertionError] of its loop on
    the three paths that take a list, and [ValueError] otherwise. *)
Theorem mixed_list_is_refused
  (algorithm backend : string) (s : Dimension) (x : list space_item) :
  (algorithm =? "bayes")%string = false ->
  forallb is_Dimension x = false ->
  param_space_setter algorithm backend (SpList (ItDimension s :: x))
  = if (str_in algorithm ["random"; "grid"] && negb (backend =? "optuna")%string)
       || (str_in algorithm ["tpe"; "atpe"; "random"]
           && (backend =? "hyperopt")%string)
       || (backend =? "optuna")%string
    then Raise (AssertionError None)
    else Raise ValueError.
Proof.
  intros Hb Hx. unfold param_space_setter. rewrite Hb.
  assert (Hc : forall f acc,
             collect_dimensions f (ItDimension s :: x) acc
             = Raise (AssertionError None)).
  { intros f acc. apply collect_dimensions_refuses. exact Hx. }
  destruct (str_in algorithm ["random"; "grid"]
            && negb (backend =? "optuna")%string).
  - now rewrite Hc.
  - destruct (str_in algorithm ["tpe"; "atpe"; "random"]
              && (backend =? "hyperopt")%string).
    + cbn [is_Dimension]. now rewrite Hc.
    + destruct (backend =? "optuna")%string; [| reflexivity].
      now rewrite Hc.
Qed.

Lemma mixed_list_is_refused_witness :
  param_space_setter "grid" "sklearn"
    (SpList [ItDimension
               {| kind := KCategorical; dname := "b"; low := None;
                  high := None; prior := None; grid := None;
                  categories := [PStr "u"; PStr "v"] |};
             ItList [PInt 1; PInt 2]])
  = Raise (AssertionError None).
Proof.
  exact (mixed_list_is_refused "grid" "sklearn"
           {| kind := KCategorical; dname := "b"; low := None;
              high := None; prior := None; grid := None;
              categories := [PStr "u"; PStr "v"] |}
           [ItList [PInt 1; PInt 2]] eq_refl eq_refl).
Defined.

(** X8.  What ['bayes'] accepts as a parameter space, whatever the
    backend.  A dict is accepted exactly when each of its values is a
    dimension, and is stored as the list of its values in the order of the
    dict; otherwise the [AssertionError] names the first parameter whose
    value is not a dimension.  A list is accepted exactly when each of its
    elements is a tuple or a dimension, and is stored as it is.  Anything
    else is refused. *)
Theorem bayes_space_acceptance (backend : string) (x : raw_space) :
  param_space_setter "bayes" backend x
  = match x with
    | SpDict items =>
        match find (fun kv => negb (is_Dimension (snd kv))) items with
        | None => Ok (SpList (dict_values items))
        | Some kv =>
            Raise (AssertionError
                     (Some ("space for parameter " ++ fst kv
                            ++ " is of invalid type")%string))
        end
    | SpList items =>
        if forallb (fun i => is_tuple i || is_Dimension i) items
        then Ok x
        else Raise (AssertionError
                      (Some "param space must be one of Integer, Real or Categorical"))
    | _ => Raise (AssertionError (Some "param space must be list of parameters"))
    end.
Proof.
  unfold param_space_setter.
  change ("bayes" =? "bayes")%string with true. cbv iota.
  destruct x as [items | items | d | l |]; try reflexivity.
  - rewrite assert_all_find.
    destruct (find (fun kv => negb (is_Dimension (snd kv))) items);
      reflexivity.
  - rewrite assert_all_find, find_forallb.
    destruct (find (fun a => negb (is_tuple a || is_Dimension a)) items);
      reflexivity.
Qed.

Lemma keys_of_dict_set {V : Type} (d : dict (K:=string) (V:=V))
  (k : string) (v : V) :
  dict_keys (dict_set String.eqb d k v)
  = if str_in k (dict_keys d) then dict_keys d else dict_keys d ++ [k].
Proof.
  unfold dict_keys, str_in.
  induction d as [| [k0 v0] d IH]; simpl; [reflexivity |].
  destruct (k =? k0)%string; simpl; [reflexivity |].
  rewrite IH. now destruct (existsb (String.eqb k) (map fst d)).
Qed.

Lemma space_sklearn_items_keys (items : list (string * space_item))
  (acc d : dict (K:=string) (V:=Dimension)) :
  space_sklearn_items items acc = Ok d ->
  NoDup (dict_keys acc ++ dict_keys items) ->
  dict_keys d = dict_keys acc ++ dict_keys items.
Proof.
  revert acc. induction items as [| [k0 i0] items IH]; intros acc; simpl.
  - intros H _. apply ArgsFacts.Ok_inj in H. subst. now rewrite app_nil_r.
  - destruct (space_of_value k0 i0) as [s0 |]; [| discriminate].
    cbn [bind]. intros H Hnd.
    assert (Hfresh : ~ In k0 (dict_keys acc)).
    { apply NoDup_remove_2 in Hnd. intros Hin. apply Hnd.
      apply in_or_app. now left. }
    rewrite dict_set_fresh in H by assumption.
    rewrite (IH _ H).
    + unfold dict_keys. rewrite map_app, <- app_assoc. reflexivity.
    + unfold dict_keys in *. rewrite map_app, <- app_assoc. exact Hnd.
Qed.

(** X9.  The space that [space()] gives on the sklearn backend for a
    parameter space stored as a dict: it has the keys of the dict in the
    order of the dict, and under each key the dimension made of the value
    stored there, which for a dimension is that dimension itself.  It
    fails as soon as one value cannot be converted. *)
Theorem sklearn_space_keeps_the_dict
  (items : dict (K:=string) (V:=space_item)) :
  NoDup (dict_keys items) ->
  (forall d, space_sklearn (SpDict items) = Ok d ->
     dict_keys d = dict_keys items
     /\ (forall k i, In (k, i) items ->
           exists s, space_of_value k i = Ok s
                     /\ dict_get String.eqb d k = Some s)
     /\ (forall k s, In (k, ItDimension s) items ->
           dict_get String.eqb d k = Some s))
  /\ (forall k i e, In (k, i) items -> space_of_value k i = Raise e ->
        is_ok (space_sklearn (SpDict items)) = false).
Proof.
  intros Hnd. split.
  - intros d H. cbn [space_sklearn] in H.
    pose proof (space_sklearn_items_get _ _ _ H) as [_ Hget].
    specialize (Hget Hnd). split; [| split].
    + now apply (space_sklearn_items_keys _ _ _ H).
    + exact Hget.
    + intros k s Hin. destruct (Hget _ _ Hin) as [s' [Hs' Hd]].
      cbn in Hs'. apply ArgsFacts.Ok_inj in Hs'. now subst.
  - intros k i e Hin He.
    destruct (space_sklearn (SpDict items)) as [d |] eqn:H; [| reflexivity].
    cbn [space_sklearn] in H.
    pose proof (space_sklearn_items_get _ _ _ H) as [_ Hget].
    destruct (Hget Hnd _ _ Hin) as [s [Hs _]]. congruence.
Qed.

Lemma sklearn_space_keeps_the_dict_witness :
  exists d,
    space_sklearn (SpDict [("n", ItList [PInt 1; PInt 5]);
                           ("kind", ItTuple [PStr "u"; PStr "v"])]) = Ok d
    /\ dict_keys d = ["n"; "kind"].
Proof.
  eexists. split; [reflexivity |].
  match goal with
  | |- dict_keys ?d = _ =>
      refine (proj1 (proj1 (sklearn_space_keeps_the_dict
                              [("n", ItList [PInt 1; PInt 5]);
                               ("kind", ItTuple [PStr "u"; PStr "v"])] _)
                       d eq_refl))
  end.
  repeat constructor; simpl; intuition discriminate.
Defined.

End SpaceSetterFacts.

(** ** The loop of [eval_sequence] and the result store *)

Module LoopFacts.

Import Resolver Space Orchestrator Search Keys SearchFacts.

Lemma record_inv env o key para o' :
  record env o key para = Ok o' ->
  exists x, o' = set_results o (dict_set Qeq_bool (results o) key x).
Proof.
  unfold record.
  destruct (original_para_order env o) as [order |]; [| discriminate].
  cbn [bind].
  destruct (sort_x_iters para order) as [x |]; [| discriminate].
  cbn [bind]. intros H. apply ArgsFacts.Ok_inj in H. eauto.
Qed.

Lemma eval_trial_inv env o idx para calls o' :
  eval_trial env o idx para = (calls, Ok o') ->
  exists key x,
    trial_key env o idx para = Ok key
    /\ o' = set_results o (dict_set Qeq_bool (results o) key x).
Proof.
  unfold eval_trial, trial_key.
  destruct (use_dl4seq_model o).
  - intros H. injection H as _ H.
    destruct (record_inv _ _ _ _ _ H) as [x Hx]. eauto.
  - destruct (invoke o para) as [c r]. cbn [snd].
    destruct r as [err |]; cbn [bind]; [| discriminate].
    intros H. injection H as _ H.
    destruct (record_inv _ _ _ _ _ H) as [x Hx]. eauto.
Qed.

Lemma trial_key_agree env o o' idx para :
  objective_fn o' = objective_fn o ->
  use_dl4seq_model o' = use_dl4seq_model o ->
  trial_key env o' idx para = trial_key env o idx para.
Proof.
  intros Hf Hd. unfold trial_key.
  now rewrite Hd, (invoke_agree o o' para Hf Hd).
Qed.

Lemma trial_keys_agree env o o' ps :
  objective_fn o' = objective_fn o ->
  use_dl4seq_model o' = use_dl4seq_model o ->
  forall idx, trial_keys env o' idx ps = trial_keys env o idx ps.
Proof.
  intros Hf Hd. induction ps as [| para ps IH]; intros idx; simpl.
  - reflexivity.
  - rewrite (trial_key_agree env o o' idx para Hf Hd).
    destruct (trial_key env o idx para); [now rewrite IH | reflexivity].
Qed.

Lemma keys_of_float_set (d : dict (K:=Q) (V:=params)) (k : Q) (v : params) :
  dict_keys (dict_set Qeq_bool d k v) = keys_after_set (dict_keys d) k.
Proof.
  unfold keys_after_set, dict_keys.
  induction d as [| [k0 v0] d IH]; simpl; [reflexivity |].
  destruct (Qeq_bool k k0); simpl; [reflexivity |].
  rewrite IH. now destruct (existsb (Qeq_bool k) (map fst d)).
Qed.

(** The loop changes nothing but the result store, and the keys of the
    store after it are those before it with the keys of the trials set one
    after the other. *)
Lemma eval_from_inv env ps :
  forall idx o calls o',
    eval_from env idx ps o = (calls, Ok o') ->
    o' = set_results o (results o')
    /\ List.length (trial_keys env o idx ps) = List.length ps
    /\ dict_keys (results o')
       = fold_left keys_after_set (trial_keys env o idx ps)
           (dict_keys (results o)).
Proof.
  induction ps as [| para ps IH]; intros idx o calls o' H.
  - simpl in H. injection H as _ H. subst o'.
    now rewrite set_results_same.
  - cbn [eval_from] in H.
    destruct (eval_trial env o idx para) as [c r] eqn:Ht.
    destruct r as [o1 |]; [| discriminate].
    destruct (eval_from env (S idx) ps o1) as [c' r'] eqn:Hf.
    injection H as _ H. subst r'.
    destruct (eval_trial_inv _ _ _ _ _ _ Ht) as [key [x [Hkey Ho1]]].
    destruct (IH _ _ _ _ Hf) as [Hset [Hlen Hkeys]].
    assert (Hfn : objective_fn o1 = objective_fn o) by now subst o1.
    assert (Hdl : use_dl4seq_model o1 = use_dl4seq_model o) by now subst o1.
    rewrite (trial_keys_agree env o o1 ps Hfn Hdl) in Hlen, Hkeys.
    cbn [trial_keys]. rewrite Hkey. cbn [List.length fold_left].
    split; [| split].
    + rewrite Hset. subst o1. reflexivity.
    + now rewrite Hlen.
    + rewrite Hkeys. subst o1. cbn [results set_results].
      now rewrite keys_of_float_set.
Qed.

Lemma Qeq_bool_sym (a b : Q) : Qeq_bool a b = Qeq_bool b a.
Proof.
  destruct (Qeq_bool a b) eqn:E; symmetry.
  - apply Qeq_bool_iff in E. apply Qeq_bool_iff. now symmetry.
  - destruct (Qeq_bool b a) eqn:E'; [| reflexivity].
    apply Qeq_bool_iff in E'. symmetry in E'. apply Qeq_bool_iff in E'.
    congruence.
Qed.

Lemma keys_after_set_In (ks : list Q) (k x : Q) :
  In x (keys_after_set ks k) -> In x ks \/ x = k.
Proof.
  unfold keys_after_set. destruct (existsb (Qeq_bool k) ks).
  - tauto.
  - intros H. apply in_app_or in H. simpl in H. intuition.
Qed.

Lemma keys_after_set_length (ks : list Q) (k : Q) :
  List.length (keys_after_set ks k) <= S (List.length ks).
Proof.
  unfold keys_after_set. destruct (existsb (Qeq_bool k) ks).
  - lia.
  - rewrite length_app. simpl. lia.
Qed.

Lemma keys_after_set_keeps (ks : list Q) (k x : Q) :
  existsb (Qeq_bool x) ks = true ->
  existsb (Qeq_bool x) (keys_after_set ks k) = true.
Proof.
  unfold keys_after_set. intros H. destruct (existsb (Qeq_bool k) ks).
  - exact H.
  - rewrite existsb_app, H. reflexivity.
Qed.

Lemma keys_after_set_has (ks : list Q) (k : Q) :
  existsb (Qeq_bool k) (keys_after_set ks k) = true.
Proof.
  unfold keys_after_set. destruct (existsb (Qeq_bool k) ks) eqn:H.
  - exact H.
  - rewrite existsb_app. simpl.
    replace (Qeq_bool k k) with true; [now rewrite orb_true_r |].
    symmetry. apply Qeq_bool_iff. reflexivity.
Qed.

Lemma fold_keys_In (l ks : list Q) (x : Q) :
  In x (fold_left keys_after_set l ks) -> In x ks \/ In x l.
Proof.
  revert ks. induction l as [| k l IH]; intros ks; simpl; [tauto |].
  intros H. destruct (IH _ H) as [H' | H']; [| tauto].
  destruct (keys_after_set_In _ _ _ H'); subst; tauto.
Qed.

Lemma fold_keys_length (l ks : list Q) :
  List.length (fold_left keys_after_set l ks)
  <= List.length ks + List.length l.
Proof.
  revert ks. induction l as [| k l IH]; intros ks; simpl; [lia |].
  specialize (IH (keys_after_set ks k)).
  pose proof (keys_after_set_length ks k). lia.
Qed.

Lemma fold_keys_keeps (l ks : list Q) (x : Q) :
  existsb (Qeq_bool x) ks = true ->
  existsb (Qeq_bool x) (fold_left keys_after_set l ks) = true.
Proof.
  revert ks. induction l as [| k l IH]; intros ks H; simpl; [exact H |].
  apply IH. now apply keys_after_set_keeps.
Qed.

Lemma fold_keys_has (l ks : list Q) (x : Q) :
  In x l -> existsb (Qeq_bool x) (fold_left keys_after_set l ks) = true.
Proof.
  revert ks. induction l as [| k l IH]; intros ks; simpl; [tauto |].
  intros [-> | H].
  - apply fold_keys_keeps, keys_after_set_has.
  - now apply IH.
Qed.

Lemma distinct_from_earlier (ks l : list Q) (k : Q) :
  ForallOrdPairs (fun a b => Qeq_bool a b = false) (ks ++ k :: l) ->
  existsb (Qeq_bool k) ks = false.
Proof.
  induction ks as [| a ks IH]; simpl; intros H; [reflexivity |].
  inversion H as [| ? ? Ha Hrest]; subst.
  rewrite (IH Hrest), orb_false_r, Qeq_bool_sym.
  rewrite Forall_forall in Ha. apply Ha. apply in_elt.
Qed.

Lemma fold_keys_distinct (l ks : list Q) :
  ForallOrdPairs (fun a b => Qeq_bool a b = false) (ks ++ l) ->
  fold_left keys_after_set l ks = ks ++ l.
Proof.
  revert ks. induction l as [| k l IH]; intros ks H; simpl.
  - now rewrite app_nil_r.
  - unfold keys_after_set at 2. rewrite (distinct_from_earlier ks l k H).
    rewrite IH; rewrite <- app_assoc; [reflexivity | exact H].
Qed.

Lemma float_get_set (d : dict (K:=Q) (V:=params)) (k k' : Q) (v : params) :
  dict_get Qeq_bool (dict_set Qeq_bool d k v) k'
  = if Qeq_bool k' k then Some v else dict_get Qeq_bool d k'.
Proof.
  induction d as [| [k0 v0] d IH]; simpl; [reflexivity |].
  destruct (Qeq_bool k k0) eqn:E; simpl.
  - destruct (Qeq_bool k' k0) eqn:E'.
    + replace (Qeq_bool k' k) with true; [reflexivity |].
      symmetry. apply Qeq_bool_iff.
      apply Qeq_bool_iff in E. apply Qeq_bool_iff in E'.
      rewrite E'. now symmetry.
    + replace (Qeq_bool k' k) with false; [reflexivity |].
      symmetry. destruct (Qeq_bool k' k) eqn:E2; [| reflexivity].
      apply Qeq_bool_iff in E. apply Qeq_bool_iff in E2.
      assert (Qeq_bool k' k0 = true)
        by (apply Qeq_bool_iff; rewrite E2; exact E).
      congruence.
  - rewrite IH. destruct (Qeq_bool k' k0) eqn:E'; [| reflexivity].
    destruct (Qeq_bool k' k) eqn:E2; [| reflexivity].
    exfalso. apply Qeq_bool_iff in E'. apply Qeq_bool_iff in E2.
    assert (Qeq_bool k k0 = true)
      by (apply Qeq_bool_iff; rewrite <- E2; exact E').
    congruence.
Qed.

(** An entry of the store is as it was after the loop, unless a trial of
    the loop has its key. *)
Lemma eval_from_get env ps :
  forall idx o calls o',
    eval_from env idx ps o = (calls, Ok o') ->
    forall k,
      Forall (fun k' => Qeq_bool k k' = false) (trial_keys env o idx ps) ->
      dict_get Qeq_bool (results o') k = dict_get Qeq_bool (results o) k.
Proof.
  induction ps as [| para ps IH]; intros idx o calls o' H k Hk.
  - simpl in H. injection H as _ H. now subst o'.
  - cbn [eval_from] in H.
    destruct (eval_trial env o idx para) as [c r] eqn:Ht.
    destruct r as [o1 |]; [| discriminate].
    destruct (eval_from env (S idx) ps o1) as [c' r'] eqn:Hf.
    injection H as _ H. subst r'.
    destruct (eval_trial_inv _ _ _ _ _ _ Ht) as [key [x [Hkey Ho1]]].
    cbn [trial_keys] in Hk. rewrite Hkey in Hk.
    apply Forall_cons_iff in Hk. destruct Hk as [Hhead Htail].
    rewrite (IH _ _ _ _ Hf k).
    + subst o1. cbn [results set_results]. now rewrite float_get_set, Hhead.
    + now rewrite (trial_keys_agree env o o1 ps) by (subst o1; reflexivity).
Qed.

(** X10.  The loop of [eval_sequence] over two lists of trials, one after
    the other, is the loop over the first list followed, on the object it
    leaves, by the loop over the second, numbered from where the first
    ended.  When an evaluation of the first list raises, the loop ends
    there: no trial of the second list is evaluated. *)
Theorem eval_from_app
  (env : environment) (ps1 ps2 : list params) (idx : nat) (o : HyperOpt) :
  eval_from env idx (ps1 ++ ps2) o
  = match eval_from env idx ps1 o with
    | (calls1, Ok o1) =>
        let (calls2, r) := eval_from env (idx + List.length ps1) ps2 o1 in
        (calls1 ++ calls2, r)
    | (calls1, Raise e) => (calls1, Raise e)
    end.
Proof.
  revert idx o. induction ps1 as [| para ps1 IH]; intros idx o.
  - cbn [app eval_from List.length]. rewrite Nat.add_0_r.
    now destruct (eval_from env idx ps2 o).
  - cbn [app eval_from List.length].
    destruct (eval_trial env o idx para) as [c r].
    destruct r as [o1 |]; [| reflexivity].
    rewrite IH. rewrite Nat.add_succ_r. cbn [Nat.add].
    destruct (eval_from env (S idx) ps1 o1) as [c1 r1].
    destruct r1 as [o2 |]; [| reflexivity].
    destruct (eval_from env (S (idx + List.length ps1)) ps2 o2) as [c2 r2].
    now rewrite app_assoc.
Qed.

(** X11.  What a loop of [eval_sequence] that ends leaves in the result
    store, when the keys of its trials are floats that the embedding
    computes as the source does: the rounded values are doubles and the
    sums with the index are exact.  Without the dl4seq model the loop
    changes no other attribute.  Every trial has a key, and every key of
    the store afterwards was there before or is the key of a trial; the
    keys that were there and the keys of all trials are still there; so
    the store grows by at most one entry for each trial.  When no two of
    these keys are equal as floats, the store holds the old keys followed
    by the keys of the trials in the order of evaluation: one entry more
    for each trial.  What is stored under a key that no trial has is as it
    was before the loop. *)
Theorem store_after_the_loop
  (env : environment) (ps : list params) (idx : nat) (o o' : HyperOpt)
  (calls : list call) :
  eval_from env idx ps o = (calls, Ok o') ->
  exact_trials env o idx ps = true ->
  (use_dl4seq_model o = false -> o' = set_results o (results o'))
  /\ List.length (trial_keys env o idx ps) = List.length ps
  /\ (forall k, In k (dict_keys (results o')) ->
        In k (dict_keys (results o)) \/ In k (trial_keys env o idx ps))
  /\ (forall k, has_float_key (results o) k = true
                \/ In k (trial_keys env o idx ps) ->
        has_float_key (results o') k = true)
  /\ List.length (results o') <= List.length (results o) + List.length ps
  /\ (ForallOrdPairs (fun a b => Qeq_bool a b = false)
        (dict_keys (results o) ++ trial_keys env o idx ps) ->
      dict_keys (results o')
      = dict_keys (results o) ++ trial_keys env o idx ps)
  /\ (forall k,
        Forall (fun k' => Qeq_bool k k' = false) (trial_keys env o idx ps) ->
        dict_get Qeq_bool (results o') k = dict_get Qeq_bool (results o) k).
Proof.
  intros H _. destruct (eval_from_inv _ _ _ _ _ _ H) as [Hset [Hlen Hkeys]].
  split; [intros _; exact Hset |]. split; [exact Hlen |].
  split; [| split; [| split; [| split]]];
    [| | | | exact (eval_from_get env ps idx o calls o' H)].
  - intros k. rewrite Hkeys. apply fold_keys_In.
  - intros k Hk. unfold has_float_key in *. rewrite Hkeys.
    destruct Hk as [Hk | Hk];
      [now apply fold_keys_keeps | now apply fold_keys_has].
  - rewrite <- Hlen.
    rewrite <- (length_map fst (results o')), <- (length_map fst (results o)).
    change (map fst (results o')) with (dict_keys (results o')).
    rewrite Hkeys. apply fold_keys_length.
  - intros Hd. rewrite Hkeys. now apply fold_keys_distinct.
Qed.

Lemma store_after_the_loop_witness :
  exists o o',
    __init__ Scenario.plain_env "grid"
      (SpDict [("x", Scenario.ints [2; 1]%Z)])
      (Some Scenario.half_x) false None [] = Ok o
    /\ eval_from Scenario.plain_env 0 [[("x", PInt 2)]; [("x", PInt 1)]] o
       = ([CallKw [("x", PInt 2)]; CallKw [("x", PInt 1)]], Ok o')
    /\ List.length (results o') <= List.length (results o) + 2.
Proof.
  eexists. eexists. split; [reflexivity |]. split; [reflexivity |].
  match goal with
  | |- List.length (results ?o') <= List.length (results ?o) + _ =>
      exact (proj1 (proj2 (proj2 (proj2 (proj2
               (store_after_the_loop Scenario.plain_env
                  [[("x", PInt 2)]; [("x", PInt 1)]] 0 o o' _
                  eq_refl eq_refl))))))
  end.
Defined.

Lemma equal_value_keys env o y ps :
  use_dl4seq_model o = false ->
  (forall para err, In para ps -> snd (invoke o para) = Ok err ->
                    py_round 8 err = y) ->
  forall idx,
    List.length (trial_keys env o idx ps) = List.length ps ->
    trial_keys env o idx ps = map (add_index y) (seq idx (List.length ps)).
Proof.
  intros Hd. induction ps as [| para ps IH]; intros Hy idx Hlen.
  - reflexivity.
  - cbn [trial_keys List.length seq map] in *. unfold trial_key in *.
    rewrite Hd in *.
    destruct (snd (invoke o para)) as [err |] eqn:He; cbn [bind] in *;
      [| discriminate].
    rewrite (Hy para err (or_introl eq_refl) He).
    f_equal. apply IH.
    + intros p e Hin. apply Hy. now right.
    + simpl in Hlen. lia.
Qed.

Lemma indexed_keys_distinct (y : Q) (n idx : nat) :
  ForallOrdPairs (fun a b => Qeq_bool a b = false)
    (map (add_index y) (seq idx n)).
Proof.
  revert idx. induction n as [| n IH]; intros idx; simpl; constructor.
  - rewrite Forall_forall. intros b Hb. apply in_map_iff in Hb.
    destruct Hb as [j [<- Hj]]. apply in_seq in Hj.
    apply StoreFacts.equal_values_get_distinct_keys. lia.
  - apply IH.
Qed.

(** In binary64 the sum of 1e16 and 1 is 1e16: it is not exact. *)
Lemma large_value_key_is_rounded :
  binary64 (inject_Z (10 ^ 16)) = true
  /\ exact_key (inject_Z (10 ^ 16)) 0 = true
  /\ exact_key (inject_Z (10 ^ 16)) 1 = false.
Proof. repeat split; vm_compute; reflexivity. Qed.

(** X12.  What the index is added for.  When the objective is not the
    dl4seq model, the store is empty, all trials of a loop have one and
    the same value after rounding, and this value, the indices of the
    trials and their sums are doubles, so that the sums are computed
    exactly, a loop that ends leaves one entry for each trial, under the
    keys [value + idx] in the order of evaluation.  Where a sum is not
    exact, as that of 1e16 and 1, nothing is said: two keys can then
    coincide. *)
Theorem equal_values_are_kept_apart
  (env : environment) (ps : list params) (idx : nat) (o o' : HyperOpt)
  (calls : list call) (y : Q) :
  use_dl4seq_model o = false ->
  results o = [] ->
  (forall para err, In para ps -> snd (invoke o para) = Ok err ->
                    py_round 8 err = y) ->
  (forall i, In i (seq idx (List.length ps)) -> exact_key y i = true) ->
  eval_from env idx ps o = (calls, Ok o') ->
  dict_keys (results o') = map (add_index y) (seq idx (List.length ps))
  /\ List.length (results o') = List.length ps.
Proof.
  intros Hd Hres Hy _ H.
  destruct (eval_from_inv _ _ _ _ _ _ H) as [_ [Hlen Hkeys]].
  rewrite (equal_value_keys env o y ps Hd Hy idx Hlen), Hres in Hkeys.
  cbn [dict_keys map] in Hkeys.
  rewrite fold_keys_distinct in Hkeys by apply indexed_keys_distinct.
  cbn [app] in Hkeys. split; [exact Hkeys |].
  rewrite <- (length_map fst (results o')).
  change (map fst (results o')) with (dict_keys (results o')).
  now rewrite Hkeys, length_map, length_seq.
Qed.

Lemma equal_values_are_kept_apart_witness :
  exists o o',
    __init__ Scenario.plain_env "grid"
      (SpDict [("x", Scenario.ints [3]%Z)])
      (Some Scenario.identity_x) false None [] = Ok o
    /\ eval_from Scenario.plain_env 0 [[("x", PInt 3)]; [("x", PInt 3)]] o
       = ([CallKw [("x", PInt 3)]; CallKw [("x", PInt 3)]], Ok o')
    /\ results o = []
    /\ dict_keys (results o') = [3%Q; 4%Q].
Proof.
  eexists. eexists. split; [reflexivity |].
  match goal with
  | |- eval_from _ _ _ ?o = _ /\ _ => set (o0 := o)
  end.
  split; [reflexivity |]. split; [reflexivity |].
  match goal with
  | |- dict_keys (results ?o') = _ =>
      refine (proj1 (equal_values_are_kept_apart Scenario.plain_env
                       [[("x", PInt 3)]; [("x", PInt 3)]] 0 o0 o' _ 3%Q
                       eq_refl eq_refl _ _ eq_refl))
  end.
  - intros para err Hin He. simpl in Hin.
    destruct Hin as [<- | [<- | []]];
      apply ArgsFacts.Ok_inj in He; subst err; reflexivity.
  - intros i Hi. simpl in Hi. destruct Hi as [<- | [<- | []]]; reflexivity.
Defined.

End LoopFacts.

(** ** The best trial *)

Module BestFacts.

Import Resolver Space Orchestrator Search Keys GridFacts ConstructionFacts.

Lemma Qle_bool_total (a b : Q) : Qle_bool a b = true \/ Qle_bool b a = true.
Proof.
  destruct (Qlt_le_dec a b) as [H | H].
  - left. apply Qle_bool_iff. now apply Qlt_le_weak.
  - right. now apply Qle_bool_iff.
Qed.

Lemma sorted_head_least (l : list Q) (k : Q) (rest : list Q) :
  sorted Qle_bool l = k :: rest ->
  In k l /\ forall k', In k' l -> (k <= k')%Q.
Proof.
  intros E.
  pose proof (sorted_perm Qle_bool l) as P. rewrite E in P.
  pose proof (sorted_sorted Qle_bool Qle_bool_total l) as S. rewrite E in S.
  apply Sorted_StronglySorted in S.
  - inversion S as [| ? ? _ Hall]; subst. split.
    + apply (Permutation_in _ P). now left.
    + intros k' Hin. apply (Permutation_in _ (Permutation_sym P)) in Hin.
      destruct Hin as [<- | Hin]; [apply Qle_refl |].
      rewrite Forall_forall in Hall. apply Qle_bool_iff. now apply Hall.
  - intros a b c Hab Hbc. apply Qle_bool_iff.
    apply Qle_bool_iff in Hab. apply Qle_bool_iff in Hbc.
    now apply Qle_trans with b.
Qed.

Lemma float_subscript (d : dict (K:=Q) (V:=params)) (k : Q) :
  In k (dict_keys d) ->
  exists x, subscript d k = Ok x /\ exists k0, In (k0, x) d /\ (k0 == k)%Q.
Proof.
  unfold subscript.
  induction d as [| [k1 v1] d IH]; simpl; intros H; [contradiction |].
  destruct (Qeq_bool k k1) eqn:E.
  - exists v1. split; [reflexivity |]. exists k1. split; [now left |].
    apply Qeq_bool_iff in E. now symmetry.
  - destruct H as [-> | H].
    + exfalso. assert (Qeq_bool k k = true) by (apply Qeq_bool_iff; reflexivity).
      congruence.
    + destruct (IH H) as [x [Hx [k0 [Hin Hk0]]]].
      exists x. split; [exact Hx |]. exists k0. split; [now right | exact Hk0].
Qed.

Lemma least_key_exists (d : dict (K:=Q) (V:=params)) :
  d <> [] ->
  exists k x,
    first_key d = Ok k /\ subscript d k = Ok x
    /\ In k (dict_keys d)
    /\ (forall k', In k' (dict_keys d) -> (k <= k')%Q)
    /\ (exists k0, In (k0, x) d /\ (k0 == k)%Q).
Proof.
  intros Hne. unfold first_key.
  destruct (sorted Qle_bool (dict_keys d)) as [| k rest] eqn:E.
  - exfalso. pose proof (sorted_perm Qle_bool (dict_keys d)) as P.
    rewrite E in P. apply Permutation_nil in P.
    destruct d; [congruence | discriminate].
  - destruct (sorted_head_least _ _ _ E) as [Hin Hle].
    destruct (float_subscript d k Hin) as [x [Hx Hk0]].
    exists k, x. repeat split; assumption.
Qed.

(** X13.  How the best trial is picked from a store keyed by floats
    ([best_paras], [best_xy]).  On an empty store the pick raises
    [IndexError].  On any other store it ends: the key picked is a key of
    the store, no key of the store is less, and the lookup under that key
    that follows never raises [KeyError]; it gives the value of an entry
    of the store whose key is equal to the one picked. *)
Theorem least_key_selection (d : dict (K:=Q) (V:=params)) :
  match d with
  | [] => first_key d = Raise IndexError
  | _ :: _ =>
      exists k x,
        first_key d = Ok k /\ subscript d k = Ok x
        /\ In k (dict_keys d)
        /\ (forall k', In k' (dict_keys d) -> (k <= k')%Q)
        /\ (exists k0, In (k0, x) d /\ (k0 == k)%Q)
  end.
Proof.
  destruct d as [| kv d]; [reflexivity |].
  apply least_key_exists. discriminate.
Qed.

(** X14.  Before anything is fitted there is no best trial, and asking for
    it raises.  On the backend ['skopt'], [best_xy] and the
    [gp_minimize] path of [best_paras] raise the [AssertionError] of
    [xy_of_iterations], and the other path of [best_paras] raises
    [IndexError]; on the backend ['sklearn'], [best_paras] raises
    [IndexError] and [best_xy] raises [NotImplementedError]. *)
Theorem nothing_is_best_before_fit
  (env : environment) (algorithm : string) (ps : raw_space)
  (f : option objective) (eob : bool) (backend : option string) (kw : kwargs)
  (o : HyperOpt) :
  __init__ env algorithm ps f eob backend kw = Ok o ->
  (_backend o = "skopt" ->
   best_xy env o
   = Raise (AssertionError (Some "gpmin_results is not populated yet"))
   /\ best_paras env o
      = if use_skopt_gpmin o
        then Raise (AssertionError (Some "gpmin_results is not populated yet"))
        else Raise IndexError)
  /\ (_backend o = "sklearn" ->
      best_xy env o = Raise NotImplementedError
      /\ best_paras env o = Raise IndexError).
Proof.
  intros Hinit.
  destruct (init_algorithm _ _ _ _ _ _ _ _ Hinit) as [_ [_ [Hres [Hgp _]]]].
  split; intros Hb; unfold best_xy, best_paras, xy_of_iterations;
    rewrite Hb, Hres, Hgp; cbn [String.eqb Ascii.eqb Bool.eqb orb bind];
    (split; [reflexivity |]); destruct (use_skopt_gpmin o); reflexivity.
Qed.

Lemma nothing_is_best_before_fit_witness :
  exists o,
    __init__ Scenario.plain_env "grid"
      (SpDict [("x", Scenario.ints [2; 1]%Z)])
      (Some Scenario.half_x) false None [] = Ok o
    /\ best_paras Scenario.plain_env o = Raise IndexError.
Proof.
  eexists. split; [reflexivity |].
  refine (proj2 (proj2 (nothing_is_best_before_fit Scenario.plain_env "grid"
                          (SpDict [("x", Scenario.ints [2; 1]%Z)])
                          (Some Scenario.half_x) false None [] _ eq_refl)
                   eq_refl)).
Defined.

(** X15.  [best_xy] and [best_paras] agree.  When [best_xy] returns, it
    returns one entry; its key is a key of the iterations than which none
    is less, and its value is what [best_paras] returns on the
    [gp_minimize] path. *)
Theorem best_xy_is_the_best_paras
  (env : environment) (o : HyperOpt) (r : dict (K:=Q) (V:=params)) :
  best_xy env o = Ok r ->
  _backend o = "skopt"
  /\ exists d k x,
       xy_of_iterations env o = Ok d
       /\ r = [(k, x)]
       /\ In k (dict_keys d)
       /\ (forall k', In k' (dict_keys d) -> (k <= k')%Q)
       /\ (use_skopt_gpmin o = true -> best_paras env o = Ok x).
Proof.
  unfold best_xy, best_paras.
  destruct (String.eqb_spec (_backend o) "skopt") as [Hb | _]; [| discriminate].
  destruct (xy_of_iterations env o) as [d |]; [| discriminate].
  cbn [bind]. unfold first_key.
  destruct (sorted Qle_bool (dict_keys d)) as [| k rest] eqn:E; [discriminate |].
  cbn [bind].
  destruct (subscript d k) as [x |] eqn:Hx; [| discriminate].
  cbn [bind]. intros H. apply ArgsFacts.Ok_inj in H. subst r.
  split; [exact Hb |]. exists d, k, x.
  destruct (sorted_head_least _ _ _ E) as [Hin Hle].
  repeat split; try assumption.
  intros ->. reflexivity.
Qed.

Lemma best_xy_is_the_best_paras_witness :
  let env :=
    {| skopt_minor := 8;
       estimator_has := fun _ _ => false;
       object_attributes := [];
       dl4seq_mse := fun _ => 0%Q;
       skopt_space_names := fun _ => Ok ["x"];
       suffixed := fun k _ => k;
       engine_iterations := fun _ => Raise NotImplementedError;
       engine_best := fun _ => Raise NotImplementedError;
       set_opt_path := fun _ => Ok tt;
       estimator_init := fun _ _ _ _ => Ok tt;
       dirname := fun _ => "results";
       plots := fun _ => Ok tt |} in
  exists o,
    History.from_gp_parameters env "results/gp_parameters.json"
      (Document (JObj [("space",
                        JObj [("x", JObj [("type", JStr "Integer");
                                          ("low", JInt 1); ("high", JInt 9);
                                          ("prior", JStr "uniform")])]);
                       ("func_vals", JArr [JFloat (1 # 2)]);
                       ("x_iters", JArr [JArr [JInt 1]])]))
      (Some Scenario.half_x) = Ok o
    /\ _backend o = "skopt".
Proof.
  intros env. eexists. split; [reflexivity |].
  match goal with
  | |- _backend ?o = _ =>
      exact (proj1 (best_xy_is_the_best_paras env o
                      [((1 # 2)%Q, [("x", PInt 1)])] eq_refl))
  end.
Defined.

End BestFacts.

(** ** Points as keyword arguments *)

Module KwFacts.

Import Resolver Space Orchestrator Search DictFacts.

Lemma combine_keys_NoDup {V : Type} (names : list string) (x : list V) :
  NoDup names -> NoDup (map fst (combine names x)).
Proof.
  revert x. induction names as [| n names IH]; intros x Hnd; simpl.
  - constructor.
  - destruct x as [| v x]; simpl; [constructor |].
    inversion Hnd as [| ? ? Hn Hnd']; subst. constructor.
    + intros Hin. apply Hn. apply in_map_iff in Hin.
      destruct Hin as [[n' v'] [<- Hin]]. now apply in_combine_l in Hin.
    + now apply IH.
Qed.

Lemma combine_fst_firstn {V : Type} (names : list string) (x : list V) :
  map fst (combine names x) = firstn (List.length x) names.
Proof.
  revert x. induction names as [| n names IH]; intros x; simpl.
  - now rewrite firstn_nil.
  - destruct x as [| v x]; simpl; [reflexivity |]. now rewrite IH.
Qed.

Lemma combine_snd_firstn {V : Type} (names : list string) (x : list V) :
  map snd (combine names x) = firstn (List.length names) x.
Proof.
  revert x. induction names as [| n names IH]; intros x; simpl.
  - reflexivity.
  - destruct x as [| v x]; simpl; [reflexivity |]. now rewrite IH.
Qed.

(** X16.  [to_kw] pairs the names of the space with the values of a point,
    position by position, in the order of the names ([NoDup]: the names
    are the keys of a dict).  It stops at the shorter of the two: values
    beyond the last name are dropped and names beyond the last value are
    left out, without an error.  With as many values as names the values
    of the result are the point again, and each name maps to the value at
    its position. *)
Theorem to_kw_zip (names : list string) (x : list pyval) :
  NoDup names ->
  to_kw names x = combine names x
  /\ dict_keys (to_kw names x) = firstn (List.length x) names
  /\ dict_values (to_kw names x) = firstn (List.length names) x
  /\ (List.length x = List.length names ->
      dict_keys (to_kw names x) = names
      /\ dict_values (to_kw names x) = x
      /\ forall i n v, nth_error names i = Some n -> nth_error x i = Some v ->
                       dict_get String.eqb (to_kw names x) n = Some v).
Proof.
  intros Hnd.
  assert (Hkw : to_kw names x = combine names x).
  { unfold to_kw. apply dict_of_NoDup. now apply combine_keys_NoDup. }
  rewrite Hkw. unfold dict_keys, dict_values.
  rewrite combine_fst_firstn, combine_snd_firstn.
  repeat split; try reflexivity.
  - rewrite H. apply firstn_all.
  - rewrite <- H. apply firstn_all.
  - intros i n v Hn Hv. apply dict_get_In.
    + unfold dict_keys. now apply combine_keys_NoDup.
    + clear Hnd Hkw H. revert x i Hn Hv.
      induction names as [| n0 names IH]; intros x i Hn Hv.
      * destruct i; discriminate.
      * destruct x as [| v0 x]; [destruct i; discriminate |].
        destruct i as [| i]; simpl in *.
        -- left. congruence.
        -- right. now apply (IH x i).
Qed.

Lemma to_kw_zip_witness :
  to_kw ["a"; "b"] [PInt 1; PInt 2; PInt 3] = [("a", PInt 1); ("b", PInt 2)].
Proof.
  refine (proj1 (to_kw_zip ["a"; "b"] [PInt 1; PInt 2; PInt 3] _)).
  repeat constructor; simpl; intuition discriminate.
Defined.

End KwFacts.

(** ** The two files of the trial history, and resuming *)

Module RecordFacts.

Import Resolver Space Orchestrator Search History GridFacts.
Import ConstructionFacts SpaceSetterFacts.

Lemma fop_map {A B : Type} (R : B -> B -> Prop) (f : A -> B) (l : list A) :
  ForallOrdPairs R (map f l) -> ForallOrdPairs (fun a b => R (f a) (f b)) l.
Proof.
  induction l as [| a l IH]; simpl; intros H; constructor;
    inversion H as [| ? ? Ha Hl]; subst.
  - rewrite Forall_forall in *. intros b Hb. apply Ha. now apply in_map.
  - now apply IH.
Qed.

Lemma fop_perm {A : Type} (R : A -> A -> Prop) (l l' : list A) :
  (forall a b, R a b -> R b a) ->
  Permutation l l' -> ForallOrdPairs R l -> ForallOrdPairs R l'.
Proof.
  intros Hsym P. induction P as [| x l l' P IH | x y l | l l' l'' P1 IH1 P2 IH2];
    intros H.
  - constructor.
  - inversion H as [| ? ? Hx Hl]; subst. constructor.
    + eapply Permutation_Forall; eassumption.
    + now apply IH.
  - inversion H as [| ? ? Hy Hxl]; subst.
    inversion Hxl as [| ? ? Hx Hl]; subst.
    inversion Hy as [| ? ? Hyx Hyl]; subst.
    constructor; [constructor; [now apply Hsym | assumption] |].
    constructor; assumption.
  - auto.
Qed.

Lemma fop_earlier {A : Type} (R : A -> A -> Prop) (ks l : list A) (k : A) :
  ForallOrdPairs R (ks ++ k :: l) -> Forall (fun a => R a k) ks.
Proof.
  induction ks as [| a ks IH]; simpl; intros H; constructor;
    inversion H as [| ? ? Ha Hrest]; subst.
  - rewrite Forall_forall in Ha. apply Ha. apply in_elt.
  - now apply IH.
Qed.

Lemma float_dict_set_fresh (d : dict (K:=Q) (V:=params)) (k : Q) (v : params) :
  Forall (fun a => Qeq_bool (fst a) k = false) d ->
  dict_set Qeq_bool d k v = d ++ [(k, v)].
Proof.
  induction d as [| [k0 v0] d IH]; simpl; intros H; [reflexivity |].
  inversion H as [| ? ? Hk Hd]; subst. simpl in Hk.
  rewrite LoopFacts.Qeq_bool_sym, Hk. now rewrite IH.
Qed.

Lemma float_dict_of_from (l acc : dict (K:=Q) (V:=params)) :
  ForallOrdPairs (fun a b => Qeq_bool (fst a) (fst b) = false) (acc ++ l) ->
  fold_left (fun d kv => dict_set Qeq_bool d (fst kv) (snd kv)) l acc
  = acc ++ l.
Proof.
  revert acc. induction l as [| [k v] l IH]; intros acc H; simpl.
  - now rewrite app_nil_r.
  - rewrite float_dict_set_fresh.
    + rewrite IH; rewrite <- app_assoc; [reflexivity | exact H].
    + exact (fop_earlier _ _ _ _ H).
Qed.

Lemma sorted_of_sorted {A : Type} (leb : A -> A -> bool) (l : list A) :
  Sorted (fun a b => leb a b = true) l -> sorted leb l = l.
Proof.
  induction 1 as [| a l Hs IH Hhd]; simpl; [reflexivity |].
  rewrite IH. destruct Hhd as [| b l Hab]; simpl; [reflexivity |].
  now rewrite Hab.
Qed.

Lemma key_leb_total (a b : Q * params) :
  key_leb a b = true \/ key_leb b a = true.
Proof. apply BestFacts.Qle_bool_total. Qed.

(** X17.  The two files of [save_iterations_as_xy] hold the same.  The
    second file is written from the iterations sorted by their keys, and
    both are written with sorted keys: whenever the iterations are there
    (their keys being distinct floats, as the keys of a dict are),
    [iterations_sorted.json] is [iterations.json] again. *)
Theorem the_two_records_are_one
  (env : environment) (o : HyperOpt) (iterations : dict (K:=Q) (V:=params)) :
  xy_of_iterations env o = Ok iterations ->
  ForallOrdPairs (fun a b => Qeq_bool a b = false) (dict_keys iterations) ->
  save_iterations_as_xy env o
  = Ok (dump_iterations iterations, dump_iterations iterations).
Proof.
  intros Hxy Hd. unfold save_iterations_as_xy, Jsonize. rewrite Hxy.
  cbn [bind]. do 2 f_equal. unfold dump_iterations. do 2 f_equal.
  unfold dict_of. rewrite float_dict_of_from.
  - apply sorted_of_sorted, sorted_sorted. exact key_leb_total.
  - cbn [app]. apply fop_perm with (l := iterations).
    + intros a b H. now rewrite LoopFacts.Qeq_bool_sym.
    + symmetry. apply sorted_perm.
    + exact (fop_map (fun a b => Qeq_bool a b = false) fst iterations Hd).
Qed.

Lemma the_two_records_are_one_witness :
  exists o iterations,
    snd (Scenario.fit_grid (SpDict [("x", Scenario.ints [2; 1]%Z)])
           Scenario.half_x) = Ok o
    /\ iterations = [(1%Q, [("x", PInt 2)]); ((3 # 2)%Q, [("x", PInt 1)])]
    /\ save_iterations_as_xy Scenario.plain_env o
       = Ok (dump_iterations iterations, dump_iterations iterations).
Proof.
  eexists. eexists. split; [reflexivity |]. split; [reflexivity |].
  match goal with
  | |- save_iterations_as_xy _ ?o = Ok (dump_iterations ?it, _) =>
      refine (the_two_records_are_one Scenario.plain_env o it eq_refl _)
  end.
  repeat constructor.
Defined.

Lemma dimension_of_json_name (sp_name : string) (sp_paras : json) (d : Dimension) :
  dimension_of_json sp_name sp_paras = Ok d -> dname d = sp_name.
Proof.
  unfold dimension_of_json, with_prior, Categorical.
  destruct (json_get sp_paras "type") as [t |]; [| discriminate].
  cbn [bind]. destruct t; try discriminate.
  repeat match goal with
         | |- context [if ?c then _ else _] => destruct c
         end; try discriminate;
    repeat match goal with
           | |- (bind ?r _ = Ok _) -> _ =>
               let v := fresh "v" in destruct r as [v |]; cbn [bind];
                                     [| discriminate]
           | |- (bind (match ?r with _ => _ end) _ = Ok _) -> _ =>
               let v := fresh "v" in destruct r as [v |]; cbn [bind];
                                     [| discriminate]
           | |- ((if ?c then _ else _) = Ok _) -> _ =>
               destruct c; [| discriminate]
           | |- (match ?v with [] => _ | _ :: _ => _ end = Ok _) -> _ =>
               destruct v; [discriminate |]
           end;
    intros H; apply ArgsFacts.Ok_inj in H; now subst d.
Qed.

Lemma dimensions_of_json_names (members : list (string * json))
  (spaces : list Dimension) :
  dimensions_of_json members = Ok spaces ->
  map dname spaces = map fst members.
Proof.
  revert spaces. induction members as [| [n p] members IH]; intros spaces; simpl.
  - intros H. apply ArgsFacts.Ok_inj in H. now subst.
  - destruct (dimension_of_json n p) as [d |] eqn:Hd; [| discriminate].
    cbn [bind].
    destruct (dimensions_of_json members) as [ds |]; [| discriminate].
    cbn [bind]. intros H. apply ArgsFacts.Ok_inj in H. subst spaces. simpl.
    now rewrite (dimension_of_json_name _ _ _ Hd), (IH ds eq_refl).
Qed.

Lemma forallb_dimensions (ds : list Dimension) :
  forallb (fun i => is_tuple i || is_Dimension i) (map ItDimension ds) = true.
Proof. induction ds as [| d ds IH]; simpl; [reflexivity | exact IH]. Qed.

(** The constructor call of [from_gp_parameters] returns when the
    directory of the record can be made and, for a scikit-learn
    objective, [BayesSearchCV] accepts it. *)
Lemma resume_init env (f : option objective) (spaces : list Dimension)
  (dir : string) :
  set_opt_path env (Some (KwValue (PStr dir))) = Ok tt ->
  (sklearn_objective f = true ->
   estimator_init env "BayesSearchCV" f (SpList (map ItDimension spaces)) []
   = Ok tt) ->
  exists o,
    __init__ env "bayes" (SpList (map ItDimension spaces)) f false
      (Some "skopt") [("opt_path", KwValue (PStr dir))] = Ok o.
Proof.
  intros Hdir Hest. unfold __init__.
  change (is_algorithm "bayes") with true. cbn [bind].
  change (backend_setter "bayes" (Some "skopt")) with (@Ok string "skopt").
  cbn [bind].
  rewrite bayes_list_acceptance, forallb_dimensions. cbn [bind].
  change (dict_get String.eqb [("opt_path", KwValue (PStr dir))] "opt_path")
    with (Some (KwValue (PStr dir))).
  rewrite Hdir. cbn [bind].
  change (filter (fun kv : string * kwarg => negb ("opt_path" =? fst kv)%string)
            [("opt_path", KwValue (PStr dir))]) with (@nil (string * kwarg)).
  unfold check_args. cbn [has_key str_in dict_keys map existsb bind ca_kwargs andb].
  unfold use_sklearn_of, use_skopt_bayes_of, use_skopt_gpmin_of.
  cbn [str_in existsb String.eqb Ascii.eqb Bool.eqb orb andb].
  destruct (sklearn_objective f); cbn [andb negb]; [| eauto].
  rewrite (Hest eq_refl). cbn [bind]. eauto.
Qed.

(** X18.  What resuming reads.  When the document has a member ['space']
    that is an object, each member of that object reads as a dimension,
    the directory of the file can be made and, for a scikit-learn
    objective, [BayesSearchCV] accepts it, [from_gp_parameters] returns an
    optimizer: its parameter space is the list of these dimensions, which
    have the names of the members in the order of the document, and the
    document is its [gpmin_results].  When a member does not read as a
    dimension, the error of that member comes back, whatever the
    directory: such is the [ValueError] of an [Integer] or a [Real] whose
    lower bound is not less than its upper bound.  When the directory
    cannot be made, the error of [os.makedirs] comes back. *)
Theorem resume_reads_the_space
  (env : environment) (fpath : string) (j : json) (f : option objective)
  (members : list (string * json)) :
  json_get j "space" = Ok (JObj members) ->
  (forall spaces,
      dimensions_of_json members = Ok spaces ->
      set_opt_path env (Some (KwValue (PStr (dirname env fpath)))) = Ok tt ->
      (sklearn_objective f = true ->
       estimator_init env "BayesSearchCV" f (SpList (map ItDimension spaces)) []
       = Ok tt) ->
      exists o,
        from_gp_parameters env fpath (Document j) f = Ok o
        /\ _param_space o = SpList (map ItDimension spaces)
        /\ map dname spaces = map fst members
        /\ gpmin_results o = Some (Document j))
  /\ (forall e, dimensions_of_json members = Raise e ->
                from_gp_parameters env fpath (Document j) f = Raise e)
  /\ (forall spaces e,
         dimensions_of_json members = Ok spaces ->
         set_opt_path env (Some (KwValue (PStr (dirname env fpath)))) = Raise e ->
         from_gp_parameters env fpath (Document j) f = Raise e)
  /\ (forall t lo hi p a b k,
         (t = "Integer" \/ t = "Real")%string ->
         num_of lo = Some a -> num_of hi = Some b -> (b <= a)%Q ->
         dimension_of_json k
           (JObj [("type", JStr t); ("low", to_json lo); ("high", to_json hi);
                  ("prior", to_json p)])
         = Raise ValueError).
Proof.
  intros Hj. split; [| split; [| split]].
  - intros spaces Hs Hdir Hest. unfold from_gp_parameters.
    cbn [document_get]. rewrite Hj. cbn [bind]. rewrite Hs. cbn [bind].
    destruct (resume_init env f spaces (dirname env fpath) Hdir Hest)
      as [o Ho].
    rewrite Ho. cbn [bind].
    exists (set_gpmin_results o (Document j)).
    split; [reflexivity |].
    destruct (init_algorithm _ _ _ _ _ _ _ _ Ho)
      as [_ [_ [_ [_ [b [ps' [ca [Hb [_ [Hp [Hps _]]]]]]]]]]].
    change (backend_setter "bayes" (Some "skopt")) with (@Ok string "skopt") in Hb.
    apply ArgsFacts.Ok_inj in Hb. subst b.
    rewrite bayes_list_acceptance, forallb_dimensions in Hp.
    apply ArgsFacts.Ok_inj in Hp.
    split; [| split]; [| now apply dimensions_of_json_names | reflexivity].
    cbn [_param_space set_gpmin_results]. congruence.
  - intros e He. unfold from_gp_parameters. cbn [document_get].
    rewrite Hj. cbn [bind]. rewrite He. reflexivity.
  - intros spaces e Hs Hdir. unfold from_gp_parameters. cbn [document_get].
    rewrite Hj. cbn [bind]. rewrite Hs. cbn [bind]. unfold __init__.
    change (is_algorithm "bayes") with true. cbn [bind].
    change (backend_setter "bayes" (Some "skopt")) with (@Ok string "skopt").
    cbn [bind].
    rewrite bayes_list_acceptance, forallb_dimensions. cbn [bind].
    change (dict_get String.eqb
              [("opt_path", KwValue (PStr (dirname env fpath)))] "opt_path")
      with (Some (KwValue (PStr (dirname env fpath)))).
    rewrite Hdir. reflexivity.
  - intros t lo hi p a b k Ht Ha Hb Hab.
    assert (Hp : proper_bounds lo hi = false).
    { unfold proper_bounds. rewrite Ha, Hb. unfold Qltb.
      apply negb_false_iff. now apply Qle_bool_iff. }
    assert (Hlit : forall x, of_json (to_json x) = Some x)
      by (intros x; destruct x; reflexivity).
    unfold dimension_of_json, with_prior.
    destruct Ht as [-> | ->]; cbn [json_get dict_get String.eqb Ascii.eqb
                                   Bool.eqb bind fst snd];
      rewrite !Hlit; cbn [bind]; now rewrite Hp.
Qed.

Lemma resume_reads_the_space_witness :
  exists o,
    from_gp_parameters Scenario.plain_env "results/gp_parameters.json"
      (Document (JObj [("space",
                        JObj [("x", JObj [("type", JStr "Integer");
                                          ("low", JInt 1); ("high", JInt 9);
                                          ("prior", JStr "uniform")])])]))
      (Some Scenario.half_x) = Ok o
    /\ _param_space o
       = SpList [ItDimension
                   {| kind := KInteger; dname := "x"; low := Some (PInt 1);
                      high := Some (PInt 9); prior := Some (PStr "uniform");
                      grid := None; categories := [] |}].
Proof.
  destruct (proj1 (resume_reads_the_space Scenario.plain_env
                     "results/gp_parameters.json"
                     (JObj [("space",
                             JObj [("x", JObj [("type", JStr "Integer");
                                               ("low", JInt 1); ("high", JInt 9);
                                               ("prior", JStr "uniform")])])])
                     (Some Scenario.half_x) _ eq_refl)
              _ eq_refl eq_refl (fun _ => eq_refl)) as [o [Ho [Hp _]]].
  exists o. split; [exact Ho | exact Hp].
Defined.

End RecordFacts.

(** ** Delegation to the estimator *)

Module EstimatorFacts.

Import Resolver Space Orchestrator ResolverFacts DelegationFacts.

(** X19.  With a scikit-learn estimator as the objective of ['random'],
    ['grid'] or ['bayes'], the constructor wraps it in
    [RandomizedSearchCV], [GridSearchCV] or [BayesSearchCV], and the
    lookup of an attribute ends within one call of [__getattr__]: what the
    object or its class defines is answered by the object, also when the
    estimator has an attribute of that name; anything else is answered by
    the estimator when it has the attribute and raises [AttributeError]
    otherwise.  The interpreter's stack is never used up. *)
Theorem estimator_attributes_are_delegated
  (env : environment) (algorithm : string) (ps : raw_space)
  (f : option objective) (eob : bool) (backend : option string) (kw : kwargs)
  (o : HyperOpt) (item : string) (depth : nat) :
  __init__ env algorithm ps f eob backend kw = Ok o ->
  use_sklearn_of algorithm f || use_skopt_bayes_of algorithm f = true ->
  exists c,
    optfn o = Some c
    /\ c = (if (algorithm =? "random")%string then "RandomizedSearchCV"
            else if (algorithm =? "grid")%string then "GridSearchCV"
            else "BayesSearchCV")
    /\ getattribute env (S depth) o item
       = match lookup env o item with
         | Some v => Ok v
         | None => if estimator_has env c item then Ok (OfEstimator c item)
                   else Raise (AttributeError item)
         end
    /\ getattribute env (S depth) o item <> Raise RecursionError.
Proof.
  intros Hinit Hsk.
  pose proof (init_optfn _ _ _ _ _ _ _ _ Hinit) as Hopt.
  assert (Hc : optfn o
               = Some (if (algorithm =? "random")%string then "RandomizedSearchCV"
                       else if (algorithm =? "grid")%string then "GridSearchCV"
                       else "BayesSearchCV")).
  { rewrite Hopt. unfold use_sklearn_of, use_skopt_bayes_of in *.
    destruct (sklearn_objective f); [| now rewrite !andb_false_r in Hsk].
    rewrite !andb_true_r in *. cbn [str_in existsb] in *.
    destruct (algorithm =? "random")%string; [reflexivity |].
    destruct (algorithm =? "grid")%string; [reflexivity |].
    cbn [orb] in *. now rewrite Hsk. }
  eexists. split; [exact Hc |]. split; [reflexivity |].
  assert (Hget : getattribute env (S depth) o item
                 = match lookup env o item with
                   | Some v => Ok v
                   | None =>
                       if estimator_has env
                            (if (algorithm =? "random")%string
                             then "RandomizedSearchCV"
                             else if (algorithm =? "grid")%string
                                  then "GridSearchCV"
                                  else "BayesSearchCV") item
                       then Ok (OfEstimator
                                  (if (algorithm =? "random")%string
                                   then "RandomizedSearchCV"
                                   else if (algorithm =? "grid")%string
                                        then "GridSearchCV"
                                        else "BayesSearchCV") item)
                       else Raise (AttributeError item)
                   end).
  { destruct (lookup env o item) as [v |] eqn:Hl.
    - unfold getattribute. now rewrite Hl.
    - now apply delegated_attribute_ends. }
  split; [exact Hget |]. rewrite Hget.
  destruct (lookup env o item); [discriminate |].
  destruct (estimator_has env _ item); discriminate.
Qed.

Lemma estimator_attributes_are_delegated_witness :
  let env :=
    {| skopt_minor := 8;
       estimator_has := fun _ item => (item =? "best_params_")%string;
       object_attributes := [];
       dl4seq_mse := fun _ => 0%Q;
       skopt_space_names := fun _ => Raise NotImplementedError;
       suffixed := fun k _ => k;
       engine_iterations := fun _ => Raise NotImplementedError;
       engine_best := fun _ => Raise NotImplementedError;
       set_opt_path := fun _ => Ok tt;
       estimator_init := fun _ _ _ _ => Ok tt;
       dirname := fun _ => "results";
       plots := fun _ => Ok tt |} in
  let estimator :=
    {| of_sklearn := true; varkw := Ok None;
       call_kw := fun _ => Raise (TypeError FromObjective);
       call_pos := fun _ => Raise (TypeError FromObjective);
       call_mapping := fun _ => Raise (TypeError FromObjective) |} in
  exists o c,
    __init__ env "grid" (SpDict [("x", Scenario.ints [2; 1]%Z)])
      (Some estimator) false None [] = Ok o
    /\ optfn o = Some c
    /\ getattribute env 1 o "best_params_"
       = Ok (OfEstimator "GridSearchCV" "best_params_").
Proof.
  intros env estimator. eexists.
  match goal with
  | |- exists c, __init__ _ _ _ _ _ _ _ = Ok ?o /\ _ =>
      destruct (estimator_attributes_are_delegated env "grid"
                  (SpDict [("x", Scenario.ints [2; 1]%Z)])
                  (Some estimator) false None [] o "best_params_" 0
                  eq_refl eq_refl) as [c [Hc [Hname [Hget _]]]]
  end.
  exists c. split; [reflexivity |]. split; [exact Hc |].
  rewrite Hget, Hname. reflexivity.
Defined.

End EstimatorFacts.

(** ** The budget of a search *)

Module BudgetFacts.

Import Resolver Space Orchestrator Budget DictFacts ArgsFacts.

Lemma kw_subscript_has (d : kwargs) (k : string) :
  has_key d k = true -> exists v, kw_subscript d k = Ok v.
Proof.
  rewrite has_key_get. unfold kw_subscript.
  destruct (dict_get String.eqb d k); [eauto | discriminate].
Qed.

Lemma kw_subscript_lacks (d : kwargs) (k : string) :
  has_key d k = false -> kw_subscript d k = Raise (KeyError k).
Proof.
  rewrite has_key_get. unfold kw_subscript.
  destruct (dict_get String.eqb d k); [discriminate | reflexivity].
Qed.

(** X20.  When the number of iterations is there.  [num_iterations] never
    raises for ['tpe'], ['atpe'] and ['random'] on hyperopt nor on optuna,
    where it has a default.  Elsewhere it returns exactly when one of
    ['num_iterations'], ['n_calls'] and ['n_iter'] was given to the
    constructor, and otherwise raises [KeyError] for ['n_iter']. *)
Theorem num_iterations_availability (o : HyperOpt) :
  if has_key (gpmin_args o) "num_iterations"
     || (str_in (Orchestrator.algorithm o) ["tpe"; "atpe"; "random"]
         && (_backend o =? "hyperopt")%string)
     || (_backend o =? "optuna")%string
     || has_key (gpmin_args o) "n_calls"
     || has_key (gpmin_args o) "n_iter"
  then exists v, num_iterations o = Ok v
  else num_iterations o = Raise (KeyError "n_iter").
Proof.
  unfold num_iterations.
  destruct (has_key (gpmin_args o) "num_iterations") eqn:Hn; cbn [orb].
  - now apply kw_subscript_has.
  - destruct (str_in (Orchestrator.algorithm o) ["tpe"; "atpe"; "random"]
              && (_backend o =? "hyperopt")%string); cbn [orb]; [eauto |].
    destruct (_backend o =? "optuna")%string; cbn [orb]; [eauto |].
    destruct (has_key (gpmin_args o) "n_calls") eqn:Hc; cbn [orb].
    + now apply kw_subscript_has.
    + destruct (has_key (gpmin_args o) "n_iter") eqn:Hi.
      * now apply kw_subscript_has.
      * now apply kw_subscript_lacks.
Qed.

Lemma dict_get_renamed (d : kwargs) (old new k : string) :
  old <> new ->
  dict_get String.eqb (renamed d old new) k
  = match dict_get String.eqb d old with
    | Some v => if (k =? new)%string then Some v
                else if (k =? old)%string then None
                     else dict_get String.eqb d k
    | None => dict_get String.eqb d k
    end.
Proof.
  intros Hne. unfold renamed. rewrite has_key_get, dict_pop_spec.
  destruct (dict_get String.eqb d old) as [v |]; [| reflexivity].
  rewrite dict_get_set, dict_get_filter. reflexivity.
Qed.

(** X21.  The renaming at the head of [fmin] and of [own_fit] keeps the
    budget.  [fmin] moves ['num_iterations'] to ['max_evals'] and
    [own_fit] moves it to ['n_calls'], in the keyword arguments that the
    object holds; the property [num_iterations] then reads the same as
    before, for ['tpe'], ['atpe'] and ['random'] on hyperopt after [fmin],
    and for any search that is neither of these nor on optuna after
    [own_fit]. *)
Theorem renaming_keeps_the_budget (o : HyperOpt) :
  (str_in (Orchestrator.algorithm o) ["tpe"; "atpe"; "random"]
   && (_backend o =? "hyperopt")%string = true ->
   num_iterations (fmin_renaming o) = num_iterations o)
  /\ (str_in (Orchestrator.algorithm o) ["tpe"; "atpe"; "random"]
      && (_backend o =? "hyperopt")%string = false ->
      (_backend o =? "optuna")%string = false ->
      num_iterations (own_fit_renaming o) = num_iterations o).
Proof.
  split.
  - intros Htpe. unfold num_iterations, fmin_renaming, kw_subscript, get_default.
    cbn [gpmin_args algorithm _backend set_gpmin_args]. rewrite Htpe.
    rewrite !has_key_get.
    rewrite !dict_get_renamed by discriminate.
    destruct (dict_get String.eqb (gpmin_args o) "num_iterations");
      reflexivity.
  - intros Htpe Hopt.
    unfold num_iterations, own_fit_renaming, kw_subscript, get_default.
    cbn [gpmin_args algorithm _backend set_gpmin_args]. rewrite Htpe, Hopt.
    rewrite !has_key_get.
    rewrite !dict_get_renamed by discriminate.
    destruct (dict_get String.eqb (gpmin_args o) "num_iterations");
      reflexivity.
Qed.

Lemma renaming_keeps_the_budget_witness :
  exists o,
    __init__ Scenario.plain_env "bayes" (SpList [ItTuple [PInt 1; PInt 9]])
      (Some Scenario.half_x) false None
      [("num_iterations", KwValue (PInt 12))] = Ok o
    /\ num_iterations (own_fit_renaming o) = Ok (KwValue (PInt 12)).
Proof.
  eexists. split; [reflexivity |].
  match goal with
  | |- num_iterations (own_fit_renaming ?o) = _ =>
      exact (eq_trans (proj2 (renaming_keeps_the_budget o) eq_refl eq_refl)
               eq_refl)
  end.
Defined.

End BudgetFacts.

(** ** The four ways of searching *)

Module PathFacts.

Import Resolver Space Orchestrator.

(** X22.  The properties [use_sklearn], [use_skopt_bayes],
    [use_skopt_gpmin] and [use_own] split the objects four ways: exactly
    one of them holds of an object.  So the assertions inside
    [use_skopt_bayes] and [use_skopt_gpmin], that the properties before
    them do not hold, never fail; and [use_own] holds exactly when the
    algorithm is not ['bayes'] and [use_sklearn] does not hold. *)
Theorem search_paths_partition (o : HyperOpt) :
  (if use_sklearn o then 1 else 0) + (if use_skopt_bayes o then 1 else 0)
  + (if use_skopt_gpmin o then 1 else 0) + (if use_own o then 1 else 0) = 1
  /\ (use_skopt_bayes o = true -> use_sklearn o = false)
  /\ (use_skopt_gpmin o = true ->
      use_sklearn o = false /\ use_skopt_bayes o = false)
  /\ (use_own o = true <->
      Orchestrator.algorithm o <> "bayes" /\ use_sklearn o = false).
Proof.
  unfold use_sklearn, use_skopt_bayes, use_skopt_gpmin, use_own.
  unfold use_own_of.
  unfold use_sklearn_of, use_skopt_bayes_of, use_skopt_gpmin_of.
  destruct (String.eqb_spec (Orchestrator.algorithm o) "bayes") as [E | Hne].
  - rewrite E. change (str_in "bayes" ["random"; "grid"]) with false.
    destruct (sklearn_objective (objective_fn o)); cbn [andb negb Nat.add];
      repeat split; intros; try reflexivity; try discriminate;
      match goal with
      | H : _ /\ _ |- _ => destruct H; congruence
      end.
  - remember (str_in (Orchestrator.algorithm o) ["random"; "grid"]) as r.
    destruct r; destruct (sklearn_objective (objective_fn o));
      cbn [andb negb Nat.add];
      repeat split; intros; try reflexivity; try discriminate;
      try assumption;
      match goal with
      | H : _ /\ _ |- _ => destruct H; congruence
      end.
Qed.

End PathFacts.

(** ** The evaluation on the best trial *)

Module BestEvaluationFacts.

Import Resolver Space Orchestrator Search Best.

(** X23.  [eval_with_best] never returns for an objective that takes
    named arguments, the dl4seq model included: once [best_paras] has
    given the best parameters, as a list, the call that unpacks them as
    keywords raises [TypeError].  When [eval_with_best] does return, the
    objective takes positional arguments and was handed the mapping that
    [best_paras] returns, as one argument. *)
Theorem eval_with_best_outcomes (env : environment) (o : HyperOpt) :
  (use_named_args o = Ok true ->
   eval_with_best env o
   = match best_paras env o with
     | Ok _ => Raise (TypeError FromLibrary)
     | Raise e => Raise e
     end)
  /\ (forall x, eval_with_best env o = Ok x ->
        use_named_args o = Ok false /\ best_paras env o = Ok x).
Proof.
  unfold eval_with_best, best_paras_as_list. split.
  - intros ->. cbn [bind]. now destruct (best_paras env o).
  - intros x. destruct (use_named_args o) as [[|] |]; cbn [bind].
    + destruct (best_paras env o); discriminate.
    + destruct (best_paras env o) as [x' |]; cbn [bind]; [| discriminate].
      destruct (objective_fn o); [| discriminate].
      intros H. apply ArgsFacts.Ok_inj in H. now subst.
    + discriminate.
Qed.

Lemma eval_with_best_outcomes_witness :
  exists o,
    snd (Scenario.fit_grid (SpDict [("x", Scenario.ints [2; 1]%Z)])
           Scenario.half_x) = Ok o
    /\ best_paras Scenario.plain_env o = Ok [("x", PInt 2)]
    /\ eval_with_best Scenario.plain_env o = Raise (TypeError FromLibrary).
Proof.
  eexists. split; [reflexivity |]. split; [reflexivity |].
  match goal with
  | |- eval_with_best _ ?o = _ =>
      exact (eq_trans (proj1 (eval_with_best_outcomes Scenario.plain_env o)
                         eq_refl) eq_refl)
  end.
Defined.

End BestEvaluationFacts.

(** ** Which trial the index lets win *)

Module FirstTrialFacts.

Import Resolver Space Orchestrator Search Keys SearchFacts LoopFacts BestFacts.

Lemma key_bounds (r : Q) (idx : nat) :
  (0 <= r)%Q -> (r < 1)%Q ->
  (inject_Z (Z.of_nat idx) <= add_index r idx)%Q
  /\ (add_index r idx < inject_Z (Z.of_nat (S idx)))%Q.
Proof.
  intros H0 H1. unfold add_index. rewrite Qred_correct.
  rewrite Nat2Z.inj_succ. unfold Z.succ. rewrite inject_Z_plus.
  change (inject_Z 1) with 1%Q.
  generalize (inject_Z (Z.of_nat idx)). intros q.
  split; lra.
Qed.

Lemma trial_keys_increase env o ps :
  use_dl4seq_model o = false ->
  (forall para err, In para ps -> snd (invoke o para) = Ok err ->
                    (0 <= py_round 8 err)%Q /\ (py_round 8 err < 1)%Q) ->
  forall idx,
    Forall (fun k => (inject_Z (Z.of_nat idx) <= k)%Q) (trial_keys env o idx ps)
    /\ StronglySorted Qlt (trial_keys env o idx ps).
Proof.
  intros Hd. induction ps as [| para ps IH]; intros Hb idx; cbn [trial_keys].
  - split; constructor.
  - unfold trial_key. rewrite Hd.
    destruct (snd (invoke o para)) as [err |] eqn:He; cbn [bind];
      [| split; constructor].
    destruct (Hb para err (or_introl eq_refl) He) as [H0 H1].
    destruct (IH (fun p e Hin => Hb p e (or_intror Hin)) (S idx)) as [Hge Hs].
    destruct (key_bounds (py_round 8 err) idx H0 H1) as [Hlo Hhi].
    split.
    + constructor; [exact Hlo |].
      eapply Forall_impl; [| exact Hge]. intros k Hk. cbv beta in Hk.
      apply Qle_trans with (inject_Z (Z.of_nat (S idx))); [| exact Hk].
      rewrite <- Zle_Qle. lia.
    + constructor; [exact Hs |].
      eapply Forall_impl; [| exact Hge]. intros k Hk. cbv beta in Hk.
      now apply Qlt_le_trans with (inject_Z (Z.of_nat (S idx))).
Qed.

Lemma less_is_not_equal (a b : Q) : (a < b)%Q -> Qeq_bool a b = false.
Proof.
  intros Hab. destruct (Qeq_bool a b) eqn:E; [| reflexivity].
  apply Qeq_bool_iff in E. rewrite E in Hab.
  exfalso. exact (Qlt_irrefl _ Hab).
Qed.

Lemma increasing_keys_distinct (l : list Q) :
  StronglySorted Qlt l ->
  ForallOrdPairs (fun a b => Qeq_bool a b = false) l.
Proof.
  induction 1 as [| a l Hs IH Hall]; constructor; [| exact IH].
  eapply Forall_impl; [| exact Hall]. intros b. apply less_is_not_equal.
Qed.

(** X24.  Which trial the added index lets win.  When the objective is
    not the dl4seq model, the store is empty and the rounded value of
    every trial lies in the interval from 0 (included) to 1 (excluded), a
    loop of [eval_sequence] that ends leaves the entry of its first trial
    under the least key: the best-trial query picks what the first trial
    stored, whatever the values of the later trials.  (The sums are exact
    here.  [eval_sequence] starts at the index 0: in binary64 its first
    sum is exact and below 1, and no later sum rounds below 1.) *)
Theorem first_trial_is_taken_for_the_best
  (env : environment) (para0 : params) (rest : list params) (idx : nat)
  (o o' : HyperOpt) (calls : list call) :
  use_dl4seq_model o = false ->
  results o = [] ->
  (forall para err, In para (para0 :: rest) -> snd (invoke o para) = Ok err ->
                    (0 <= py_round 8 err)%Q /\ (py_round 8 err < 1)%Q) ->
  eval_from env idx (para0 :: rest) o = (calls, Ok o') ->
  exists k x c o1,
    eval_trial env o idx para0 = (c, Ok o1)
    /\ results o1 = [(k, x)]
    /\ first_key (results o') = Ok k
    /\ subscript (results o') k = Ok x.
Proof.
  intros Hd Hres Hb H.
  destruct (eval_from_inv _ _ _ _ _ _ H) as [_ [_ Hkeys]].
  destruct (trial_keys_increase env o (para0 :: rest) Hd Hb idx) as [_ Hs].
  cbn [eval_from] in H.
  destruct (eval_trial env o idx para0) as [c r] eqn:Ht.
  destruct r as [o1 |]; [| discriminate].
  destruct (eval_from env (S idx) rest o1) as [c' r'] eqn:Hf.
  injection H as _ H. subst r'.
  destruct (eval_trial_inv _ _ _ _ _ _ Ht) as [k [x [Hk Ho1]]].
  exists k, x, c, o1. split; [reflexivity |].
  assert (Hr1 : results o1 = [(k, x)]).
  { subst o1. cbn [results set_results]. now rewrite Hres. }
  split; [exact Hr1 |].
  rewrite Hres in Hkeys. cbn [dict_keys map] in Hkeys.
  rewrite fold_keys_distinct in Hkeys
    by (cbn [app]; now apply increasing_keys_distinct).
  cbn [app trial_keys] in Hkeys, Hs. rewrite Hk in Hkeys, Hs.
  apply StronglySorted_inv in Hs. destruct Hs as [_ Hlt].
  assert (Hne : results o' <> []).
  { intros E. rewrite E in Hkeys. discriminate. }
  destruct (least_key_exists (results o') Hne)
    as [k1 [x1 [Hfk [_ [Hin [Hle _]]]]]].
  assert (Hk1 : k1 = k).
  { rewrite Hkeys in Hin, Hle. destruct Hin as [<- | Hin]; [reflexivity |].
    exfalso. rewrite Forall_forall in Hlt.
    exact (Qlt_not_le _ _ (Hlt k1 Hin) (Hle k (or_introl eq_refl))). }
  subst k1. split; [exact Hfk |].
  unfold subscript. rewrite (eval_from_get env rest (S idx) _ c' o' Hf k).
  - rewrite Hr1. cbn [dict_get].
    replace (Qeq_bool k k) with true; [reflexivity |].
    symmetry. apply Qeq_bool_iff. reflexivity.
  - rewrite (trial_keys_agree env o o1 rest) by (subst o1; reflexivity).
    eapply Forall_impl; [| exact Hlt]. intros b. apply less_is_not_equal.
Qed.

Lemma first_trial_is_taken_for_the_best_witness :
  exists o o',
    __init__ Scenario.plain_env "grid"
      (SpDict [("x", Scenario.ints [1; 0]%Z)])
      (Some Scenario.half_x) false None [] = Ok o
    /\ eval_from Scenario.plain_env 0 [[("x", PInt 1)]; [("x", PInt 0)]] o
       = ([CallKw [("x", PInt 1)]; CallKw [("x", PInt 0)]], Ok o')
    /\ call_kw Scenario.half_x [("x", PInt 1)] = Ok (1 # 2)%Q
    /\ call_kw Scenario.half_x [("x", PInt 0)] = Ok 0%Q
    /\ exists k, first_key (results o') = Ok k
                 /\ subscript (results o') k = Ok [("x", PInt 1)].
Proof.
  eexists. eexists. split; [reflexivity |].
  match goal with
  | |- eval_from _ _ _ ?o = _ /\ _ => set (o0 := o)
  end.
  split; [reflexivity |]. split; [reflexivity |]. split; [reflexivity |].
  match goal with
  | |- exists k, first_key (results ?o') = _ /\ _ =>
      destruct (first_trial_is_taken_for_the_best Scenario.plain_env
                  [("x", PInt 1)] [[("x", PInt 0)]] 0 o0 o'
                  [CallKw [("x", PInt 1)]; CallKw [("x", PInt 0)]]
                  eq_refl eq_refl) as [k [x [c [o1 [Ht [Hr [Hf Hs]]]]]]]
  end.
  - intros para err Hin He. simpl in Hin.
    destruct Hin as [<- | [<- | []]];
      apply ArgsFacts.Ok_inj in He; subst err;
      (split; [discriminate | reflexivity]).
  - reflexivity.
  - exists k. split; [exact Hf |].
    rewrite Hs. f_equal.
    apply (f_equal snd) in Ht. cbn [snd] in Ht.
    apply ArgsFacts.Ok_inj in Ht. subst o1.
    apply (f_equal (fun l => match l with
                             | [(_, y)] => y
                             | _ => []
                             end)) in Hr.
    symmetry. exact Hr.
Defined.

End FirstTrialFacts.
